(** * modbusd: the Modbus client codec, embedded from the Go sources

    The development follows the source files: the address translator and the
    request encoder ([Relative], [Absolute], [Request.Encode]), the frame
    model ([PDU], [ADU], [NewADU], [Bytes], [ErrorCRC], [ErrorLRC]), the
    shared decoder state machine ([Recover] and its section handlers) and
    the client engine ([do]).

    Go values are embedded as follows.
    - [byte] is [Byte.byte]; [uint16] and [uint64] are [Z] with the
      wrap-around written out ([u16], [u64]); the cursor [cnt] of the decoder
      is a Go [byte] and is kept as a [Z] reduced modulo 256 on every
      increment.
    - a [[]byte] is a [list byte]; the [nil] slice and the empty slice are
      both [[]] (the sources only ever test them through [len] or through
      [Bytes], which writes nothing for either).
    - a function returning [(T, error)] returns a [result T]: a value, an
      error value, or a run-time panic (index or slice bounds out of range,
      nil dereference), which Go raises where the model says [Panic].
    - loops that the source writes as [for { ... }] take a [fuel] argument;
      running out of fuel is [None] and is never confused with a result.

    The second part covers the encoders of the three protocols, the parsing
    of URLs and address strings, the client ([Request], [Read]) over the
    [Transport] and [Protocol] interfaces, and the TCP transport with the
    mutex and the response buffer of [TransportBase].  Its functions return
    an [xresult], which adds their own errors to those of the first part;
    Go strings are [string]s of bytes. *)

From Stdlib Require Import ZArith List String Ascii Bool Lia.
From Stdlib Require Import Strings.Byte.
Import ListNotations.

Local Open Scope Z_scope.

(** ** Machine integers and bytes *)

Definition byte := Byte.byte.

Definition byte_to_Z (b : byte) : Z := Z.of_N (Byte.to_N b).

(** Go's conversion [byte(v)]: the low eight bits. *)
Definition Z_to_byte (z : Z) : byte :=
  match Byte.of_N (Z.to_N (z mod 256)) with
  | Some b => b
  | None => x00
  end.

Definition u8 (z : Z) : Z := z mod 256.
Definition u16 (z : Z) : Z := z mod 65536.
Definition u64 (z : Z) : Z := z mod 18446744073709551616.

(** ** Results of Go calls *)

Inductive panic : Type :=
| IndexOutOfRange
| SliceBoundsOutOfRange
| NilDereference.

Inductive State : Type := TCOMPLETE | TRESET | TPROCESS | TFAILURE.

Inductive Section : Type :=
| SMBAP | SRTU | SASCII | SPDU | SERR | SDONE | SFAIL | SSOF | SEOF.

Inductive Element : Type :=
| ENONE | ETRANSID | EPROTOID | ESLAVEID | EFNCODE | ELENGTH | EEXCODE
| EDATA | ECRC | ELRC.

(** One constructor per [fmt.Errorf] call of the embedded functions, with the
    value the message prints. *)
Inductive error : Type :=
| ErrRelative (absolute : Z)            (* Unable to convert address to relative *)
| ErrAbsolute (relative : Z)            (* Unable to convert address to absolute value *)
| ErrRequestFunction (fncode : byte)    (* Unsupported function code: (Request.Encode) *)
| ErrFailureToProcess                   (* Failure to process response *)
| ErrUnableToProcess                    (* Unable to process response *)
| ErrUnableToCreateADU                  (* Unable to create ADU *)
| ErrSectionCode (start : Section)      (* Unsupported protocol section code: (Recover) *)
| ErrElementErrorChecking (e : Element) (* Unsupported element type (Error checking) *)
| ErrAlignmentSOF (sof : list byte)     (* Frame alignment error (SOF) *)
| ErrNoSOF (start : Section)            (* Protocol does not support a Start Of Frame *)
| ErrAlignmentEOF (eof : list byte)     (* Frame alignment error (EOF) *)
| ErrNoEOF (start : Section)            (* Protocol does not support a End Of Frame *)
| ErrElementMBAP (e : Element)          (* Unsupported element type (MBAP) *)
| ErrHeaderTooShort (len : Z)           (* Response header too short at .. bytes *)
| ErrElementRTU (e : Element)           (* Unsupported element type (RTU) *)
| ErrElementASCII (e : Element)         (* Unsupported element type (ASCII) *)
| ErrResponseTooShort (len : Z)         (* Response too short at .. bytes *)
| ErrCRCMismatch (crcResponse crc : Z)  (* Error checking CRC mismatch *)
| ErrFunctionCode (fncode : byte)       (* Unsupported function code; (handlePDU) *)
| ErrSectionCodePDU (e : Element)       (* Unsupported protocol section code: (handlePDU) *)
| ErrExceptionCode (excode : byte)      (* Unsupported exception code *)
| ErrIllegalLength (len : Z)            (* Illegal length *)
| ErrElementPDU (e : Element)           (* Unsupported element type (PDU) *)
| ErrTransport (msg : string)           (* an error value of the transport *)
| ErrRequestFailed (e : error)          (* Request failed: .. *)
| ErrListen (e : error)                 (* Transport unable to listen: .. *)
| ErrDecode (e : error).                (* Unable to decode response: .. *)

Inductive result (A : Type) : Type :=
| Ok (a : A)
| Err (e : error)
| Panic (p : panic).

Arguments Ok {A} a.
Arguments Err {A} e.
Arguments Panic {A} p.

Definition bind {A B : Type} (r : result A) (k : A -> result B) : result B :=
  match r with
  | Ok a => k a
  | Err e => Err e
  | Panic p => Panic p
  end.

Notation "x <- r ;; k" := (bind r (fun x => k))
  (at level 61, r at next level, right associativity).

(** ** Function codes (modbus.go) *)

Definition FnCode := byte.

Definition INIT : FnCode := x00.
Definition RDCO : FnCode := x01.
Definition RDDI : FnCode := x02.
Definition RDHR : FnCode := x03.
Definition RDIR : FnCode := x04.
Definition RSID : FnCode := x11.
Definition FERR : FnCode := x80.

(** ** Address translator (modbus.go) *)

(** [Relative(absolute uint64, fncode *FnCode) (uint64, error)]: the function
    stores the function code through the pointer on every path and returns the
    relative address together with the error, so the model returns the three
    of them. *)
Definition Relative (absolute : Z) : FnCode * Z * option error :=
  if (0 <=? absolute) && (absolute <=? 65535) then
    (RDCO, absolute, None)
  else if (100000 <=? absolute) && (absolute <=? 165535) then
    (RDDI, u64 (absolute - 100000), None)
  else if (300000 <=? absolute) && (absolute <=? 365535) then
    (RDIR, u64 (absolute - 300000), None)
  else if (400000 <=? absolute) && (absolute <=? 465535) then
    (RDHR, u64 (absolute - 400000), None)
  else
    (FERR, absolute, Some (ErrRelative absolute)).

(** [Absolute(fncode FnCode, relative uint64) (uint64, error)]. *)
Definition Absolute (fncode : FnCode) (relative : Z) : Z * option error :=
  match fncode with
  | x01 => (relative, None)
  | x02 => (u64 (relative + 100000), None)
  | x04 => (u64 (relative + 300000), None)
  | x03 => (u64 (relative + 400000), None)
  | _ => (relative, Some (ErrAbsolute relative))
  end.

(** The four legal ranges of an absolute register number. *)
Definition legal_absolute (absolute : Z) : Prop :=
  0 <= absolute <= 65535 \/
  100000 <= absolute <= 165535 \/
  300000 <= absolute <= 365535 \/
  400000 <= absolute <= 465535.

(** ** Frame model (modbus.go) *)

Record PDU : Type := mkPDU {
  pdu_FnCode : list byte;
  pdu_Data : list byte
}.

(** [NewPDU(fncode)]: never fails. *)
Definition NewPDU (fncode : FnCode) : result PDU :=
  Ok {| pdu_FnCode := [fncode]; pdu_Data := [] |}.

Record Request : Type := mkRequest {
  req_FnCode : FnCode;
  req_Address : Z;   (* uint16, relative *)
  req_Quantity : Z   (* uint16 *)
}.

(** [binary.BigEndian.Uint16(b)]: panics when [b] has fewer than two bytes. *)
Definition Uint16 (b : list byte) : result Z :=
  match b with
  | hi :: lo :: _ => Ok (Z.lor (Z.shiftl (byte_to_Z hi) 8) (byte_to_Z lo))
  | _ => Panic IndexOutOfRange
  end.

(** [binary.BigEndian.PutUint16(b, v)]: writes the two bytes in place and
    panics when [b] has fewer than two bytes. *)
Definition PutUint16 (b : list byte) (v : Z) : result (list byte) :=
  match b with
  | _ :: _ :: rest => Ok (Z_to_byte (Z.shiftr v 8) :: Z_to_byte v :: rest)
  | _ => Panic IndexOutOfRange
  end.

(** [make([]byte, n)]. *)
Definition make (n : nat) : list byte := repeat x00 n.

(** [s[low:]]: panics when [low] exceeds the length. *)
Definition slice_from (s : list byte) (low : Z) : result (list byte) :=
  if (0 <=? low) && (low <=? Z.of_nat (List.length s))
  then Ok (skipn (Z.to_nat low) s)
  else Panic SliceBoundsOutOfRange.

(** [s[i]] as a value. *)
Definition index (s : list byte) (i : Z) : result byte :=
  if 0 <=? i then
    match nth_error s (Z.to_nat i) with
    | Some b => Ok b
    | None => Panic IndexOutOfRange
    end
  else Panic IndexOutOfRange.

(** [s[i] = v]. *)
Definition set_index (s : list byte) (i : Z) (v : byte) : result (list byte) :=
  if (0 <=? i) && (i <? Z.of_nat (List.length s))
  then Ok (firstn (Z.to_nat i) s ++ v :: skipn (S (Z.to_nat i)) s)
  else Panic IndexOutOfRange.

(** [binary.BigEndian.PutUint16(s[low:], v)]: the write goes through the
    sub-slice into [s] itself. *)
Definition PutUint16_at (s : list byte) (low : Z) (v : Z) : result (list byte) :=
  tl <- slice_from s low ;;
  tl' <- PutUint16 tl v ;;
  Ok (firstn (Z.to_nat low) s ++ tl').

(** [Request.Encode()], returning a PDU pointer and an error.  The unsupported case returns the error
    next to an empty [&PDU{}] that no caller reads; the model keeps the
    error. *)
Definition Request_Encode (r : Request) : result PDU :=
  pdu <- NewPDU (req_FnCode r) ;;
  match req_FnCode r with
  | x11 =>
      Ok {| pdu_FnCode := pdu_FnCode pdu; pdu_Data := make 0 |}
  | x01 | x02 | x03 | x04 =>
      d <- PutUint16 (make 4) (req_Address r) ;;
      d <- PutUint16_at d 2 (req_Quantity r) ;;
      Ok {| pdu_FnCode := pdu_FnCode pdu; pdu_Data := d |}
  | _ => Err (ErrRequestFunction (req_FnCode r))
  end.

(** The ADU of modbus.go: the embedded [MBAP] and [PDU] structs are
    flattened into the record. *)
Record ADU : Type := mkADU {
  adu_SOF : list byte;
  adu_Hdr : list byte;
  adu_TransactionId : Z;        (* uint16 *)
  adu_ProtocolId : Z;           (* uint16 *)
  adu_Length : Z;               (* uint16 *)
  adu_SlaveId : byte;
  adu_Err : list byte;
  adu_CRC : Z;                  (* uint16 *)
  adu_ExceptionCode : byte;
  adu_Exception : string;
  adu_Timeout : bool;
  adu_FnCode : list byte;
  adu_Data : list byte;
  adu_EOF : list byte
}.

Definition set_SOF (v : list byte) (d : ADU) : ADU :=
  mkADU v (adu_Hdr d) (adu_TransactionId d) (adu_ProtocolId d) (adu_Length d)
        (adu_SlaveId d) (adu_Err d) (adu_CRC d) (adu_ExceptionCode d)
        (adu_Exception d) (adu_Timeout d) (adu_FnCode d) (adu_Data d) (adu_EOF d).
Definition set_Hdr (v : list byte) (d : ADU) : ADU :=
  mkADU (adu_SOF d) v (adu_TransactionId d) (adu_ProtocolId d) (adu_Length d)
        (adu_SlaveId d) (adu_Err d) (adu_CRC d) (adu_ExceptionCode d)
        (adu_Exception d) (adu_Timeout d) (adu_FnCode d) (adu_Data d) (adu_EOF d).
Definition set_TransactionId (v : Z) (d : ADU) : ADU :=
  mkADU (adu_SOF d) (adu_Hdr d) v (adu_ProtocolId d) (adu_Length d)
        (adu_SlaveId d) (adu_Err d) (adu_CRC d) (adu_ExceptionCode d)
        (adu_Exception d) (adu_Timeout d) (adu_FnCode d) (adu_Data d) (adu_EOF d).
Definition set_ProtocolId (v : Z) (d : ADU) : ADU :=
  mkADU (adu_SOF d) (adu_Hdr d) (adu_TransactionId d) v (adu_Length d)
        (adu_SlaveId d) (adu_Err d) (adu_CRC d) (adu_ExceptionCode d)
        (adu_Exception d) (adu_Timeout d) (adu_FnCode d) (adu_Data d) (adu_EOF d).
Definition set_Length (v : Z) (d : ADU) : ADU :=
  mkADU (adu_SOF d) (adu_Hdr d) (adu_TransactionId d) (adu_ProtocolId d) v
        (adu_SlaveId d) (adu_Err d) (adu_CRC d) (adu_ExceptionCode d)
        (adu_Exception d) (adu_Timeout d) (adu_FnCode d) (adu_Data d) (adu_EOF d).
Definition set_SlaveId (v : byte) (d : ADU) : ADU :=
  mkADU (adu_SOF d) (adu_Hdr d) (adu_TransactionId d) (adu_ProtocolId d) (adu_Length d)
        v (adu_Err d) (adu_CRC d) (adu_ExceptionCode d)
        (adu_Exception d) (adu_Timeout d) (adu_FnCode d) (adu_Data d) (adu_EOF d).
Definition set_Err (v : list byte) (d : ADU) : ADU :=
  mkADU (adu_SOF d) (adu_Hdr d) (adu_TransactionId d) (adu_ProtocolId d) (adu_Length d)
        (adu_SlaveId d) v (adu_CRC d) (adu_ExceptionCode d)
        (adu_Exception d) (adu_Timeout d) (adu_FnCode d) (adu_Data d) (adu_EOF d).
Definition set_CRC (v : Z) (d : ADU) : ADU :=
  mkADU (adu_SOF d) (adu_Hdr d) (adu_TransactionId d) (adu_ProtocolId d) (adu_Length d)
        (adu_SlaveId d) (adu_Err d) v (adu_ExceptionCode d)
        (adu_Exception d) (adu_Timeout d) (adu_FnCode d) (adu_Data d) (adu_EOF d).
Definition set_ExceptionCode (v : byte) (d : ADU) : ADU :=
  mkADU (adu_SOF d) (adu_Hdr d) (adu_TransactionId d) (adu_ProtocolId d) (adu_Length d)
        (adu_SlaveId d) (adu_Err d) (adu_CRC d) v
        (adu_Exception d) (adu_Timeout d) (adu_FnCode d) (adu_Data d) (adu_EOF d).
Definition set_Exception (v : string) (d : ADU) : ADU :=
  mkADU (adu_SOF d) (adu_Hdr d) (adu_TransactionId d) (adu_ProtocolId d) (adu_Length d)
        (adu_SlaveId d) (adu_Err d) (adu_CRC d) (adu_ExceptionCode d)
        v (adu_Timeout d) (adu_FnCode d) (adu_Data d) (adu_EOF d).
Definition set_Timeout (v : bool) (d : ADU) : ADU :=
  mkADU (adu_SOF d) (adu_Hdr d) (adu_TransactionId d) (adu_ProtocolId d) (adu_Length d)
        (adu_SlaveId d) (adu_Err d) (adu_CRC d) (adu_ExceptionCode d)
        (adu_Exception d) v (adu_FnCode d) (adu_Data d) (adu_EOF d).
Definition set_FnCode (v : list byte) (d : ADU) : ADU :=
  mkADU (adu_SOF d) (adu_Hdr d) (adu_TransactionId d) (adu_ProtocolId d) (adu_Length d)
        (adu_SlaveId d) (adu_Err d) (adu_CRC d) (adu_ExceptionCode d)
        (adu_Exception d) (adu_Timeout d) v (adu_Data d) (adu_EOF d).
Definition set_Data (v : list byte) (d : ADU) : ADU :=
  mkADU (adu_SOF d) (adu_Hdr d) (adu_TransactionId d) (adu_ProtocolId d) (adu_Length d)
        (adu_SlaveId d) (adu_Err d) (adu_CRC d) (adu_ExceptionCode d)
        (adu_Exception d) (adu_Timeout d) (adu_FnCode d) v (adu_EOF d).
Definition set_EOF (v : list byte) (d : ADU) : ADU :=
  mkADU (adu_SOF d) (adu_Hdr d) (adu_TransactionId d) (adu_ProtocolId d) (adu_Length d)
        (adu_SlaveId d) (adu_Err d) (adu_CRC d) (adu_ExceptionCode d)
        (adu_Exception d) (adu_Timeout d) (adu_FnCode d) (adu_Data d) v.

(** [NewADU(pdu)]: a nil [pdu] is replaced by [NewPDU(FERR)]; every other
    field keeps its zero value. *)
Definition NewADU (pdu : option PDU) : result ADU :=
  pdu <- match pdu with
         | None => NewPDU FERR
         | Some pdu => Ok pdu
         end ;;
  Ok {| adu_SOF := []; adu_Hdr := [];
        adu_TransactionId := 0; adu_ProtocolId := 0; adu_Length := 0;
        adu_SlaveId := x00; adu_Err := []; adu_CRC := 0;
        adu_ExceptionCode := x00; adu_Exception := EmptyString;
        adu_Timeout := false;
        adu_FnCode := pdu_FnCode pdu; adu_Data := pdu_Data pdu;
        adu_EOF := [] |}.

(** [ADU.Bytes()]: each non-nil section is written in turn; the writes to the
    [bytes.Buffer] cannot fail. *)
Definition Bytes (d : ADU) : result (list byte) :=
  Ok (adu_SOF d ++ adu_Hdr d ++ adu_FnCode d ++ adu_Data d ++ adu_Err d ++ adu_EOF d).

(** *** Checksums *)

(** Modelled from the spec: the [CRC] type (crc.go: [reset], [calculate],
    [value]) is not among the sources.  Section 4.A: polynomial 0xA001
    (reflected 0x8005), initial value 0xFFFF, no final XOR, reflected input
    and output.  [CRC_shift] is the step for one bit. *)
Definition CRC_shift (crc : Z) : Z :=
  if Z.testbit crc 0 then Z.lxor (Z.shiftr crc 1) 0xA001 else Z.shiftr crc 1.

(** Modelled from the spec: the CRC step for one byte (crc.go is missing). *)
Definition CRC_update (crc : Z) (b : byte) : Z :=
  Nat.iter 8 CRC_shift (Z.lxor crc (byte_to_Z b)).

(** Modelled from the spec: [crc.reset()], the initial value 0xFFFF. *)
Definition CRC_reset : Z := 0xFFFF.

(** Modelled from the spec: [crc.calculate(bs)], the CRC-16 over [bs]. *)
Definition CRC_calculate (crc : Z) (bs : list byte) : Z :=
  fold_left CRC_update bs crc.

(** Modelled from the spec: [crc.value()], with no final XOR. *)
Definition CRC_value (crc : Z) : Z := crc.

(** Modelled from the spec: the LRC-8 of section 4.A, the twos-complement of
    the 8-bit sum of the bytes.  No function of the sources computes it. *)
Definition LRC8 (bs : list byte) : byte :=
  Z_to_byte (- fold_left (fun acc b => u8 (acc + byte_to_Z b)) bs 0).

(** [ADU.ErrorCRC()]. *)
Definition ErrorCRC (d : ADU) : result ADU :=
  let d := set_Err [] d in
  aduBytes <- Bytes d ;;
  let crc := CRC_calculate CRC_reset aduBytes in
  let d := set_CRC (CRC_value crc) d in
  let d := set_Err (make 2) d in
  e <- set_index (adu_Err d) 0 (Z_to_byte (Z.shiftr (adu_CRC d) 8)) ;;
  e <- set_index e 1 (Z_to_byte (adu_CRC d)) ;;
  Ok (set_Err e d).

(** [ADU.ErrorLRC()]: the source sets [d.Err = nil], serializes the ADU,
    tests the serialization against [nil] with an empty body, and returns. *)
Definition ErrorLRC (d : ADU) : result ADU :=
  let d := set_Err [] d in
  aduBytes <- Bytes d ;;
  Ok d.

(** *** Exception codes *)

Definition ExCode := byte.

(** The [Exception] map of modbus.go. *)
Definition Exception : list (ExCode * string) :=
  [ (x01, "Illegal function code"%string);
    (x02, "Illegal data address"%string);
    (x03, "Illegal data value"%string);
    (x04, "Server device failure"%string);
    (x05, "Acknowledge"%string);
    (x06, "Server device busy"%string);
    (x08, "Memory parity error"%string);
    (x0a, "Gateway path unavailable"%string);
    (x0b, "Gateway target device failed to respond"%string) ].

Definition Exception_lookup (c : ExCode) : option string :=
  match find (fun kv => Byte.eqb (fst kv) c) Exception with
  | Some kv => Some (snd kv)
  | None => None
  end.

(** ** Wire constants *)

Definition LSID : Z := 1.
Definition LFNC : Z := 1.
Definition LCRC : Z := 2.
Definition LMBAP : Z := 7.
Definition LTID : Z := 2.
Definition LPID : Z := 2.
Definition LLEN : Z := 2.
Definition LSOF : Z := 1.
Definition LEOF : Z := 2.
Definition LLRC : Z := 1.

Definition COLON : byte := x3a.
Definition CR : byte := x0d.
Definition LF : byte := x0a.

(** The ADU that [NewADU(nil)] returns. *)
Definition fresh_ADU : ADU :=
  mkADU [] [] 0 0 0 x00 [] 0 x00 EmptyString false [FERR] [] [].

(** ** The shared decoder state machine (protocol.go) *)

(** The variables that [Recover] hands to its section handlers: the ADU
    pointer and the pointers to [cnt], [section] and [element]. *)
Record machine : Type := mkMachine {
  m_adu : ADU;
  m_cnt : Z;                    (* byte *)
  m_section : Section;
  m_element : Element
}.

Definition with_adu (d : ADU) (m : machine) : machine :=
  mkMachine d (m_cnt m) (m_section m) (m_element m).
Definition with_cnt (c : Z) (m : machine) : machine :=
  mkMachine (m_adu m) c (m_section m) (m_element m).
Definition with_section (s : Section) (m : machine) : machine :=
  mkMachine (m_adu m) (m_cnt m) s (m_element m).
Definition with_element (e : Element) (m : machine) : machine :=
  mkMachine (m_adu m) (m_cnt m) (m_section m) e.

(** The outcome of one pass through the body of a [for { ... }] loop. *)
Inductive flow (A : Type) : Type :=
| Continue (a : A)
| Break (a : A).

Arguments Continue {A} a.
Arguments Break {A} a.

(** A computation that may not return: [None] is "out of fuel". *)
Definition comp (A : Type) : Type := option (result A).

Definition ret {A : Type} (r : result A) : comp A := Some r.

Definition cbind {A B : Type} (c : comp A) (k : A -> comp B) : comp B :=
  match c with
  | None => None
  | Some (Ok a) => k a
  | Some (Err e) => Some (Err e)
  | Some (Panic p) => Some (Panic p)
  end.

Notation "x <-- c ;;; k" := (cbind c (fun x => k))
  (at level 61, c at next level, right associativity).

(** Runs a loop body until it breaks, fails or panics; [None] when the fuel
    runs out first. *)
Fixpoint loop {A : Type} (fuel : nat) (body : A -> comp (flow A)) (a : A)
  : comp A :=
  match fuel with
  | O => None
  | S fuel' =>
      match body a with
      | None => None
      | Some (Ok (Continue a')) => loop fuel' body a'
      | Some (Ok (Break a')) => Some (Ok a')
      | Some (Err e) => Some (Err e)
      | Some (Panic p) => Some (Panic p)
      end
  end.

Definition len (s : list byte) : Z := Z.of_nat (List.length s).

(** [handleSOF]. *)
Definition handleSOF (response : list byte) (start : Section) (m : machine)
  : result machine :=
  match start with
  | SMBAP => Ok m
  | SRTU => Ok m
  | SASCII =>
      b <- index response (m_cnt m) ;;
      sof <- set_index (adu_SOF (m_adu m)) 0 b ;;
      let m := with_adu (set_SOF sof (m_adu m)) m in
      let m := with_cnt (u8 (m_cnt m + 1)) m in
      let m := with_section SEOF m in
      sof0 <- index (adu_SOF (m_adu m)) 0 ;;
      if negb (Byte.eqb sof0 COLON)
      then Err (ErrAlignmentSOF (adu_SOF (m_adu m)))
      else Ok m
  | _ => Err (ErrNoSOF start)
  end.

(** [handleEOF]. *)
Definition handleEOF (response : list byte) (start : Section) (m : machine)
  : result machine :=
  match start with
  | SMBAP => Ok m
  | SRTU => Ok m
  | SASCII =>
      let elen := LEOF in
      eof <- (if 0 <=? len response - elen
              then Ok (skipn (Z.to_nat (len response - elen)) response)
              else Panic SliceBoundsOutOfRange) ;;
      let m := with_adu (set_EOF eof (m_adu m)) m in
      let m := with_section SERR m in
      e0 <- index (adu_EOF (m_adu m)) 0 ;;
      if negb (Byte.eqb e0 CR)
      then Err (ErrAlignmentEOF (adu_EOF (m_adu m)))
      else
        e1 <- index (adu_EOF (m_adu m)) 1 ;;
        if negb (Byte.eqb e1 LF)
        then Err (ErrAlignmentEOF (adu_EOF (m_adu m)))
        else Ok m
  | _ => Err (ErrNoEOF start)
  end.

(** One pass through the element loop of [handleMBAP]. *)
Definition handleMBAP_body (response : list byte) (m : machine)
  : result (flow machine) :=
  match m_element m with
  | ETRANSID =>
      s <- slice_from response (m_cnt m) ;;
      v <- Uint16 s ;;
      let d := set_TransactionId v (m_adu m) in
      hdr <- PutUint16_at (adu_Hdr d) (m_cnt m) (adu_TransactionId d) ;;
      let m := with_adu (set_Hdr hdr d) m in
      let m := with_cnt (u8 (m_cnt m + LTID)) m in
      Ok (Continue (with_element EPROTOID m))
  | EPROTOID =>
      s <- slice_from response (m_cnt m) ;;
      v <- Uint16 s ;;
      let d := set_ProtocolId v (m_adu m) in
      hdr <- PutUint16_at (adu_Hdr d) (m_cnt m) (adu_ProtocolId d) ;;
      let m := with_adu (set_Hdr hdr d) m in
      let m := with_cnt (u8 (m_cnt m + LPID)) m in
      Ok (Continue (with_element ELENGTH m))
  | ELENGTH =>
      s <- slice_from response (m_cnt m) ;;
      v <- Uint16 s ;;
      let d := set_Length v (m_adu m) in
      hdr <- PutUint16_at (adu_Hdr d) (m_cnt m) (adu_Length d) ;;
      let m := with_adu (set_Hdr hdr d) m in
      let m := with_cnt (u8 (m_cnt m + LLEN)) m in
      Ok (Continue (with_element ESLAVEID m))
  | ESLAVEID =>
      b <- index response (m_cnt m) ;;
      let d := set_SlaveId b (m_adu m) in
      hdr <- set_index (adu_Hdr d) (m_cnt m) (adu_SlaveId d) ;;
      let m := with_adu (set_Hdr hdr d) m in
      let m := with_cnt (u8 (m_cnt m + 1)) m in
      Ok (Break (with_section SPDU m))
  | e => Err (ErrElementMBAP e)
  end.

(** [handleMBAP]. *)
Definition handleMBAP (fuel : nat) (response : list byte) (m : machine)
  : comp machine :=
  loop fuel (fun m => ret (handleMBAP_body response m)) (with_element ETRANSID m).

(** [handleRTU]. *)
Definition handleRTU (response : list byte) (m : machine) : result machine :=
  if len response <? LSID + LFNC + LCRC then
    Err (ErrHeaderTooShort (len response))
  else
    let m := with_adu (set_Hdr (make 1) (m_adu m)) m in
    let m := with_element ESLAVEID m in
    match m_element m with
    | ESLAVEID =>
        b <- index response (m_cnt m) ;;
        let d := set_SlaveId b (m_adu m) in
        hdr <- set_index (adu_Hdr d) (m_cnt m) (adu_SlaveId d) ;;
        let m := with_adu (set_Hdr hdr d) m in
        let m := with_cnt (u8 (m_cnt m + 1)) m in
        Ok (with_section SPDU m)
    | e => Err (ErrElementRTU e)
    end.

(** [handleASCII]. *)
Definition handleASCII (response : list byte) (m : machine) : result machine :=
  if len response <? LSOF + LSID + LFNC + LLRC + LEOF then
    Err (ErrHeaderTooShort (len response))
  else
    let m := with_adu (set_Hdr (make 1) (m_adu m)) m in
    let m := with_element ESLAVEID m in
    match m_element m with
    | ESLAVEID =>
        b <- index response (m_cnt m) ;;
        let d := set_SlaveId b (m_adu m) in
        hdr <- set_index (adu_Hdr d) (m_cnt m) (adu_SlaveId d) ;;
        let m := with_adu (set_Hdr hdr d) m in
        let m := with_cnt (u8 (m_cnt m + 1)) m in
        Ok (with_section SPDU m)
    | e => Err (ErrElementASCII e)
    end.

(** [handleCRC]. *)
Definition handleCRC (response : list byte) (m : machine) : result machine :=
  let clen := LCRC in
  if len response <? clen + (LSID + LFNC) then
    Err (ErrResponseTooShort (len response))
  else
    s <- slice_from response (len response - clen) ;;
    crcResponse <- Uint16 s ;;
    let d := set_CRC crcResponse (m_adu m) in
    let d := set_Err (make (Z.to_nat clen)) d in
    e <- PutUint16 (adu_Err d) crcResponse ;;
    let d := set_Err e d in
    let crc :=
      CRC_calculate CRC_reset (firstn (Z.to_nat (len response - clen)) response) in
    let m := with_section SFAIL (with_adu d m) in
    if crcResponse =? CRC_value crc
    then Ok (with_section SRTU m)
    else Err (ErrCRCMismatch (adu_CRC d) crcResponse).

(** [handleLRC]. *)
Definition handleLRC (response : list byte) (m : machine) : result machine :=
  Ok (with_section SASCII m).

(** The [for idx = 0; idx < byte(adu.Length); idx++] loop of the [EDATA]
    element: [n] appends, each reading [response[*cnt]] and incrementing the
    byte cursor. *)
Fixpoint read_data (n : nat) (response : list byte) (m : machine)
  : result machine :=
  match n with
  | O => Ok m
  | S n' =>
      b <- index response (m_cnt m) ;;
      let m := with_adu (set_Data (adu_Data (m_adu m) ++ [b]) (m_adu m)) m in
      read_data n' response (with_cnt (u8 (m_cnt m + 1)) m)
  end.

(** One pass through the element loop of [handlePDU]. *)
Definition handlePDU_body (response : list byte) (start : Section) (m : machine)
  : result (flow machine) :=
  match m_element m with
  | EFNCODE =>
      fncode <- index response (m_cnt m) ;;
      let m := with_adu (set_FnCode [fncode] (m_adu m)) m in
      let m := with_cnt (u8 (m_cnt m + 1)) m in
      f <- index (adu_FnCode (m_adu m)) 0 ;;
      if byte_to_Z FERR <=? byte_to_Z f then
        Ok (Continue (with_element EEXCODE m))
      else
        match f with
        | x01 | x02 | x04 | x03 =>
            match start with
            | SMBAP => Ok (Continue (with_element EDATA m))
            | SRTU => Ok (Continue (with_element ELENGTH m))
            | SASCII => Ok (Continue m)
            | _ => Err (ErrSectionCodePDU (m_element m))
            end
        | _ => Err (ErrFunctionCode f)
        end
  | EEXCODE =>
      ex <- index response (m_cnt m) ;;
      let d := set_ExceptionCode ex (m_adu m) in
      let d := set_Data (make 1) d in
      data <- set_index (adu_Data d) 0 (adu_ExceptionCode d) ;;
      let d := set_Data data d in
      let m := with_cnt (u8 (m_cnt m + 1)) (with_adu d m) in
      match adu_ExceptionCode d with
      | x00 | x01 | x02 | x03 | x04 | x05 | x06 | x08 | x0a | x0b =>
          let d := match Exception_lookup (adu_ExceptionCode d) with
                   | Some text => set_Exception text d
                   | None => d
                   end in
          Ok (Break (with_section SDONE (with_adu d m)))
      | ex => Err (ErrExceptionCode ex)
      end
  | ELENGTH =>
      b <- index response (m_cnt m) ;;
      let d := set_Length (byte_to_Z b) (m_adu m) in
      let d := set_Data (make 1) d in
      data <- set_index (adu_Data d) 0 (Z_to_byte (adu_Length d)) ;;
      let d := set_Data data d in
      let m := with_cnt (u8 (m_cnt m + 1)) (with_adu d m) in
      if adu_Length d <=? 0 then
        Err (ErrIllegalLength (adu_Length d))
      else
        Ok (Continue (with_element EDATA m))
  | EDATA =>
      m <- read_data (Z.to_nat (u8 (adu_Length (m_adu m)))) response m ;;
      Ok (Break (with_section SDONE m))
  | e => Err (ErrElementPDU e)
  end.

(** [handlePDU]. *)
Definition handlePDU (fuel : nat) (response : list byte) (start : Section)
  (m : machine) : comp machine :=
  loop fuel (fun m => ret (handlePDU_body response start m))
       (with_element EFNCODE m).

(** The number of passes the element loop of [handlePDU] still has to make
    after an element, for the MBAP and RTU variants. *)
Definition element_rank (e : Element) : nat :=
  match e with
  | EFNCODE => 2
  | ELENGTH => 1
  | _ => 0
  end.

(** The local variables of [Recover] that live across the state loop; [adu]
    is a pointer and starts out nil. *)
Record locals : Type := mkLocals {
  l_state : State;
  l_section : Section;
  l_element : Element;
  l_cnt : Z;
  l_adu : option ADU
}.

(** One pass through the section loop of [Recover] (the inner [for]).  The
    pair carries [state] and the variables the handlers update; the boolean
    computed by the [switch] is [exitSection]. *)
Definition Recover_section_body (fuel : nat) (response : list byte)
  (start : Section) (sm : State * machine) : comp (flow (State * machine)) :=
  let (state, m) := sm in
  r <-- match m_section m with
        | SFAIL => ret (Ok (TFAILURE, m, true))
        | SDONE => ret (Ok (TCOMPLETE, m, true))
        | SSOF => m <-- ret (handleSOF response start m) ;;; ret (Ok (state, m, false))
        | SEOF => m <-- ret (handleEOF response start m) ;;; ret (Ok (state, m, false))
        | SMBAP => m <-- handleMBAP fuel response m ;;; ret (Ok (state, m, false))
        | SRTU => m <-- ret (handleRTU response m) ;;; ret (Ok (state, m, false))
        | SASCII => m <-- ret (handleASCII response m) ;;; ret (Ok (state, m, false))
        | SPDU => m <-- handlePDU fuel response start m ;;; ret (Ok (state, m, false))
        | SERR =>
            r <-- match start with
                  | SMBAP => ret (Ok (TCOMPLETE, with_element ENONE m, true))
                  | SRTU => ret (Ok (state, with_element ECRC m, false))
                  | SASCII => ret (Ok (state, with_element ELRC m, false))
                  | _ => ret (Err (ErrSectionCode start))
                  end ;;;
            let '(state, m, exitSection) := r in
            match m_element m with
            | ECRC => m <-- ret (handleCRC response m) ;;; ret (Ok (state, m, exitSection))
            | ELRC => m <-- ret (handleLRC response m) ;;; ret (Ok (state, m, exitSection))
            | ENONE => ret (Ok (state, m, exitSection))
            | e => ret (Err (ErrElementErrorChecking e))
            end
        end ;;;
  let '(state, m, exitSection) := r in
  if exitSection then ret (Ok (Break (state, m)))
  else ret (Ok (Continue (state, m))).

(** The state loop of [Recover] (the outer [for]).  [exitState] is never set
    in the source, so the loop is only left through a [return]. *)
Fixpoint Recover_loop (fuel : nat) (response : list byte) (start : Section)
  (l : locals) : comp (option ADU) :=
  match fuel with
  | O => None
  | S fuel' =>
      match l_state l with
      | TCOMPLETE => ret (Ok (l_adu l))
      | TFAILURE => ret (Err ErrFailureToProcess)
      | TRESET =>
          Recover_loop fuel' response start
            (mkLocals TPROCESS (l_section l) (l_element l) (l_cnt l) (l_adu l))
      | TPROCESS =>
          section <-- match start with
                      | SRTU => ret (Ok SERR)
                      | SMBAP => ret (Ok (l_section l))
                      | SASCII => ret (Ok SSOF)
                      | _ => ret (Err (ErrSectionCode start))
                      end ;;;
          match NewADU None with
          | Ok adu =>
              sm <-- loop fuel' (Recover_section_body fuel' response start)
                       (l_state l, mkMachine adu (l_cnt l) section (l_element l)) ;;;
              let (state, m) := sm in
              Recover_loop fuel' response start
                (mkLocals state (m_section m) (m_element m) (m_cnt m)
                          (Some (m_adu m)))
          | _ => ret (Err ErrUnableToCreateADU)
          end
      end
  end.

(** [ProtocolBase.Recover(response, section)]. *)
Definition Recover (fuel : nat) (response : list byte) (section : Section)
  : comp (option ADU) :=
  Recover_loop fuel response section (mkLocals TRESET section ENONE 0 None).

(** [ModbusTCP.Decode] and [RTU.Decode] pass the result of [Recover] on. *)
Definition ModbusTCP_Decode (fuel : nat) (response : list byte) : comp (option ADU) :=
  Recover fuel response SMBAP.

Definition RTU_Decode (fuel : nat) (response : list byte) : comp (option ADU) :=
  Recover fuel response SRTU.

(** A call returns [r] when every sufficiently large fuel gives [r]. *)
Definition returns {A : Type} (run : nat -> comp A) (r : result A) : Prop :=
  exists n : nat, forall fuel : nat, (n <= fuel)%nat -> run fuel = Some r.

(** ** Protocols (rtu.go) and the client engine (client.go, transport.go) *)

(** [RTU.Encode(pdu)] for a non-nil [pdu]: the header is the slave id and the
    CRC goes into [Err]. *)
Definition RTU_Encode (slaveid : byte) (pdu : PDU) : result ADU :=
  adu <- NewADU (Some pdu) ;;
  let adu := set_Hdr (make 1) adu in
  let adu := set_SlaveId slaveid adu in
  hdr <- set_index (adu_Hdr adu) 0 (adu_SlaveId adu) ;;
  let adu := set_Hdr hdr adu in
  ErrorCRC adu.

(** [strings.Contains(s, substr)]. *)
Fixpoint Contains (s substr : string) : bool :=
  if String.prefix substr s then true
  else match s with
       | EmptyString => false
       | String _ s' => Contains s' substr
       end.

(** The [Transport] interface, over the state [T] of a transport.  An error
    value of a transport is represented by its message. *)
Class Transport (T : Type) : Type := {
  Connect : T -> T * option string;
  Send : ADU -> T -> T * option string;
  Listen : T -> T * option string;
  Close : T -> T * option string;
  Lock : T -> T;
  Unlock : T -> T;
  Buffer : T -> list byte;
  Flush : T -> T
}.

(** The [Protocol] interface, over the state [P] of a protocol. *)
Class Protocol (P : Type) : Type := {
  Encode : PDU -> P -> P * result ADU;
  Decode : nat -> list byte -> P -> comp (option ADU)
}.

(** The RTU protocol: its state is the slave id of [ProtocolBase]. *)
#[export] Instance RTU_Protocol : Protocol byte := {
  Encode pdu slaveid := (slaveid, RTU_Encode slaveid pdu);
  Decode fuel response _ := RTU_Decode fuel response
}.

(** A transport for tests: [Send] and [Listen] answer with the errors the
    state holds, and the receive buffer is a byte list. *)
Record Scripted : Type := mkScripted {
  sc_send : option string;
  sc_listen : option string;
  sc_buffer : list byte
}.

#[export] Instance Scripted_Transport : Transport Scripted := {
  Connect t := (t, None);
  Send _ t := (t, sc_send t);
  Listen t := (t, sc_listen t);
  Close t := (t, None);
  Lock t := t;
  Unlock t := t;
  Buffer t := sc_buffer t;
  Flush t := mkScripted (sc_send t) (sc_listen t) []
}.

(** [Client.do(request)]: the client is the pair of a protocol and a
    transport; the result comes with the transport as the calls left it. *)
Definition do {T P : Type} `{Transport T} `{Protocol P}
  (fuel : nat) (request : ADU) (p : P) (t : T)
  : option (T * result (option ADU)) :=
  let (t, err) := Send request t in
  match err with
  | Some e => Some (t, Err (ErrRequestFailed (ErrTransport e)))
  | None =>
      let (t, err) := Listen t in
      match err with
      | Some e =>
          if Contains e "timeout" then
            match NewPDU FERR with
            | Ok pdu =>
                match NewADU (Some pdu) with
                | Ok response => Some (t, Ok (Some (set_Timeout true response)))
                | Err e' => Some (t, Err (ErrListen e'))
                | Panic p' => Some (t, Panic p')
                end
            | Err e' => Some (t, Err (ErrListen e'))
            | Panic p' => Some (t, Panic p')
            end
          else Some (t, Err (ErrListen (ErrTransport e)))
      | None =>
          let t := Lock t in
          match Decode fuel (Buffer t) p with
          | None => None
          | Some (Ok response) =>
              let t := Flush t in
              let t := Unlock t in
              Some (t, Ok response)
          | Some (Err e) => Some (t, Err (ErrDecode e))
          | Some (Panic p') => Some (t, Panic p')
          end
      end
  end.

(** ** RTU frames as they travel *)

(** The two CRC bytes that [ErrorCRC] stores for a serialization [body],
    high byte first. *)
Definition CRC_bytes (body : list byte) : list byte :=
  let crc := CRC_value (CRC_calculate CRC_reset body) in
  [Z_to_byte (Z.shiftr crc 8); Z_to_byte crc].

(** A body followed by its CRC bytes: what [RTU.Encode] puts on the wire and
    what [handleCRC] accepts. *)
Definition append_CRC (body : list byte) : list byte :=
  body ++ CRC_bytes body.

(** The fields of an ADU that belong to the envelope of an RTU frame and
    not to its PDU. *)
Definition same_envelope (d d' : ADU) : Prop :=
  adu_SOF d' = adu_SOF d /\
  adu_Hdr d' = adu_Hdr d /\
  adu_TransactionId d' = adu_TransactionId d /\
  adu_ProtocolId d' = adu_ProtocolId d /\
  adu_SlaveId d' = adu_SlaveId d /\
  adu_Err d' = adu_Err d /\
  adu_CRC d' = adu_CRC d /\
  adu_Timeout d' = adu_Timeout d /\
  adu_EOF d' = adu_EOF d.

(** ** Errors of the encoders, of the client and of the TCP transport *)

(** The two errors of [strconv.ParseUint]. *)
Inductive NumError : Type := ErrSyntax | ErrRange.

(** The [fmt.Errorf] calls of the functions below, and the errors they pass
    on.  [ErrOf] is an error of the functions above, returned as it is or
    re-made with the same text by [fmt.Errorf("%s", err)]. *)
Inductive xerror : Type :=
| ErrOf (e : error)
| ErrInvalidLength (len : Z)          (* Invalid protocol length member *)
| ErrUnableToEncode (what : string)   (* Unable to encode header, function code, .. *)
| ErrHex                              (* an error of encoding/hex *)
| ErrMapAddress (e : error)           (* Unable to map address to function code *)
| ErrCreateRequest (e : xerror)       (* Unable to create modbus request *)
| ErrEncodeRequest (e : error)        (* Unable to encode modbus request *)
| ErrEncodePDU (e : error)            (* Unable to encode the PDU *)
| ErrConnection (msg : string)        (* Client connection failed *)
| ErrDial (url msg : string)          (* Could not dial URL *)
| ErrInvalidURL (surl : string)       (* Invalid URL *)
| ErrParse (what : string) (e : NumError) (* Unable to parse Port number, .. *)
| ErrUnknownClient (protocol : string). (* Unknown client type *)

Inductive xresult (A : Type) : Type :=
| XOk (a : A)
| XErr (e : xerror)
| XPanic (p : panic).

Arguments XOk {A} a.
Arguments XErr {A} e.
Arguments XPanic {A} p.

Definition xbind {A B : Type} (r : xresult A) (k : A -> xresult B) : xresult B :=
  match r with
  | XOk a => k a
  | XErr e => XErr e
  | XPanic p => XPanic p
  end.

Notation "x <~ r ;; k" := (xbind r (fun x => k))
  (at level 61, r at next level, right associativity).

Definition lift {A : Type} (r : result A) : xresult A :=
  match r with
  | Ok a => XOk a
  | Err e => XErr (ErrOf e)
  | Panic p => XPanic p
  end.

(** ** The MBAP encoder (modbustcp.go) *)

Definition ModbusTCPProtocolId : Z := 0.

(** The [ModbusTCP] struct: the embedded [MBAP] and the slave id of
    [ProtocolBase]. *)
Record ModbusTCP : Type := mkModbusTCP {
  mb_TransactionId : Z;         (* uint16 *)
  mb_ProtocolId : Z;            (* uint16 *)
  mb_Length : Z;                (* uint16 *)
  mb_SlaveId : byte
}.

(** [NewModbusTCP(slaveid)]. *)
Definition NewModbusTCP (slaveid : byte) : ModbusTCP :=
  mkModbusTCP 0 0 0 slaveid.

(** [ModbusTCP.Encode(pdu)] for a non-nil [pdu].  The receiver is returned
    with its transaction id as the call left it; the counter is incremented
    right after it has been written into the header. *)
Definition ModbusTCP_Encode (m : ModbusTCP) (pdu : PDU)
  : ModbusTCP * xresult ADU :=
  match (adu <- NewADU (Some pdu) ;;
         let adu := set_TransactionId (mb_TransactionId m) adu in
         let adu := set_Hdr (make (Z.to_nat LMBAP)) adu in
         hdr <- PutUint16 (adu_Hdr adu) (adu_TransactionId adu) ;;
         Ok (set_Hdr hdr adu)) with
  | Ok adu =>
      let m := mkModbusTCP (u16 (mb_TransactionId m + 1)) (mb_ProtocolId m)
                           (mb_Length m) (mb_SlaveId m) in
      (m,
       let adu := set_ProtocolId ModbusTCPProtocolId adu in
       hdr <~ lift (PutUint16_at (adu_Hdr adu) LTID (adu_ProtocolId adu)) ;;
       let adu := set_Hdr hdr adu in
       let adu := set_Length (u16 (u16 (u16 LSID + u16 LFNC)
                                   + u16 (len (pdu_Data pdu)))) adu in
       if adu_Length adu <=? 0 then
         XErr (ErrInvalidLength (adu_Length adu))
       else
         hdr <~ lift (PutUint16_at (adu_Hdr adu) (LTID + LPID) (adu_Length adu)) ;;
         let adu := set_Hdr hdr adu in
         let adu := set_SlaveId (mb_SlaveId m) adu in
         hdr <~ lift (set_index (adu_Hdr adu) (LTID + LPID + LLEN)
                                (adu_SlaveId adu)) ;;
         XOk (set_Hdr hdr adu))
  | Err e => (m, XErr (ErrOf e))
  | Panic p => (m, XPanic p)
  end.

(** ** The ASCII encoder (ascii.go) *)

(** The digit that [%X] prints for a value below 16. *)
Definition hex_upper (n : Z) : byte :=
  Z_to_byte (if n <? 10 then 48 + n else 55 + n).

(** [fmt.Sprintf("%X", bin)] for a byte slice: two upper-case hexadecimal
    digits per byte. *)
Definition Sprintf_X (bin : list byte) : list byte :=
  flat_map (fun b => [hex_upper (byte_to_Z b / 16);
                      hex_upper (byte_to_Z b mod 16)]) bin.

(** [ASCII.toASCII(bin)]: the bytes of the formatted string; the error is
    always nil. *)
Definition toASCII (bin : list byte) : result (list byte) :=
  Ok (Sprintf_X bin).

(** The value of a hexadecimal digit in encoding/hex, in either case. *)
Definition fromHexChar (c : byte) : option Z :=
  let c := byte_to_Z c in
  if (48 <=? c) && (c <=? 57) then Some (c - 48)
  else if (97 <=? c) && (c <=? 102) then Some (c - 97 + 10)
  else if (65 <=? c) && (c <=? 70) then Some (c - 65 + 10)
  else None.

(** [hex.DecodeString]: the bytes of the digit pairs; [None] stands for
    its error (a byte that is no digit, or an odd length). *)
Fixpoint hex_DecodeString (src : list byte) : option (list byte) :=
  match src with
  | [] => Some []
  | p :: q :: rest =>
      match fromHexChar p, fromHexChar q with
      | Some a, Some b =>
          match hex_DecodeString rest with
          | Some bs => Some (Z_to_byte (Z.lor (Z.shiftl a 4) b) :: bs)
          | None => None
          end
      | _, _ => None
      end
  | [_] => None
  end.

(** The Go conversion [string(b)] of a byte: the UTF-8 encoding of the code
    point [b], two bytes from 0x80 on. *)
Definition string_of_byte (b : byte) : list byte :=
  if byte_to_Z b <? 128 then [b]
  else [Z_to_byte (192 + byte_to_Z b / 64); Z_to_byte (128 + byte_to_Z b mod 64)].

(** [ASCII.toHex(text)]. *)
Definition toHex (text : list byte) : xresult (list byte) :=
  let str := flat_map string_of_byte text in
  match hex_DecodeString str with
  | Some bhex => XOk bhex
  | None => XErr ErrHex
  end.

(** The pattern [if x, err = s.toASCII(x); err != nil { return nil,
    fmt.Errorf("Unable to encode ..") }]. *)
Definition encoded (what : string) (r : result (list byte))
  : xresult (list byte) :=
  match r with
  | Ok text => XOk text
  | Err _ => XErr (ErrUnableToEncode what)
  | Panic p => XPanic p
  end.

(** [ASCII.Encode(pdu)] for a non-nil [pdu].  The result of [ErrorLRC] is
    not looked at by the source. *)
Definition ASCII_Encode (slaveid : byte) (pdu : PDU) : xresult ADU :=
  adu <~ lift (NewADU (Some pdu)) ;;
  let adu := set_SOF (make 1) adu in
  sof <~ lift (set_index (adu_SOF adu) 0 COLON) ;;
  let adu := set_SOF sof adu in
  sof <~ encoded "header" (toASCII (adu_SOF adu)) ;;
  let adu := set_SOF sof adu in
  let adu := set_Hdr (make 1) adu in
  let adu := set_SlaveId slaveid adu in
  hdr <~ lift (set_index (adu_Hdr adu) 0 (adu_SlaveId adu)) ;;
  let adu := set_Hdr hdr adu in
  hdr <~ encoded "header" (toASCII (adu_Hdr adu)) ;;
  let adu := set_Hdr hdr adu in
  fn <~ encoded "function code" (toASCII (adu_FnCode adu)) ;;
  let adu := set_FnCode fn adu in
  data <~ encoded "data" (toASCII (adu_Data adu)) ;;
  let adu := set_Data data adu in
  let adu := match ErrorLRC adu with
             | Ok d => d
             | _ => set_Err [] adu
             end in
  err <~ encoded "error checking" (toASCII (adu_Err adu)) ;;
  let adu := set_Err err adu in
  let adu := set_EOF (make 2) adu in
  eof <~ lift (set_index (adu_EOF adu) 0 CR) ;;
  eof <~ lift (set_index eof 1 LF) ;;
  let adu := set_EOF eof adu in
  eof <~ encoded "header" (toASCII (adu_EOF adu)) ;;
  XOk (set_EOF eof adu).

(** ** The ASCII decoder (ascii.go) *)

(** [s[low:high]] for a slice [s] of a backing array: the bounds are
    checked against the capacity, so [backing] is the array from the start
    of the slice up to its capacity. *)
Definition slice_cap (backing : list byte) (low high : Z)
  : result (list byte) :=
  if (0 <=? low) && (low <=? high) && (high <=? len backing)
  then Ok (firstn (Z.to_nat (high - low)) (skipn (Z.to_nat low) backing))
  else Panic SliceBoundsOutOfRange.

(** The store [tmp.F = v] through the pointer [tmp], which may be nil. *)
Definition field_store (tmp : option ADU) (set_F : list byte -> ADU -> ADU)
  (v : list byte) : xresult (option ADU) :=
  match tmp with
  | Some d => XOk (Some (set_F v d))
  | None => XPanic NilDereference
  end.

(** The pattern [if tmp.F, err = s.toHex(x); err != nil { return nil,
    fmt.Errorf("Unable to encode ..") }]: the slice expression and the call
    are evaluated, then both results are stored, then the error is
    tested. *)
Definition decoded (what : string) (tmp : option ADU)
  (set_F : list byte -> ADU -> ADU) (x : result (list byte))
  : xresult (option ADU) :=
  text <~ lift x ;;
  match toHex text with
  | XOk v => field_store tmp set_F v
  | XErr _ => _ <~ field_store tmp set_F [] ;; XErr (ErrUnableToEncode what)
  | XPanic p => XPanic p
  end.

(** [ASCII.Decode(response)]: [tmp] is declared as a pointer and never
    set, so it is nil.  [spare] holds the bytes of the backing array
    between the length and the capacity of [response]. *)
Definition ASCII_Decode (fuel : nat) (response spare : list byte)
  : option (xresult (option ADU)) :=
  let tmp : option ADU := None in
  let backing := response ++ spare in
  let n := len response in
  match (tmp <~ decoded "header" tmp set_SOF (slice_cap backing 0 2) ;;
         tmp <~ decoded "header" tmp set_Hdr (slice_cap backing 2 4) ;;
         tmp <~ decoded "function code" tmp set_FnCode
                        (slice_cap backing 4 6) ;;
         tmp <~ decoded "data" tmp set_Data (slice_cap backing 6 (n - 6)) ;;
         tmp <~ decoded "error checking" tmp set_Err
                        (slice_cap backing (n - 6) (n - 4)) ;;
         tmp <~ decoded "header" tmp set_EOF (slice_cap backing (n - 4) n) ;;
         match tmp with
         | Some d => lift (Bytes d)
         | None => XPanic NilDereference
         end) with
  | XOk tmpBytes =>
      match Recover fuel tmpBytes SASCII with
      | Some r => Some (lift r)
      | None => None
      end
  | XErr e => Some (XErr e)
  | XPanic p => Some (XPanic p)
  end.

(** The characters that [%X] prints. *)
Definition is_hex_upper (c : byte) : bool :=
  let c := byte_to_Z c in
  ((48 <=? c) && (c <=? 57)) || ((65 <=? c) && (c <=? 70)).

(** ** Requests from address strings (modbus.go) *)

From Stdlib Require DecimalString DecimalN DecimalPos DecimalFacts.

(** The digit loop of [strconv.ParseUint] for base 10: [n] is the value so
    far.  A byte that is no decimal digit is a syntax error (letters have a
    digit value of 10 or more, and the underscore is only allowed for base
    0); [cutoff] is [maxUint64/10 + 1]. *)
Fixpoint ParseUint_loop (maxVal : Z) (s : string) (n : Z)
  : Z * option NumError :=
  match s with
  | EmptyString => (n, None)
  | String c s' =>
      let c := Z.of_N (N_of_ascii c) in
      if (48 <=? c) && (c <=? 57) then
        let d := c - 48 in
        if 1844674407370955162 <=? n then (maxVal, Some ErrRange)
        else
          let n := u64 (n * 10) in
          let n1 := u64 (n + d) in
          if (n1 <? n) || (maxVal <? n1) then (maxVal, Some ErrRange)
          else ParseUint_loop maxVal s' n1
      else (0, Some ErrSyntax)
  end.

(** [strconv.ParseUint(s, 10, bitSize)] for a bit size from 1 to 64. *)
Definition ParseUint (s : string) (bitSize : Z) : Z * option NumError :=
  match s with
  | EmptyString => (0, Some ErrSyntax)
  | _ => ParseUint_loop (u64 (u64 (Z.shiftl 1 bitSize) - 1)) s 0
  end.

(** [strconv.FormatUint(i, 10)]: the decimal digits, without leading
    zeros. *)
Definition FormatUint (i : Z) : string :=
  DecimalString.NilZero.string_of_uint (N.to_uint (Z.to_N i)).

(** [NewRequest(fncode, adr, qty)].  The source builds an error value when
    [ParseUint] fails and drops it, so the number that [ParseUint] returned
    with the error is used. *)
Definition NewRequest (fncode : FnCode) (adr : string) (qty : Z)
  : xresult Request :=
  let (u64, _) := ParseUint adr 64 in
  let '(fncode, address, err) := Relative u64 in
  match err with
  | Some e => XErr (ErrMapAddress e)
  | None => XOk (mkRequest fncode (u16 address) qty)
  end.

(** ** The client (client.go, url.go) *)

(** The [URL] struct. *)
Record URL : Type := mkURL {
  url_SURL : string;
  url_IP : string;
  url_PortNo : Z;               (* uint16 *)
  url_SlaveId : byte;
  url_Timeout : Z;              (* uint *)
  url_Protocol : string;
  url_Address : Z;              (* uint64, absolute *)
  url_Quantity : Z              (* uint16 *)
}.

(** [strings.Index(s, substr)] for a non-empty [substr]: the position of
    its first occurrence in [s], [None] for -1. *)
Fixpoint Index (s substr : string) : option nat :=
  if prefix substr s then Some 0%nat
  else match s with
       | EmptyString => None
       | String _ s' => option_map S (Index s' substr)
       end.

(** [s[low:]] on a string. *)
Definition string_from (s : string) (low : nat) : string :=
  substring low (String.length s - low) s.

(** [strings.Count(s, substr)] for a non-empty [substr]: the loop over
    [Index], which runs at most once per byte of [s]. *)
Fixpoint Count_loop (fuel : nat) (s substr : string) : nat :=
  match fuel with
  | O => O
  | S fuel' =>
      match Index s substr with
      | None => O
      | Some i =>
          S (Count_loop fuel' (string_from s (i + String.length substr))
                        substr)
      end
  end.

Definition Count (s substr : string) : nat :=
  Count_loop (String.length s) s substr.

(** The loop of [genSplit]: [n] is the number of cuts still allowed. *)
Fixpoint genSplit_loop (n : nat) (s sep : string) : list string :=
  match n with
  | O => [s]
  | S n' =>
      match Index s sep with
      | None => [s]
      | Some m =>
          substring 0 m s ::
          genSplit_loop n' (string_from s (m + String.length sep)) sep
      end
  end.

(** [strings.Split(s, sep)] for a non-empty [sep]. *)
Definition Split (s sep : string) : list string :=
  genSplit_loop (Count s sep) s sep.

(** [a[i]] on a slice of strings. *)
Definition string_at (a : list string) (i : nat) : xresult string :=
  match nth_error a i with
  | Some s => XOk s
  | None => XPanic IndexOutOfRange
  end.

(** The pattern [if u64, err = strconv.ParseUint(s, 10, bitSize); err !=
    nil { return nil, fmt.Errorf("Unable to parse ..") }]. *)
Definition parsed (what : string) (s : string) (bitSize : Z) : xresult Z :=
  match ParseUint s bitSize with
  | (u64, None) => XOk u64
  | (_, Some e) => XErr (ErrParse what e)
  end.

(** [NewURL(surl)]. *)
Definition NewURL (surl : string) : xresult URL :=
  let components := Split surl "//" in
  if negb (Nat.eqb (List.length components) 2) then XErr (ErrInvalidURL surl)
  else
    c0 <~ string_at components 0 ;;
    Protocol <~ string_at (Split c0 ":") 0 ;;
    c1 <~ string_at components 1 ;;
    let components := Split c1 "/" in
    if negb (Nat.eqb (List.length components) 3) then XErr (ErrInvalidURL surl)
    else
      c0 <~ string_at components 0 ;;
      IP <~ string_at (Split c0 ":") 0 ;;
      c0 <~ string_at components 0 ;;
      s <~ string_at (Split c0 ":") 1 ;;
      u64 <~ parsed "Port number" s 16 ;;
      let PortNo := u16 u64 in
      c1 <~ string_at components 1 ;;
      s <~ string_at (Split c1 "-") 0 ;;
      u64 <~ parsed "Slave Id" s 8 ;;
      let SlaveId := Z_to_byte u64 in
      c1 <~ string_at components 1 ;;
      s <~ string_at (Split c1 "-") 1 ;;
      u64 <~ parsed "Timeout" s 32 ;;
      let Timeout := u64 in
      c2 <~ string_at components 2 ;;
      s <~ string_at (Split c2 "-") 0 ;;
      u64 <~ parsed "Address" s 64 ;;
      let Address := u64 in
      c2 <~ string_at components 2 ;;
      s <~ string_at (Split c2 "-") 1 ;;
      u64 <~ parsed "Quantity" s 16 ;;
      let Quantity := u16 u64 in
      XOk (mkURL surl IP PortNo SlaveId Timeout Protocol Address Quantity).

(** Whether the byte [c] occurs in [s]. *)
Fixpoint has (c : ascii) (s : string) : bool :=
  match s with
  | EmptyString => false
  | String x s' => Ascii.eqb x c || has c s'
  end.

(** Whether [c] is a decimal digit. *)
Definition is_digit (c : ascii) : bool :=
  let n := Z.of_N (N_of_ascii c) in (48 <=? n) && (n <=? 57).

(** [Client.Read(url)] for a non-nil client: the protocol and the transport
    come back as the calls left them. *)
Definition Client_Read {T P : Type} `{Transport T} `{Protocol P}
  (fuel : nat) (url : URL) (p : P) (t : T)
  : option (P * T * xresult (option ADU)) :=
  match NewRequest FERR (FormatUint (url_Address url)) (url_Quantity url) with
  | XOk request =>
      match Request_Encode request with
      | Ok pdu =>
          let (p, r) := Encode pdu p in
          match r with
          | Ok adu =>
              match do fuel adu p t with
              | None => None
              | Some (t, Ok response) => Some (p, t, XOk response)
              | Some (t, Err e) =>
                  let t := Lock t in
                  let t := Flush t in
                  let t := Unlock t in
                  Some (p, t, XErr (ErrOf e))
              | Some (t, Panic q) => Some (p, t, XPanic q)
              end
          | Err e => Some (p, t, XErr (ErrEncodePDU e))
          | Panic q => Some (p, t, XPanic q)
          end
      | Err e => Some (p, t, XErr (ErrEncodeRequest e))
      | Panic q => Some (p, t, XPanic q)
      end
  | XErr e => Some (p, t, XErr (ErrCreateRequest e))
  | XPanic q => Some (p, t, XPanic q)
  end.

(** [Client.Request(url)] for a non-nil client. *)
Definition Client_Request {T P : Type} `{Transport T} `{Protocol P}
  (fuel : nat) (url : URL) (p : P) (t : T)
  : option (P * T * xresult (option ADU)) :=
  let (t, err) := Connect t in
  match err with
  | Some e => Some (p, t, XErr (ErrConnection e))
  | None =>
      match Client_Read fuel url p t with
      | None => None
      | Some (p, t, XOk response) =>
          let (t, _) := Close t in
          Some (p, t, XOk response)
      | Some (p, t, XErr e) => Some (p, t, XErr e)
      | Some (p, t, XPanic q) => Some (p, t, XPanic q)
      end
  end.

(** The PDU that [Client.Read] hands to the protocol for an absolute
    address and a quantity: the function code of the address range, then the
    relative address and the quantity, high bytes first. *)
Definition read_PDU (absolute quantity : Z) : PDU :=
  let '(fncode, relative, _) := Relative absolute in
  mkPDU [fncode]
        [Z_to_byte (Z.shiftr relative 8); Z_to_byte relative;
         Z_to_byte (Z.shiftr quantity 8); Z_to_byte quantity].

(** ** The TCP transport: connecting (tcp.go) *)

Definition RETRIES : nat := 5.

(** The default of ten seconds, in nanoseconds. *)
Definition timeout : Z := 10 * 1000000000.

(** The fields of the [TCP] struct that [Connect] uses.  A connection is
    named by the number of the dial that opened it. *)
Record TCP : Type := mkTCP {
  tcp_URL : string;
  tcp_Timeout : Z;
  tcp_Conn : option nat
}.

(** The retry loop of [TCP.Connect].  [dial url to k] is the outcome of the
    dial number [k] on the network, made for the address [url] with the
    dialer's timeout [to]: the message of its error, or [None] when it
    succeeds.  [retry] counts down from [RETRIES]; a success sets it to 0,
    which ends the loop.  The result carries the number of the next dial. *)
Fixpoint Connect_loop (dial : string -> Z -> nat -> option string)
  (retry : nat) (k : nat) (t : TCP) : TCP * nat * option xerror :=
  match retry with
  | O => (t, k, None)
  | S retry' =>
      match dial (tcp_URL t) (tcp_Timeout t) k with
      | Some err =>
          let t := mkTCP (tcp_URL t) (tcp_Timeout t) None in
          match retry' with
          | O => (t, S k, Some (ErrDial (tcp_URL t) err))
          | _ => Connect_loop dial retry' (S k) t
          end
      | None => (mkTCP (tcp_URL t) (tcp_Timeout t) (Some k), S k, None)
      end
  end.

(** [TCP.Connect()]. *)
Definition TCP_Connect (dial : string -> Z -> nat -> option string) (k : nat)
  (t : TCP) : TCP * nat * option xerror :=
  let t := if tcp_Timeout t <=? 0
           then mkTCP (tcp_URL t) timeout (tcp_Conn t) else t in
  Connect_loop dial RETRIES k t.

(** The number that the digits [d] stand for when they follow the digits of
    [n]. *)
Fixpoint uint_val (n : Z) (d : Decimal.uint) : Z :=
  match d with
  | Decimal.Nil => n
  | Decimal.D0 d => uint_val (10 * n) d
  | Decimal.D1 d => uint_val (10 * n + 1) d
  | Decimal.D2 d => uint_val (10 * n + 2) d
  | Decimal.D3 d => uint_val (10 * n + 3) d
  | Decimal.D4 d => uint_val (10 * n + 4) d
  | Decimal.D5 d => uint_val (10 * n + 5) d
  | Decimal.D6 d => uint_val (10 * n + 6) d
  | Decimal.D7 d => uint_val (10 * n + 7) d
  | Decimal.D8 d => uint_val (10 * n + 8) d
  | Decimal.D9 d => uint_val (10 * n + 9) d
  end.


(** ** The transport base: mutex and response buffer (transport.go) *)

(** The states of the [sync.Mutex] of a transport as one goroutine sees
    them.  [Lock] on a locked mutex waits for another goroutine to unlock
    it; the client has no other goroutine, so the wait never ends:
    [Blocked].  [Unlock] of an unlocked mutex is a fatal error of the
    runtime: [Fatal].  In both states the goroutine runs no further
    statement, so every later operation leaves the state as it is, and a
    result that the model pairs with such a state is never returned. *)
Inductive Mutex : Type := Unlocked | Locked | Blocked | Fatal.

(** The [TransportBase] struct ([Id] is not used by any function). *)
Record TransportBase : Type := mkTransportBase {
  tb_M : Mutex;
  tb_Response : list byte
}.

Definition running (t : TransportBase) : bool :=
  match tb_M t with
  | Unlocked | Locked => true
  | Blocked | Fatal => false
  end.

Definition TransportBase_Lock (t : TransportBase) : TransportBase :=
  match tb_M t with
  | Unlocked => mkTransportBase Locked (tb_Response t)
  | Locked => mkTransportBase Blocked (tb_Response t)
  | Blocked | Fatal => t
  end.

Definition TransportBase_Unlock (t : TransportBase) : TransportBase :=
  match tb_M t with
  | Locked => mkTransportBase Unlocked (tb_Response t)
  | Unlocked => mkTransportBase Fatal (tb_Response t)
  | Blocked | Fatal => t
  end.

Definition TransportBase_Buffer (t : TransportBase) : list byte :=
  tb_Response t.

Definition TransportBase_Flush (t : TransportBase) : TransportBase :=
  if running t then mkTransportBase (tb_M t) [] else t.

(** [t.Response.Write(p)]. *)
Definition Response_Write (p : list byte) (t : TransportBase)
  : TransportBase :=
  if running t then mkTransportBase (tb_M t) (tb_Response t ++ p) else t.

(** A transport on [TransportBase] whose network is scripted: [Connect]
    and [Close] succeed, [Send] answers with [wi_send], and [Listen] either
    fails with [wi_listen] or reads up to 256 of the bytes [wi_incoming]
    that the connection holds, which it writes to the response buffer under
    the lock when there are any, as [TCP.Listen] does. *)
Record Wire : Type := mkWire {
  wi_send : option string;
  wi_listen : option string;
  wi_incoming : list byte;
  wi_base : TransportBase
}.

Definition with_base (b : TransportBase) (t : Wire) : Wire :=
  mkWire (wi_send t) (wi_listen t) (wi_incoming t) b.

#[export] Instance Wire_Transport : Transport Wire := {
  Connect t := (t, None);
  Send _ t := (t, wi_send t);
  Listen t :=
    match wi_listen t with
    | Some e => (t, Some e)
    | None =>
        let response := firstn 256 (wi_incoming t) in
        let t := mkWire (wi_send t) (wi_listen t) (skipn 256 (wi_incoming t))
                        (wi_base t) in
        if 0 <? len response then
          (with_base (TransportBase_Unlock
                        (Response_Write response
                           (TransportBase_Lock (wi_base t)))) t, None)
        else (t, None)
    end;
  Close t := (t, None);
  Lock t := with_base (TransportBase_Lock (wi_base t)) t;
  Unlock t := with_base (TransportBase_Unlock (wi_base t)) t;
  Buffer t := TransportBase_Buffer (wi_base t);
  Flush t := with_base (TransportBase_Flush (wi_base t)) t
}.
(** ** Proof steps used throughout *)

(** Splits on every [<=?] test of the goal, closing the arithmetic cases. *)
Ltac leb_cases :=
  repeat match goal with
         | |- context [?x <=? ?y] =>
             destruct (Z.leb_spec x y); try lia; simpl
         end.

(** Case analysis on the first call of a [bind] in hypothesis [H]. *)
Ltac inv_bind H :=
  match type of H with
  | bind ?r _ = _ =>
      let E := fresh "E" in
      destruct r eqn:E; cbn [bind] in H; try discriminate
  end.

(** * Properties *)

(** ** Bytes and big-endian words *)

Lemma byte_to_Z_range (b : byte) : 0 <= byte_to_Z b < 256.
Proof.
  unfold byte_to_Z. pose proof (Byte.to_N_bounded b). lia.
Qed.

Lemma byte_to_Z_to_byte (z : Z) : byte_to_Z (Z_to_byte z) = z mod 256.
Proof.
  unfold byte_to_Z, Z_to_byte.
  assert (Hr : 0 <= z mod 256 < 256) by (apply Z.mod_pos_bound; lia).
  destruct (Byte.of_N (Z.to_N (z mod 256))) as [b|] eqn:E.
  - apply Byte.to_of_N in E. rewrite E. lia.
  - apply Byte.of_N_None_iff in E. lia.
Qed.

Lemma Z_to_byte_to_Z (b : byte) : Z_to_byte (byte_to_Z b) = b.
Proof.
  unfold byte_to_Z, Z_to_byte.
  pose proof (Byte.to_N_bounded b) as Hb.
  rewrite Z.mod_small by lia.
  rewrite N2Z.id, Byte.of_to_N. reflexivity.
Qed.

Lemma byte_to_Z_inj (a b : byte) : byte_to_Z a = byte_to_Z b -> a = b.
Proof.
  intros H. rewrite <- (Z_to_byte_to_Z a), <- (Z_to_byte_to_Z b), H. reflexivity.
Qed.

Lemma lor_shiftl_8 (a b : Z) :
  0 <= a -> 0 <= b < 256 -> Z.lor (Z.shiftl a 8) b = a * 256 + b.
Proof.
  intros Ha Hb.
  rewrite Z.shiftl_mul_pow2 by lia. change (2 ^ 8) with 256.
  assert (Hland : Z.land (a * 256) b = 0).
  { apply Z.bits_inj'. intros n Hn.
    rewrite Z.land_spec, Z.bits_0.
    destruct (Z.lt_ge_cases n 8) as [Hlt|Hge].
    - change 256 with (2 ^ 8). rewrite Z.mul_pow2_bits_low by lia. reflexivity.
    - replace b with (b mod 2 ^ 8) by (apply Z.mod_small; simpl; lia).
      rewrite Z.mod_pow2_bits_high by lia. apply andb_false_r. }
  rewrite <- Z.lxor_lor by exact Hland.
  symmetry. apply Z.add_nocarry_lxor. exact Hland.
Qed.

(** Reading back what [PutUint16] wrote gives the value as a [uint16]. *)
Lemma Uint16_PutUint16 (v : Z) (x y : byte) (rest : list byte) :
  (b <- PutUint16 (x :: y :: rest) v ;; Uint16 b) = Ok (u16 v).
Proof.
  cbn [bind PutUint16 Uint16]. f_equal.
  rewrite !byte_to_Z_to_byte, Z.shiftr_div_pow2 by lia.
  change (2 ^ 8) with 256.
  rewrite lor_shiftl_8.
  - unfold u16. Z.div_mod_to_equations. lia.
  - apply Z.mod_pos_bound. lia.
  - apply Z.mod_pos_bound. lia.
Qed.

(** ** Address translator *)

Lemma Relative_coils (a : Z) :
  0 <= a <= 65535 -> Relative a = (RDCO, a, None).
Proof.
  intros H. unfold Relative.
  replace (0 <=? a) with true by (symmetry; apply Z.leb_le; lia).
  replace (a <=? 65535) with true by (symmetry; apply Z.leb_le; lia).
  reflexivity.
Qed.

Lemma Relative_offset (lo : Z) (a : Z) :
  lo <= a <= lo + 65535 -> u64 (a - lo) = a - lo.
Proof.
  intros H. unfold u64. apply Z.mod_small. lia.
Qed.

(** C3.  For every legal absolute register number (one of the four ranges),
    [Relative] succeeds, and [Absolute] applied to the function code and the
    relative address it produced returns the original number without error. *)
Theorem Relative_Absolute_roundtrip (absolute : Z) :
  legal_absolute absolute ->
  let '(fncode, relative, err) := Relative absolute in
  err = None /\ Absolute fncode relative = (absolute, None).
Proof.
  unfold legal_absolute, Relative. intros H.
  leb_cases; unfold Absolute, RDCO, RDDI, RDIR, RDHR; split; try reflexivity.
  - rewrite (Relative_offset 100000) by lia.
    f_equal. unfold u64. rewrite Z.mod_small; lia.
  - rewrite (Relative_offset 300000) by lia.
    f_equal. unfold u64. rewrite Z.mod_small; lia.
  - rewrite (Relative_offset 400000) by lia.
    f_equal. unfold u64. rewrite Z.mod_small; lia.
Qed.

Lemma Relative_Absolute_roundtrip_witness :
  legal_absolute 400010 /\
  let '(fncode, relative, err) := Relative 400010 in
  err = None /\ Absolute fncode relative = (400010, None).
Proof.
  assert (H : legal_absolute 400010) by (unfold legal_absolute; lia).
  split; [exact H | exact (Relative_Absolute_roundtrip 400010 H)].
Defined.

(** C4.  [Relative] follows the range table: an absolute address in one of
    the four ranges gives the function code of the range and the address
    minus the range's base, without error; every other address gives an
    address-out-of-range error (with the function code set to FERR).  The
    three addresses of the specification's scenario are instances. *)
Theorem Relative_range_table (absolute : Z) :
  (0 <= absolute <= 65535 ->
   Relative absolute = (RDCO, absolute, None)) /\
  (100000 <= absolute <= 165535 ->
   Relative absolute = (RDDI, absolute - 100000, None)) /\
  (300000 <= absolute <= 365535 ->
   Relative absolute = (RDIR, absolute - 300000, None)) /\
  (400000 <= absolute <= 465535 ->
   Relative absolute = (RDHR, absolute - 400000, None)) /\
  (~ legal_absolute absolute ->
   Relative absolute = (FERR, absolute, Some (ErrRelative absolute))) /\
  Relative 400010 = (x03, 10, None) /\
  Relative 100000 = (x02, 0, None) /\
  Relative 70000 = (FERR, 70000, Some (ErrRelative 70000)).
Proof.
  repeat split; try reflexivity; unfold legal_absolute, Relative; intros H;
    leb_cases; try reflexivity.
  - now rewrite (Relative_offset 100000) by lia.
  - now rewrite (Relative_offset 300000) by lia.
  - now rewrite (Relative_offset 400000) by lia.
Qed.

Lemma Relative_range_table_witness :
  Relative 65535 = (RDCO, 65535, None) /\
  Relative 165535 = (RDDI, 165535 - 100000, None) /\
  Relative 300000 = (RDIR, 300000 - 300000, None) /\
  Relative 400010 = (RDHR, 400010 - 400000, None) /\
  Relative 99999 = (FERR, 99999, Some (ErrRelative 99999)).
Proof.
  refine (conj _ (conj _ (conj _ (conj _ _)))).
  - apply (proj1 (Relative_range_table 65535)). lia.
  - apply (proj1 (proj2 (Relative_range_table 165535))). lia.
  - apply (proj1 (proj2 (proj2 (Relative_range_table 300000)))). lia.
  - apply (proj1 (proj2 (proj2 (proj2 (Relative_range_table 400010))))). lia.
  - apply (proj1 (proj2 (proj2 (proj2 (proj2 (Relative_range_table 99999)))))).
    unfold legal_absolute. lia.
Defined.

(** ** Request encoder *)

(** C6.  [Request.Encode] gives, for the function codes 0x01 to 0x04, a PDU
    with that function code and exactly four data bytes, the address then the
    quantity, each big-endian (read back as 16-bit words they are the
    address and the quantity); for 0x11 a PDU with empty data; and for every
    other function code the unsupported-function error. *)
Theorem Request_Encode_cases (r : Request) :
  let fn := req_FnCode r in
  let data := [ Z_to_byte (Z.shiftr (req_Address r) 8); Z_to_byte (req_Address r);
                Z_to_byte (Z.shiftr (req_Quantity r) 8); Z_to_byte (req_Quantity r) ] in
  (In fn [x01; x02; x03; x04] ->
   Request_Encode r = Ok (mkPDU [fn] data) /\
   List.length data = 4%nat /\
   Uint16 (firstn 2 data) = Ok (u16 (req_Address r)) /\
   Uint16 (skipn 2 data) = Ok (u16 (req_Quantity r))) /\
  (fn = x11 -> Request_Encode r = Ok (mkPDU [x11] [])) /\
  (~ In fn [x01; x02; x03; x04; x11] ->
   Request_Encode r = Err (ErrRequestFunction fn)).
Proof.
  destruct r as [fn a q]. cbn [req_FnCode req_Address req_Quantity].
  repeat split.
  - simpl in H. destruct H as [<-|[<-|[<-|[<-|[]]]]]; reflexivity.
  - apply (Uint16_PutUint16 a x00 x00 []).
  - apply (Uint16_PutUint16 q x00 x00 []).
  - intros ->. reflexivity.
  - intros H. unfold Request_Encode. cbn [req_FnCode bind NewPDU].
    destruct fn; try reflexivity; exfalso; apply H; simpl; tauto.
Qed.

Lemma Request_Encode_cases_witness :
  Request_Encode (mkRequest x03 0 2) = Ok (mkPDU [x03] [x00; x00; x00; x02]) /\
  Request_Encode (mkRequest x11 7 9) = Ok (mkPDU [x11] []) /\
  Request_Encode (mkRequest x05 0 2) = Err (ErrRequestFunction x05).
Proof.
  split; [|split].
  - apply (proj1 (Request_Encode_cases (mkRequest x03 0 2))). simpl. tauto.
  - apply (proj1 (proj2 (Request_Encode_cases (mkRequest x11 7 9)))). reflexivity.
  - apply (proj2 (proj2 (Request_Encode_cases (mkRequest x05 0 2)))).
    simpl. intuition discriminate.
Defined.

(** ** The decoder: runs that stop before any section handler succeeds *)

Lemma returns_unique {A : Type} (run : nat -> comp A) (r1 r2 : result A) :
  returns run r1 -> returns run r2 -> r1 = r2.
Proof.
  intros [n1 H1] [n2 H2].
  specialize (H1 (Nat.max n1 n2) (Nat.le_max_l _ _)).
  specialize (H2 (Nat.max n1 n2) (Nat.le_max_r _ _)).
  congruence.
Qed.

Lemma slice_from_0 (s : list byte) : slice_from s 0 = Ok s.
Proof.
  unfold slice_from. cbn [Z.leb Z.compare andb Z.to_nat skipn].
  destruct (0 <=? Z.of_nat (List.length s)) eqn:E; [reflexivity|].
  apply Z.leb_gt in E. lia.
Qed.

(** The ADU that [Recover] allocates has a nil header, and [handleMBAP]
    never allocates one: its first [PutUint16] into [adu.Hdr[*cnt:]] is out
    of range (when the response has fewer than two bytes, the read before it
    already is). *)
Lemma handleMBAP_nil_Hdr (fuel : nat) (response : list byte) (m : machine) :
  adu_Hdr (m_adu m) = [] -> m_cnt m = 0 ->
  handleMBAP (S fuel) response m = Some (Panic IndexOutOfRange).
Proof.
  intros HH Hc. unfold handleMBAP. cbn [loop]. unfold ret, handleMBAP_body.
  cbn [m_element with_element m_cnt m_adu]. rewrite Hc, slice_from_0.
  cbn [bind]. destruct response as [|a [|b rest]]; try reflexivity.
  cbn [Uint16 bind]. unfold PutUint16_at.
  cbn [adu_Hdr set_TransactionId]. rewrite HH. reflexivity.
Qed.

(** [ModbusTCP.Decode] panics on every response. *)
Lemma Recover_SMBAP_panics (response : list byte) :
  returns (fun fuel => Recover fuel response SMBAP) (Panic IndexOutOfRange).
Proof.
  exists 3%nat. intros fuel H.
  destruct fuel as [|[|[|fuel]]]; try lia.
  unfold Recover. cbn [Recover_loop l_state l_section l_element l_cnt l_adu
                       NewADU NewPDU bind cbind ret loop].
  unfold Recover_section_body at 1. cbn [m_section].
  rewrite handleMBAP_nil_Hdr by reflexivity. reflexivity.
Qed.

Lemma index_cases (s : list byte) (i : Z) :
  (exists b, index s i = Ok b) \/ index s i = Panic IndexOutOfRange.
Proof.
  unfold index. destruct (0 <=? i); [|now right].
  destruct (nth_error s (Z.to_nat i)) as [b|]; [left; now exists b|now right].
Qed.

(** [handleSOF] stores into the nil [adu.SOF] of the fresh ADU. *)
Lemma handleSOF_nil_SOF (response : list byte) (m : machine) :
  adu_SOF (m_adu m) = [] ->
  handleSOF response SASCII m = Panic IndexOutOfRange.
Proof.
  intros HS. unfold handleSOF.
  destruct (index_cases response (m_cnt m)) as [[b ->]| ->]; cbn [bind];
    [|reflexivity].
  rewrite HS. reflexivity.
Qed.

(** [Recover] started in the ASCII section panics on every response. *)
Lemma Recover_SASCII_panics (response : list byte) :
  returns (fun fuel => Recover fuel response SASCII) (Panic IndexOutOfRange).
Proof.
  exists 3%nat. intros fuel H.
  destruct fuel as [|[|[|fuel]]]; try lia.
  unfold Recover. cbn [Recover_loop l_state l_section l_element l_cnt l_adu
                       NewADU NewPDU bind cbind ret loop].
  unfold Recover_section_body at 1. cbn [m_section].
  rewrite handleSOF_nil_SOF by reflexivity. reflexivity.
Qed.

(** Any start section other than MBAP, RTU and ASCII is refused. *)
Lemma Recover_other_start (response : list byte) (section : Section) :
  section <> SMBAP -> section <> SRTU -> section <> SASCII ->
  returns (fun fuel => Recover fuel response section)
          (Err (ErrSectionCode section)).
Proof.
  intros H1 H2 H3. exists 2%nat. intros fuel H.
  destruct fuel as [|[|fuel]]; try lia.
  destruct section; try congruence; reflexivity.
Qed.

(** ** The decoder on RTU frames *)

Lemma loop_Break_inv {A : Type} (fuel : nat) (body : A -> comp (flow A))
  (a a' : A) :
  loop fuel body a = Some (Ok a') ->
  exists a0, body a0 = Some (Ok (Break a')).
Proof.
  revert a. induction fuel as [|fuel IH]; intros a H; [discriminate|].
  cbn [loop] in H.
  destruct (body a) as [[[a1|a1]|e|p]|] eqn:E; try discriminate.
  - eauto.
  - injection H as <-. eauto.
Qed.

Lemma handleCRC_section (response : list byte) (m m' : machine) :
  handleCRC response m = Ok m' -> m_section m' = SRTU.
Proof.
  unfold handleCRC. intros H.
  destruct (len response <? LCRC + (LSID + LFNC)); [discriminate|].
  inv_bind H. inv_bind H. inv_bind H.
  destruct (a0 =? _); [|discriminate].
  injection H as <-. reflexivity.
Qed.

Lemma handleRTU_section (response : list byte) (m m' : machine) :
  handleRTU response m = Ok m' -> m_section m' = SPDU.
Proof.
  unfold handleRTU. intros H.
  destruct (len response <? LSID + LFNC + LCRC); [discriminate|].
  cbn [m_element with_element] in H.
  inv_bind H. inv_bind H.
  injection H as <-. reflexivity.
Qed.

Lemma handlePDU_body_Break (response : list byte) (start : Section)
  (m m' : machine) :
  handlePDU_body response start m = Ok (Break m') -> m_section m' = SDONE.
Proof.
  unfold handlePDU_body. intros H.
  destruct (m_element m); try discriminate.
  - inv_bind H. inv_bind H.
    destruct (byte_to_Z FERR <=? byte_to_Z a0); [discriminate|].
    destruct a0; try discriminate; destruct start; discriminate.
  - inv_bind H. inv_bind H.
    destruct (_ <=? 0); discriminate.
  - inv_bind H. inv_bind H.
    destruct (adu_ExceptionCode _); try discriminate;
      injection H as <-; reflexivity.
  - inv_bind H. injection H as <-. reflexivity.
Qed.

Lemma handlePDU_section (fuel : nat) (response : list byte) (start : Section)
  (m m' : machine) :
  handlePDU fuel response start m = Some (Ok m') -> m_section m' = SDONE.
Proof.
  unfold handlePDU. intros H.
  apply loop_Break_inv in H. destruct H as [a0 H].
  unfold ret in H. injection H as H.
  eapply handlePDU_body_Break; eauto.
Qed.

Lemma NewADU_nil : NewADU None = Ok fresh_ADU.
Proof. reflexivity. Qed.

Lemma loop_S {A : Type} (fuel : nat) (body : A -> comp (flow A)) (a : A) :
  loop (S fuel) body a =
  match body a with
  | None => None
  | Some (Ok (Continue a')) => loop fuel body a'
  | Some (Ok (Break a')) => Some (Ok a')
  | Some (Err e) => Some (Err e)
  | Some (Panic p) => Some (Panic p)
  end.
Proof. reflexivity. Qed.

Lemma Recover_loop_S (fuel : nat) (response : list byte) (start : Section)
  (l : locals) :
  Recover_loop (S fuel) response start l =
  match l_state l with
  | TCOMPLETE => ret (Ok (l_adu l))
  | TFAILURE => ret (Err ErrFailureToProcess)
  | TRESET =>
      Recover_loop fuel response start
        (mkLocals TPROCESS (l_section l) (l_element l) (l_cnt l) (l_adu l))
  | TPROCESS =>
      section <-- match start with
                  | SRTU => ret (Ok SERR)
                  | SMBAP => ret (Ok (l_section l))
                  | SASCII => ret (Ok SSOF)
                  | _ => ret (Err (ErrSectionCode start))
                  end ;;;
      match NewADU None with
      | Ok adu =>
          sm <-- loop fuel (Recover_section_body fuel response start)
                   (l_state l, mkMachine adu (l_cnt l) section (l_element l)) ;;;
          let (state, m) := sm in
          Recover_loop fuel response start
            (mkLocals state (m_section m) (m_element m) (m_cnt m)
                      (Some (m_adu m)))
      | _ => ret (Err ErrUnableToCreateADU)
      end
  end.
Proof. reflexivity. Qed.

Section SectionLoopRTU.

Variables (fuel : nat) (response : list byte) (state : State).

Lemma body_SERR (m : machine) :
  m_section m = SERR ->
  Recover_section_body fuel response SRTU (state, m) =
  (m' <-- ret (handleCRC response (with_element ECRC m)) ;;;
   ret (Ok (Continue (state, m')))).
Proof.
  intros H. unfold Recover_section_body. rewrite H.
  cbn [cbind ret with_element m_element].
  destruct (handleCRC _ _); reflexivity.
Qed.

Lemma body_SRTU (m : machine) :
  m_section m = SRTU ->
  Recover_section_body fuel response SRTU (state, m) =
  (m' <-- ret (handleRTU response m) ;;; ret (Ok (Continue (state, m')))).
Proof.
  intros H. unfold Recover_section_body. rewrite H.
  cbn [cbind ret]. destruct (handleRTU _ _); reflexivity.
Qed.

Lemma body_SPDU (m : machine) :
  m_section m = SPDU ->
  Recover_section_body fuel response SRTU (state, m) =
  (m' <-- handlePDU fuel response SRTU m ;;; ret (Ok (Continue (state, m')))).
Proof.
  intros H. unfold Recover_section_body. rewrite H.
  destruct (handlePDU _ _ _ _) as [[?|?|?]|]; reflexivity.
Qed.

Lemma body_SDONE (m : machine) :
  m_section m = SDONE ->
  Recover_section_body fuel response SRTU (state, m) = ret (Ok (Break (TCOMPLETE, m))).
Proof.
  intros H. unfold Recover_section_body. rewrite H. reflexivity.
Qed.

(** The section loop of an RTU run is the straight line
    CRC, slave id, PDU, done. *)
Lemma section_loop_SRTU (k : nat) (m : machine) :
  m_section m = SERR ->
  loop (S (S (S (S k)))) (Recover_section_body fuel response SRTU) (state, m) =
  (m1 <-- ret (handleCRC response (with_element ECRC m)) ;;;
   m2 <-- ret (handleRTU response m1) ;;;
   m3 <-- handlePDU fuel response SRTU m2 ;;;
   ret (Ok (TCOMPLETE, m3))).
Proof.
  intros H. rewrite loop_S, body_SERR by exact H.
  destruct (handleCRC _ _) as [m1|e|p] eqn:E1; cbn [cbind ret]; try reflexivity.
  rewrite loop_S, body_SRTU by (eapply handleCRC_section; eauto).
  destruct (handleRTU _ _) as [m2|e|p] eqn:E2; cbn [cbind ret]; try reflexivity.
  rewrite loop_S, body_SPDU by (eapply handleRTU_section; eauto).
  destruct (handlePDU _ _ _ _) as [[m3|e|p]|] eqn:E3; cbn [cbind ret];
    try reflexivity.
  rewrite loop_S, body_SDONE by (eapply handlePDU_section; eauto).
  reflexivity.
Qed.

End SectionLoopRTU.

(** [Recover] on an RTU response: check the CRC, read the slave id, parse
    the PDU, return the ADU. *)
Lemma Recover_SRTU_pipeline (fuel : nat) (response : list byte) :
  Recover (S (S (S (S (S (S fuel)))))) response SRTU =
  (m1 <-- ret (handleCRC response (mkMachine fresh_ADU 0 SERR ECRC)) ;;;
   m2 <-- ret (handleRTU response m1) ;;;
   m3 <-- handlePDU (S (S (S (S fuel)))) response SRTU m2 ;;;
   ret (Ok (Some (m_adu m3)))).
Proof.
  unfold Recover. rewrite Recover_loop_S. cbn [l_state].
  rewrite Recover_loop_S.
  cbn [l_state l_section l_element l_cnt l_adu cbind ret].
  rewrite NewADU_nil, section_loop_SRTU by reflexivity.
  cbn [with_element m_adu m_cnt m_section].
  destruct (handleCRC _ _) as [m1|e|p]; cbn [cbind ret]; try reflexivity.
  destruct (handleRTU _ _) as [m2|e|p]; cbn [cbind ret]; try reflexivity.
  destruct (handlePDU _ _ _ _) as [[m3|e|p]|]; cbn [cbind ret]; try reflexivity.
Qed.

(** *** Termination of the element loop of [handlePDU] *)

(** A loop whose body lowers a rank on every [Continue] returns. *)
Lemma loop_rank {A : Type} (body : A -> result (flow A)) (rank : A -> nat) :
  (forall a a', body a = Ok (Continue a') -> (rank a' < rank a)%nat) ->
  forall a, exists r, forall fuel, (rank a < fuel)%nat ->
    loop fuel (fun a => ret (body a)) a = Some r.
Proof.
  intros Hdec a. remember (rank a) as n eqn:Hn. revert a Hn.
  induction n as [n IH] using lt_wf_ind. intros a ->.
  destruct (body a) as [[a'|a']|e|p] eqn:E.
  - destruct (IH (rank a') (Hdec _ _ E) a' eq_refl) as [r Hr].
    exists r. intros [|fuel] Hf; [lia|].
    rewrite loop_S. unfold ret at 1. rewrite E. apply Hr.
    specialize (Hdec _ _ E). lia.
  - exists (Ok a'). intros [|fuel] Hf; [lia|].
    rewrite loop_S. unfold ret. now rewrite E.
  - exists (Err e). intros [|fuel] Hf; [lia|].
    rewrite loop_S. unfold ret. now rewrite E.
  - exists (Panic p). intros [|fuel] Hf; [lia|].
    rewrite loop_S. unfold ret. now rewrite E.
Qed.

Lemma handlePDU_body_rank (response : list byte) (start : Section)
  (m m' : machine) :
  start <> SASCII ->
  handlePDU_body response start m = Ok (Continue m') ->
  (element_rank (m_element m') < element_rank (m_element m))%nat.
Proof.
  unfold handlePDU_body. intros Hs H.
  destruct (m_element m); try discriminate.
  - inv_bind H. inv_bind H.
    destruct (byte_to_Z FERR <=? byte_to_Z a0).
    + injection H as <-. cbn. lia.
    + destruct a0; try discriminate; destruct start; try discriminate;
        try congruence; injection H as <-; cbn; lia.
  - inv_bind H. inv_bind H.
    destruct (_ <=? 0); [discriminate|].
    injection H as <-. cbn. lia.
  - inv_bind H. inv_bind H.
    destruct (adu_ExceptionCode _); discriminate.
  - inv_bind H.
Qed.

(** Started from MBAP or RTU, [handlePDU] returns within three passes. *)
Lemma handlePDU_terminates (response : list byte) (start : Section)
  (m : machine) :
  start <> SASCII ->
  exists r, forall fuel, (3 <= fuel)%nat ->
    handlePDU fuel response start m = Some r.
Proof.
  intros Hs.
  destruct (loop_rank (handlePDU_body response start)
              (fun m => element_rank (m_element m))
              (fun a a' => handlePDU_body_rank response start a a' Hs)
              (with_element EFNCODE m)) as [r Hr].
  exists r. intros fuel Hf. apply Hr. cbn. lia.
Qed.

(** *** The CRC and slave-id sections *)

Lemma len_nonneg (s : list byte) : 0 <= len s.
Proof. unfold len. lia. Qed.

(** [handleCRC] on a response of at least four bytes whose last two bytes
    read [c]: the comparison with the recomputed CRC decides. *)
Lemma handleCRC_checked (response : list byte) (m : machine) (c : Z) :
  LSID + LFNC + LCRC <= len response ->
  Uint16 (skipn (Z.to_nat (len response - LCRC)) response) = Ok c ->
  handleCRC response m =
  if c =? CRC_value (CRC_calculate CRC_reset
                       (firstn (Z.to_nat (len response - LCRC)) response))
  then Ok (mkMachine
             (set_Err [Z_to_byte (Z.shiftr c 8); Z_to_byte c]
                      (set_CRC c (m_adu m)))
             (m_cnt m) SRTU (m_element m))
  else Err (ErrCRCMismatch c c).
Proof.
  intros Hlen Hc. unfold handleCRC.
  pose proof (len_nonneg response) as Hn.
  unfold LSID, LFNC, LCRC in *.
  destruct (Z.ltb_spec (len response) (2 + (1 + 1))); [lia|].
  unfold slice_from. fold (len response).
  destruct (Z.leb_spec 0 (len response - 2)); [|lia].
  destruct (Z.leb_spec (len response - 2) (len response)); [|lia].
  cbn [andb bind]. rewrite Hc. cbn [bind].
  change (Z.to_nat 2) with 2%nat. cbn [make repeat PutUint16 bind].
  cbn [adu_Err set_Err set_CRC adu_CRC].
  destruct (c =? _); reflexivity.
Qed.

(** [handleRTU] at the start of a response of at least four bytes: the
    first byte becomes the slave id and the one-byte header, the cursor
    moves to 1 and the next section is the PDU. *)
Lemma handleRTU_slave (response : list byte) (m : machine) (slave : byte) :
  LSID + LFNC + LCRC <= len response ->
  nth_error response 0 = Some slave ->
  m_cnt m = 0 ->
  handleRTU response m =
  Ok (mkMachine (set_Hdr [slave] (set_SlaveId slave (m_adu m))) 1 SPDU ESLAVEID).
Proof.
  intros Hlen H0 Hc. unfold handleRTU.
  unfold LSID, LFNC, LCRC in *.
  destruct (Z.ltb_spec (len response) (1 + 1 + 2)); [lia|].
  cbn [with_element m_element with_adu m_cnt m_adu]. rewrite Hc.
  unfold index. cbn [Z.leb Z.compare Z.to_nat]. rewrite H0. reflexivity.
Qed.

(** [Recover] returns on every response and for every start section: with
    an ADU, with an error, or with a panic. *)
Lemma Recover_terminates (response : list byte) (section : Section) :
  exists r, returns (fun fuel => Recover fuel response section) r.
Proof.
  destruct section;
    try (eexists; apply Recover_other_start; discriminate).
  - eexists. apply Recover_SMBAP_panics.
  - destruct (handleCRC response (mkMachine fresh_ADU 0 SERR ECRC))
      as [m1|e|p] eqn:E1.
    + destruct (handleRTU response m1) as [m2|e|p] eqn:E2.
      * destruct (handlePDU_terminates response SRTU m2) as [r Hr];
          [discriminate|].
        exists (m3 <- r ;; Ok (Some (m_adu m3))). exists 6%nat.
        intros fuel Hf. do 6 (destruct fuel as [|fuel]; [lia|]).
        rewrite Recover_SRTU_pipeline, E1. cbn [cbind ret]. rewrite E2.
        cbn [cbind ret]. rewrite Hr by lia.
        destruct r; reflexivity.
      * exists (Err e). exists 6%nat.
        intros fuel Hf. do 6 (destruct fuel as [|fuel]; [lia|]).
        rewrite Recover_SRTU_pipeline, E1. cbn [cbind ret]. rewrite E2.
        reflexivity.
      * exists (Panic p). exists 6%nat.
        intros fuel Hf. do 6 (destruct fuel as [|fuel]; [lia|]).
        rewrite Recover_SRTU_pipeline, E1. cbn [cbind ret]. rewrite E2.
        reflexivity.
    + exists (Err e). exists 6%nat.
      intros fuel Hf. do 6 (destruct fuel as [|fuel]; [lia|]).
      rewrite Recover_SRTU_pipeline, E1. reflexivity.
    + exists (Panic p). exists 6%nat.
      intros fuel Hf. do 6 (destruct fuel as [|fuel]; [lia|]).
      rewrite Recover_SRTU_pipeline, E1. reflexivity.
  - eexists. apply Recover_SASCII_panics.
Qed.

(** C5.  On an RTU response of at least the minimum frame size (four bytes)
    whose last two bytes read big-endian are [crcResponse]: when
    [crcResponse] differs from the CRC-16 recomputed over all preceding
    bytes, [RTU.Decode] returns the checksum-mismatch error and no ADU;
    when they are equal, decoding goes on: the first byte is taken as the
    slave id and header, and the result of [RTU.Decode] is the result of
    parsing the PDU from offset 1. *)
Theorem RTU_Decode_checksum (response : list byte) (crcResponse : Z) :
  LSID + LFNC + LCRC <= len response ->
  Uint16 (skipn (Z.to_nat (len response - LCRC)) response) = Ok crcResponse ->
  let crc := CRC_value (CRC_calculate CRC_reset
                          (firstn (Z.to_nat (len response - LCRC)) response)) in
  (crcResponse <> crc ->
   returns (fun fuel => RTU_Decode fuel response)
           (Err (ErrCRCMismatch crcResponse crcResponse))) /\
  (crcResponse = crc ->
   exists (slave : byte) (r : result machine),
     nth_error response 0 = Some slave /\
     let adu :=
       mkADU [] [slave] 0 0 0 slave
             [Z_to_byte (Z.shiftr crcResponse 8); Z_to_byte crcResponse]
             crcResponse x00 EmptyString false [FERR] [] [] in
     returns (fun fuel =>
                handlePDU fuel response SRTU (mkMachine adu 1 SPDU ESLAVEID)) r /\
     returns (fun fuel => RTU_Decode fuel response)
             (m <- r ;; Ok (Some (m_adu m)))).
Proof.
  intros Hlen Hc crc. split.
  - intros Hne. exists 6%nat.
    intros fuel Hf. do 6 (destruct fuel as [|fuel]; [lia|]).
    unfold RTU_Decode. rewrite Recover_SRTU_pipeline.
    rewrite (handleCRC_checked _ _ _ Hlen Hc). fold crc.
    destruct (Z.eqb_spec crcResponse crc); [contradiction|reflexivity].
  - intros Heq.
    destruct response as [|slave rest];
      [unfold LSID, LFNC, LCRC, len in Hlen; simpl in Hlen; lia|].
    exists slave.
    set (adu := mkADU [] [slave] 0 0 0 slave
                  [Z_to_byte (Z.shiftr crcResponse 8); Z_to_byte crcResponse]
                  crcResponse x00 EmptyString false [FERR] [] []).
    destruct (handlePDU_terminates (slave :: rest) SRTU
                (mkMachine adu 1 SPDU ESLAVEID)) as [r Hr]; [discriminate|].
    exists r. split; [reflexivity|]. split.
    + exists 3%nat. exact Hr.
    + exists 6%nat.
      intros fuel Hf. do 6 (destruct fuel as [|fuel]; [lia|]).
      unfold RTU_Decode. rewrite Recover_SRTU_pipeline.
      rewrite (handleCRC_checked _ _ _ Hlen Hc). fold crc.
      destruct (Z.eqb_spec crcResponse crc); [|contradiction].
      cbn [cbind ret].
      rewrite (handleRTU_slave _ _ slave Hlen) by reflexivity.
      cbn [cbind ret m_adu set_CRC set_Err set_SlaveId set_Hdr fresh_ADU
           adu_SOF adu_Hdr adu_TransactionId adu_ProtocolId adu_Length
           adu_SlaveId adu_Err adu_CRC adu_ExceptionCode adu_Exception
           adu_Timeout adu_FnCode adu_Data adu_EOF].
      fold adu. rewrite Hr by lia.
      destruct r; reflexivity.
Qed.

Lemma RTU_Decode_checksum_witness :
  returns (fun fuel => RTU_Decode fuel [x11; x01; x02; xcd; x6b; x40; x6c])
          (Err (ErrCRCMismatch 16492 16492)) /\
  exists (slave : byte) (r : result machine),
    nth_error [x11; x01; x02; xcd; x6b; x40; x6d] 0 = Some slave /\
    let adu :=
      mkADU [] [slave] 0 0 0 slave
            [Z_to_byte (Z.shiftr 16493 8); Z_to_byte 16493]
            16493 x00 EmptyString false [FERR] [] [] in
    returns (fun fuel =>
               handlePDU fuel [x11; x01; x02; xcd; x6b; x40; x6d] SRTU
                 (mkMachine adu 1 SPDU ESLAVEID)) r /\
    returns (fun fuel => RTU_Decode fuel [x11; x01; x02; xcd; x6b; x40; x6d])
            (m <- r ;; Ok (Some (m_adu m))).
Proof.
  split.
  - apply (proj1 (RTU_Decode_checksum [x11; x01; x02; xcd; x6b; x40; x6c] 16492
                    ltac:(vm_compute; discriminate) eq_refl)).
    vm_compute. discriminate.
  - apply (proj2 (RTU_Decode_checksum [x11; x01; x02; xcd; x6b; x40; x6d] 16493
                    ltac:(vm_compute; discriminate) eq_refl)).
    reflexivity.
Defined.

(** The specification's RTU scenario: slave 0x11 answers a read-coils
    request with two data bytes. *)
Example RTU_Decode_read_coils :
  returns (fun fuel => RTU_Decode fuel [x11; x01; x02; xcd; x6b; x40; x6d])
          (Ok (Some (mkADU [] [x11] 0 0 2 x11 [x40; x6d] 16493 x00 EmptyString
                           false [x01] [x02; xcd; x6b] []))).
Proof.
  exists 6%nat. intros fuel Hf. do 6 (destruct fuel as [|fuel]; [lia|]).
  unfold RTU_Decode. rewrite Recover_SRTU_pipeline. reflexivity.
Qed.

(** An RTU exception response: slave 0x11 refuses a read of holding
    registers with exception code 2. *)
Example RTU_Decode_exception_2 :
  returns (fun fuel => RTU_Decode fuel [x11; x83; x02; x34; xc1])
          (Ok (Some (mkADU [] [x11] 0 0 0 x11 [x34; xc1] 13505 x02
                           "Illegal data address" false [x83] [x02] []))).
Proof.
  exists 6%nat. intros fuel Hf. do 6 (destruct fuel as [|fuel]; [lia|]).
  unfold RTU_Decode. rewrite Recover_SRTU_pipeline. reflexivity.
Qed.

(** The request of the same scenario, encoded for RTU: the CRC follows the
    body high byte first. *)
Example RTU_Encode_read_coils :
  (pdu <- Request_Encode (mkRequest x01 19 13) ;;
   adu <- RTU_Encode x11 pdu ;;
   Bytes adu) = Ok [x11; x01; x00; x13; x00; x0d; x9a; x0e].
Proof. reflexivity. Qed.

(** The usual check value of the Modbus CRC: 01 03 00 00 00 0A gives
    0xCDC5. *)
Example CRC_check_value :
  CRC_value (CRC_calculate CRC_reset [x01; x03; x00; x00; x00; x0a]) = 0xCDC5.
Proof. reflexivity. Qed.

(** *** The CRC is a 16-bit value *)

Lemma lxor_range (n a b : Z) :
  0 <= n -> 0 <= a < 2 ^ n -> 0 <= b < 2 ^ n -> 0 <= Z.lxor a b < 2 ^ n.
Proof.
  intros Hn Ha Hb.
  assert (E : Z.lxor a b = Z.lxor a b mod 2 ^ n).
  { apply Z.bits_inj'. intros k Hk.
    destruct (Z.lt_ge_cases k n) as [Hlt|Hge].
    - now rewrite Z.mod_pow2_bits_low.
    - rewrite Z.mod_pow2_bits_high by lia.
      rewrite Z.lxor_spec.
      replace a with (a mod 2 ^ n) by (apply Z.mod_small; lia).
      replace b with (b mod 2 ^ n) by (apply Z.mod_small; lia).
      now rewrite !Z.mod_pow2_bits_high by lia. }
  rewrite E. apply Z.mod_pos_bound. apply Z.pow_pos_nonneg; lia.
Qed.

Lemma CRC_shift_range (crc : Z) :
  0 <= crc < 65536 -> 0 <= CRC_shift crc < 65536.
Proof.
  intros H. unfold CRC_shift.
  assert (Hs : 0 <= Z.shiftr crc 1 < 32768).
  { rewrite Z.shiftr_div_pow2 by lia. change (2 ^ 1) with 2.
    Z.div_mod_to_equations. lia. }
  destruct (Z.testbit crc 0); [|lia].
  change 65536 with (2 ^ 16). apply lxor_range; simpl; lia.
Qed.

Lemma CRC_update_range (crc : Z) (b : byte) :
  0 <= crc < 65536 -> 0 <= CRC_update crc b < 65536.
Proof.
  intros H. unfold CRC_update.
  assert (Hx : 0 <= Z.lxor crc (byte_to_Z b) < 65536).
  { pose proof (byte_to_Z_range b).
    change 65536 with (2 ^ 16). apply lxor_range; simpl; lia. }
  cbn [Nat.iter nat_rect]. unfold Nat.iter. cbn [nat_rect].
  do 8 apply CRC_shift_range. exact Hx.
Qed.

Lemma CRC_calculate_range (bs : list byte) (crc : Z) :
  0 <= crc < 65536 -> 0 <= CRC_calculate crc bs < 65536.
Proof.
  unfold CRC_calculate. revert crc.
  induction bs as [|b bs IH]; intros crc H; cbn [fold_left]; [exact H|].
  apply IH, CRC_update_range, H.
Qed.

Lemma CRC_value_u16 (bs : list byte) :
  u16 (CRC_value (CRC_calculate CRC_reset bs)) =
  CRC_value (CRC_calculate CRC_reset bs).
Proof.
  unfold u16, CRC_value. apply Z.mod_small.
  apply CRC_calculate_range. unfold CRC_reset. lia.
Qed.

(** *** Exception responses *)

(** The exception codes that the [switch] of the [EEXCODE] element lets
    through. *)
Lemma exception_codes_rejected (ex : ExCode) :
  ~ In ex [x00; x01; x02; x03; x04; x05; x06; x08; x0a; x0b] <->
  byte_to_Z ex = 7 \/ byte_to_Z ex = 9 \/ 12 <= byte_to_Z ex.
Proof.
  split.
  - intros H. pose proof (byte_to_Z_range ex) as Hr.
    assert (Hin : forall v, byte_to_Z ex = v ->
                    In (Z_to_byte v) [x00; x01; x02; x03; x04; x05; x06; x08; x0a; x0b] ->
                    False).
    { intros v <-. rewrite Z_to_byte_to_Z. exact H. }
    destruct (Z.eq_dec (byte_to_Z ex) 0) as [E|]; [exfalso; apply (Hin 0 E); vm_compute; tauto|].
    destruct (Z.eq_dec (byte_to_Z ex) 1) as [E|]; [exfalso; apply (Hin 1 E); vm_compute; tauto|].
    destruct (Z.eq_dec (byte_to_Z ex) 2) as [E|]; [exfalso; apply (Hin 2 E); vm_compute; tauto|].
    destruct (Z.eq_dec (byte_to_Z ex) 3) as [E|]; [exfalso; apply (Hin 3 E); vm_compute; tauto|].
    destruct (Z.eq_dec (byte_to_Z ex) 4) as [E|]; [exfalso; apply (Hin 4 E); vm_compute; tauto|].
    destruct (Z.eq_dec (byte_to_Z ex) 5) as [E|]; [exfalso; apply (Hin 5 E); vm_compute; tauto|].
    destruct (Z.eq_dec (byte_to_Z ex) 6) as [E|]; [exfalso; apply (Hin 6 E); vm_compute; tauto|].
    destruct (Z.eq_dec (byte_to_Z ex) 8) as [E|]; [exfalso; apply (Hin 8 E); vm_compute; tauto|].
    destruct (Z.eq_dec (byte_to_Z ex) 10) as [E|]; [exfalso; apply (Hin 10 E); vm_compute; tauto|].
    destruct (Z.eq_dec (byte_to_Z ex) 11) as [E|]; [exfalso; apply (Hin 11 E); vm_compute; tauto|].
    lia.
  - intros H Hin. cbn [In] in Hin.
    repeat (destruct Hin as [<-|Hin];
            [vm_compute in H; intuition discriminate|]).
    exact Hin.
Qed.

Lemma handlePDU_exception (fuel : nat) (response : list byte) (start : Section)
  (m : machine) (fn ex : byte) :
  index response (m_cnt m) = Ok fn ->
  byte_to_Z FERR <= byte_to_Z fn ->
  index response (u8 (m_cnt m + 1)) = Ok ex ->
  let d := set_Data [ex] (set_ExceptionCode ex (set_FnCode [fn] (m_adu m))) in
  let d' := match Exception_lookup ex with
            | Some text => set_Exception text d
            | None => d
            end in
  (In ex [x00; x01; x02; x03; x04; x05; x06; x08; x0a; x0b] ->
   handlePDU (S (S fuel)) response start m =
   Some (Ok (mkMachine d' (u8 (u8 (m_cnt m + 1) + 1)) SDONE EEXCODE))) /\
  (~ In ex [x00; x01; x02; x03; x04; x05; x06; x08; x0a; x0b] ->
   handlePDU (S (S fuel)) response start m = Some (Err (ErrExceptionCode ex))).
Proof.
  intros Hfn Hge Hex d d'.
  assert (Hstep : handlePDU (S (S fuel)) response start m =
                  match handlePDU_body response start
                          (mkMachine (set_FnCode [fn] (m_adu m))
                                     (u8 (m_cnt m + 1)) (m_section m) EEXCODE) with
                  | Ok (Continue a') =>
                      loop fuel (fun m => ret (handlePDU_body response start m)) a'
                  | Ok (Break a') => Some (Ok a')
                  | Err e => Some (Err e)
                  | Panic p => Some (Panic p)
                  end).
  { unfold handlePDU. rewrite loop_S. unfold ret at 1.
    unfold handlePDU_body at 1.
    cbn [with_element m_element m_cnt]. rewrite Hfn.
    cbn [bind with_adu with_cnt m_adu m_cnt set_FnCode adu_FnCode index
         Z.leb Z.compare Z.to_nat nth_error].
    destruct (Z.leb_spec (byte_to_Z FERR) (byte_to_Z fn)); [|lia].
    rewrite loop_S. unfold ret at 1. reflexivity. }
  rewrite Hstep. unfold handlePDU_body.
  cbn [m_element m_cnt m_adu]. rewrite Hex.
  cbn [bind make repeat set_Data adu_Data adu_ExceptionCode set_ExceptionCode
       set_index Z.leb Z.ltb Z.compare andb List.length Z.of_nat
       Pos.of_succ_nat Z.to_nat firstn skipn app].
  split.
  - intros H. cbn [In] in H.
    repeat (destruct H as [<-|H]; [reflexivity|]). destruct H.
  - intros H. destruct ex; try reflexivity; exfalso; apply H; cbn [In]; tauto.
Qed.

(** An RTU exception response with exception code 0 decodes: the ADU has
    exception code 0 and no exception text. *)
Lemma RTU_Decode_exception_zero (slave fn : byte) :
  byte_to_Z FERR <= byte_to_Z fn ->
  let crc := CRC_value (CRC_calculate CRC_reset [slave; fn; x00]) in
  let err := [Z_to_byte (Z.shiftr crc 8); Z_to_byte crc] in
  returns (fun fuel => RTU_Decode fuel ([slave; fn; x00] ++ err))
          (Ok (Some (mkADU [] [slave] 0 0 0 slave err crc x00 EmptyString
                           false [fn] [x00] []))).
Proof.
  intros Hfn crc err. exists 6%nat.
  intros fuel Hf. do 6 (destruct fuel as [|fuel]; [lia|]).
  unfold RTU_Decode. rewrite Recover_SRTU_pipeline.
  assert (Hc : Uint16 err = Ok crc).
  { unfold err, crc. rewrite <- CRC_value_u16 at 3.
    apply (Uint16_PutUint16 _ x00 x00 []). }
  rewrite (handleCRC_checked _ _ crc); [| vm_compute; discriminate | exact Hc].
  change (firstn _ _) with [slave; fn; x00]. fold crc.
  rewrite Z.eqb_refl. cbn [cbind ret].
  rewrite (handleRTU_slave _ _ slave);
    [| vm_compute; discriminate | reflexivity | reflexivity].
  cbn [cbind ret].
  match goal with
  | |- context [handlePDU (S (S ?f)) ?r ?s ?m] =>
      rewrite (proj1 (handlePDU_exception f r s m fn x00 eq_refl Hfn eq_refl))
  end; [reflexivity | cbn [In]; tauto].
Qed.

(** [RTU.Decode] on a response shorter than the minimum RTU frame returns
    the too-short error from [handleCRC] without indexing the response. *)
Lemma RTU_Decode_short (response : list byte) :
  len response < LSID + LFNC + LCRC ->
  returns (fun fuel => RTU_Decode fuel response)
          (Err (ErrResponseTooShort (len response))).
Proof.
  intros Hlen. exists 6%nat.
  intros fuel Hf. do 6 (destruct fuel as [|fuel]; [lia|]).
  unfold RTU_Decode. rewrite Recover_SRTU_pipeline. unfold handleCRC.
  unfold LSID, LFNC, LCRC in *.
  destruct (Z.ltb_spec (len response) (2 + (1 + 1))); [reflexivity|lia].
Qed.

(** *** The data element of an MBAP response *)

Lemma read_data_appends (n : nat) (response : list byte) (m m' : machine) :
  read_data n response m = Ok m' ->
  exists bs, adu_Data (m_adu m') = adu_Data (m_adu m) ++ bs /\
             List.length bs = n.
Proof.
  revert m. induction n as [|n IH]; intros m H; cbn [read_data] in H.
  - injection H as <-. exists []. now rewrite app_nil_r.
  - inv_bind H. apply IH in H. destruct H as [bs [Hd Hl]].
    exists (a :: bs). cbn [with_cnt with_adu m_adu set_Data adu_Data] in Hd.
    rewrite Hd, <- app_assoc. split; [reflexivity|].
    cbn [List.length]. now rewrite Hl.
Qed.

(** In the MBAP variant the [EDATA] element reads as many bytes as the low
    byte of the length field says, not the length field minus two. *)
Lemma handlePDU_MBAP_data_length (response : list byte) (m m' : machine) :
  m_element m = EDATA ->
  handlePDU_body response SMBAP m = Ok (Break m') ->
  exists bs, adu_Data (m_adu m') = adu_Data (m_adu m) ++ bs /\
             Z.of_nat (List.length bs) = u8 (adu_Length (m_adu m)).
Proof.
  intros He H. unfold handlePDU_body in H. rewrite He in H.
  inv_bind H. injection H as <-.
  apply read_data_appends in E. destruct E as [bs [Hd Hl]].
  exists bs. split; [exact Hd|].
  rewrite Hl, Z2Nat.id; [reflexivity|].
  unfold u8. apply Z.mod_pos_bound. lia.
Qed.

(** Entered as a working header section would leave it for the
    specification's response (cursor 7, length field 7), [handlePDU] reads
    seven data bytes where five remain and runs off the response. *)
Lemma handlePDU_MBAP_scenario_overruns :
  returns (fun fuel =>
             handlePDU fuel
               [x00; x01; x00; x00; x00; x07; x01; x03; x04; x00; x0a; x00; x14]
               SMBAP
               (mkMachine
                  (mkADU [] [x00; x01; x00; x00; x00; x07; x01] 1 0 7 x01 [] 0
                         x00 EmptyString false [FERR] [] [])
                  7 SPDU ESLAVEID))
          (Panic IndexOutOfRange).
Proof.
  exists 2%nat. intros fuel Hf. do 2 (destruct fuel as [|fuel]; [lia|]).
  reflexivity.
Qed.

(** C1 (fails on the code).  [ModbusTCP.Decode] of the specification's
    response 00 01 00 00 00 07 01 03 04 00 0A 00 14 does not yield function
    code 0x03 and the five data bytes: it panics with an index out of
    range. *)
Theorem ModbusTCP_Decode_read_holding_panics :
  returns (fun fuel =>
             ModbusTCP_Decode fuel
               [x00; x01; x00; x00; x00; x07; x01; x03; x04; x00; x0a; x00; x14])
          (Panic IndexOutOfRange).
Proof. apply Recover_SMBAP_panics. Qed.

(** C2 (fails on the code).  [ModbusTCP.Decode] of a one-byte buffer, which
    is shorter than the eight-byte minimum, does not return a short-frame
    error: it reads past the end of the buffer and panics. *)
Theorem ModbusTCP_Decode_short_panics :
  returns (fun fuel => ModbusTCP_Decode fuel [x00]) (Panic IndexOutOfRange).
Proof. apply Recover_SMBAP_panics. Qed.

(** In the ASCII variant the function-code element of [handlePDU] leaves
    the element unchanged, so the loop reads one function code after the
    other; on 256 bytes of supported function codes the byte cursor wraps
    and the loop never ends.  [Recover] cannot get there, since [handleSOF]
    panics first. *)
Lemma handlePDU_SASCII_loops (fuel : nat) (m : machine) :
  0 <= m_cnt m < 256 ->
  handlePDU fuel (repeat x01 256) SASCII m = None.
Proof.
  unfold handlePDU. intros Hc.
  assert (He : m_element (with_element EFNCODE m) = EFNCODE) by reflexivity.
  change (m_cnt m) with (m_cnt (with_element EFNCODE m)) in Hc.
  revert He Hc. generalize (with_element EFNCODE m). clear m.
  induction fuel as [|fuel IH]; intros m He Hc; [reflexivity|].
  rewrite loop_S. unfold ret at 1. unfold handlePDU_body at 1. rewrite He.
  unfold index at 1.
  destruct (Z.leb_spec 0 (m_cnt m)); [|lia].
  rewrite nth_error_repeat by lia.
  cbn [bind with_adu with_cnt m_adu m_cnt set_FnCode adu_FnCode index
       Z.leb Z.compare Z.to_nat nth_error].
  change (byte_to_Z FERR <=? byte_to_Z x01) with false. cbn iota.
  apply IH; [exact He|].
  cbn [m_cnt with_cnt]. unfold u8. apply Z.mod_pos_bound. lia.
Qed.

(** C9 (fails on the code).  [Recover] stops on every response and for
    every start section, but not always by returning an ADU or an error: on
    the specification's MBAP exception response 00 05 00 00 00 03 01 83 02,
    on the ASCII buffer 3A 11 03 0D 0A and on the RTU response
    11 01 05 56 E0 (valid CRC, byte count 5 with no data bytes) it stops
    with a panic. *)
Theorem Recover_stops_with_panic :
  (forall (response : list byte) (section : Section),
     exists r, returns (fun fuel => Recover fuel response section) r) /\
  returns (fun fuel =>
             Recover fuel [x00; x05; x00; x00; x00; x03; x01; x83; x02] SMBAP)
          (Panic IndexOutOfRange) /\
  returns (fun fuel => Recover fuel [x3a; x11; x03; x0d; x0a] SASCII)
          (Panic IndexOutOfRange) /\
  returns (fun fuel => Recover fuel [x11; x01; x05; x56; xe0] SRTU)
          (Panic IndexOutOfRange).
Proof.
  split; [exact Recover_terminates|].
  split; [apply Recover_SMBAP_panics|].
  split; [apply Recover_SASCII_panics|].
  exists 6%nat. intros fuel Hf. do 6 (destruct fuel as [|fuel]; [lia|]).
  rewrite Recover_SRTU_pipeline. reflexivity.
Qed.

(** C10 (fails on the code).  [ModbusTCP.Decode] of the MBAP exception
    response 00 05 00 00 00 03 01 83 00, whose function code has bit 7 set
    and whose exception code is 0, does not return an ADU: it panics in the
    header section, before the exception code is looked at. *)
Theorem ModbusTCP_Decode_exception_zero_panics :
  returns (fun fuel =>
             ModbusTCP_Decode fuel [x00; x05; x00; x00; x00; x03; x01; x83; x00])
          (Panic IndexOutOfRange).
Proof. apply Recover_SMBAP_panics. Qed.

(** ** Frame model *)

(** [ErrorLRC] leaves [Err] empty on every ADU. *)
Lemma ErrorLRC_Err_empty (d : ADU) :
  ErrorLRC d = Ok (set_Err [] d).
Proof. reflexivity. Qed.

(** C7 (fails on the code).  On the binary ADU of the specification's ASCII
    scenario (slave 0x11, function 0x03, data 00 00 00 01), whose LRC-8 is
    0xEB, [ErrorLRC] returns the ADU with [Err] empty instead of the one
    byte 0xEB. *)
Theorem ErrorLRC_writes_no_LRC :
  let d := mkADU [] [x11] 0 0 0 x11 [] 0 x00 EmptyString false
                 [x03] [x00; x00; x00; x01] [] in
  LRC8 (adu_Hdr d ++ adu_FnCode d ++ adu_Data d) = xeb /\
  exists d', ErrorLRC d = Ok d' /\ adu_Err d' = [] /\ adu_Err d' <> [xeb].
Proof.
  split; [reflexivity|].
  eexists. split; [reflexivity|]. split; [reflexivity|discriminate].
Qed.

(** [ErrorCRC], for comparison, does leave the two CRC bytes in [Err]. *)
Example ErrorCRC_writes_CRC :
  ErrorCRC (mkADU [] [x11] 0 0 0 x11 [] 0 x00 EmptyString false
                  [x01] [x02; xcd; x6b] []) =
  Ok (mkADU [] [x11] 0 0 0 x11 [x40; x6d] 16493 x00 EmptyString false
            [x01] [x02; xcd; x6b] []).
Proof. reflexivity. Qed.

(** ** Client engine *)

(** C8.  In [Client.do], once the request is sent: when [Listen] fails with
    an error whose message contains "timeout", the result is an ADU with
    [Timeout] set and function code 0x80, and no error; when [Listen] fails
    with any other error, the result is an error and no ADU. *)
Theorem do_listen_failure {T P : Type} `{Transport T} `{Protocol P}
  (fuel : nat) (request : ADU) (p : P) (t : T) (msg : string) :
  snd (Send request t) = None ->
  snd (Listen (fst (Send request t))) = Some msg ->
  let t' := fst (Listen (fst (Send request t))) in
  (Contains msg "timeout" = true ->
   exists response,
     do fuel request p t = Some (t', Ok (Some response)) /\
     adu_Timeout response = true /\
     adu_FnCode response = [x80]) /\
  (Contains msg "timeout" = false ->
   do fuel request p t = Some (t', Err (ErrListen (ErrTransport msg)))).
Proof.
  intros Hs Hl t'. unfold do. subst t'.
  destruct (Send request t) as [t1 e1]. cbn [fst snd] in *. subst e1.
  destruct (Listen t1) as [t2 e2]. cbn [fst snd] in *. subst e2.
  split; intros Hc; rewrite Hc.
  - eexists. split; [reflexivity|]. split; reflexivity.
  - reflexivity.
Qed.

Lemma do_listen_failure_witness :
  (exists response,
     do 0 fresh_ADU x11
        (mkScripted None (Some "read tcp: i/o timeout"%string) []) =
     Some (mkScripted None (Some "read tcp: i/o timeout"%string) [],
           Ok (Some response)) /\
     adu_Timeout response = true /\
     adu_FnCode response = [x80]) /\
  do 0 fresh_ADU x11 (mkScripted None (Some "connection reset"%string) []) =
  Some (mkScripted None (Some "connection reset"%string) [],
        Err (ErrListen (ErrTransport "connection reset"))).
Proof.
  split.
  - apply (proj1 (@do_listen_failure Scripted byte Scripted_Transport
                    RTU_Protocol 0 fresh_ADU x11
                    (mkScripted None (Some "read tcp: i/o timeout"%string) [])
                    "read tcp: i/o timeout" eq_refl eq_refl)).
    reflexivity.
  - apply (proj2 (@do_listen_failure Scripted byte Scripted_Transport
                    RTU_Protocol 0 fresh_ADU x11
                    (mkScripted None (Some "connection reset"%string) [])
                    "connection reset" eq_refl eq_refl)).
    reflexivity.
Defined.

(** * Further properties of the RTU codec *)

(** ** The CRC written by the encoder and the CRC check of the decoder *)

Lemma len_app (a b : list byte) : len (a ++ b) = len a + len b.
Proof. unfold len. rewrite length_app. lia. Qed.

Lemma Uint16_CRC_bytes (body : list byte) :
  Uint16 (CRC_bytes body) = Ok (CRC_value (CRC_calculate CRC_reset body)).
Proof.
  unfold CRC_bytes. rewrite <- CRC_value_u16 at 3.
  apply (Uint16_PutUint16 _ x00 x00 []).
Qed.

(** [handleCRC] accepts every body of at least two bytes that is followed by
    its CRC bytes. *)
Lemma handleCRC_append_CRC (body : list byte) (m : machine) :
  2 <= len body ->
  handleCRC (append_CRC body) m =
  Ok (mkMachine
        (set_Err (CRC_bytes body)
                 (set_CRC (CRC_value (CRC_calculate CRC_reset body)) (m_adu m)))
        (m_cnt m) SRTU (m_element m)).
Proof.
  intros Hlen.
  assert (Hn : Z.to_nat (len (append_CRC body) - LCRC) = List.length body).
  { unfold append_CRC, LCRC. rewrite len_app. unfold len at 2. cbn [CRC_bytes List.length].
    unfold len. lia. }
  rewrite (handleCRC_checked _ _ (CRC_value (CRC_calculate CRC_reset body))).
  - rewrite Hn. unfold append_CRC.
    rewrite firstn_app, Nat.sub_diag, firstn_all.
    cbn [firstn]. rewrite app_nil_r, Z.eqb_refl. reflexivity.
  - unfold append_CRC, LSID, LFNC, LCRC. rewrite len_app.
    unfold len at 2. cbn [CRC_bytes List.length]. lia.
  - rewrite Hn. unfold append_CRC.
    rewrite skipn_app, Nat.sub_diag, skipn_all. cbn [skipn app].
    apply Uint16_CRC_bytes.
Qed.

(** ** The data loop of [handlePDU] *)

Lemma index_nth (s : list byte) (i : Z) :
  0 <= i < len s -> index s i = Ok (nth (Z.to_nat i) s x00).
Proof.
  intros H. unfold index, len in *.
  destruct (Z.leb_spec 0 i); [|lia].
  rewrite (nth_error_nth' s x00) by lia. reflexivity.
Qed.

Lemma index_out (s : list byte) (i : Z) :
  len s <= i -> index s i = Panic IndexOutOfRange.
Proof.
  intros H. unfold index, len in *.
  destruct (0 <=? i); [|reflexivity].
  replace (nth_error s (Z.to_nat i)) with (@None byte); [reflexivity|].
  symmetry. apply nth_error_None. lia.
Qed.

Lemma skipn_cons_nth (s : list byte) (n : nat) :
  (n < List.length s)%nat -> skipn n s = nth n s x00 :: skipn (S n) s.
Proof.
  revert s. induction n as [|n IH]; intros [|a s] H; cbn [List.length] in H;
    try lia; [reflexivity|].
  cbn [skipn nth]. rewrite IH by lia. reflexivity.
Qed.

Lemma read_data_app (a b : nat) (response : list byte) (m : machine) :
  read_data (a + b) response m =
  (m' <- read_data a response m ;; read_data b response m').
Proof.
  revert m. induction a as [|a IH]; intros m; [reflexivity|].
  cbn [Nat.add read_data].
  destruct (index response (m_cnt m)); cbn [bind]; [apply IH|reflexivity..].
Qed.

(** As long as the byte cursor does not pass 256, the loop appends the
    bytes at the cursor. *)
Lemma read_data_nowrap (n : nat) (response : list byte) (m : machine) :
  0 <= m_cnt m < 256 ->
  m_cnt m + Z.of_nat n <= len response ->
  m_cnt m + Z.of_nat n <= 256 ->
  read_data n response m =
  Ok (mkMachine
        (set_Data (adu_Data (m_adu m) ++
                   firstn n (skipn (Z.to_nat (m_cnt m)) response)) (m_adu m))
        ((m_cnt m + Z.of_nat n) mod 256) (m_section m) (m_element m)).
Proof.
  revert m. induction n as [|n IH]; intros [d c s e] H0 Hl Hw;
    cbn [m_cnt m_adu m_section m_element] in *.
  - cbn [read_data firstn]. rewrite app_nil_r, Z.add_0_r, Z.mod_small by lia.
    destruct d; reflexivity.
  - cbn [read_data m_cnt]. rewrite index_nth by lia. cbn [bind].
    rewrite (skipn_cons_nth response (Z.to_nat c)) by (unfold len in Hl; lia).
    cbn [firstn with_adu with_cnt m_adu m_cnt m_section m_element].
    destruct (Z.eq_dec (c + 1) 256) as [E|E].
    + assert (n = 0%nat) by lia. subst n.
      cbn [read_data firstn]. unfold u8. rewrite E.
      replace (c + Z.of_nat 1) with 256 by lia. reflexivity.
    + unfold u8. rewrite (Z.mod_small (c + 1)) by lia.
      rewrite IH; cbn [with_cnt with_adu m_cnt m_adu m_section m_element];
        try lia.
      unfold set_Data.
      cbn [adu_SOF adu_Hdr adu_TransactionId adu_ProtocolId adu_Length
           adu_SlaveId adu_Err adu_CRC adu_ExceptionCode adu_Exception
           adu_Timeout adu_FnCode adu_Data adu_EOF].
      replace (Z.to_nat (c + 1)) with (S (Z.to_nat c)) by lia.
      rewrite <- app_assoc. cbn [app].
      replace (c + 1 + Z.of_nat n) with (c + Z.of_nat (S n)) by lia.
      reflexivity.
Qed.

(** When the response ends before the count is reached (and before the
    cursor can wrap), the loop indexes past the response. *)
Lemma read_data_overrun (n : nat) (response : list byte) (m : machine) :
  0 <= m_cnt m <= len response ->
  len response < m_cnt m + Z.of_nat n ->
  len response < 256 ->
  read_data n response m = Panic IndexOutOfRange.
Proof.
  revert m. induction n as [|n IH]; intros m Hc Hl Hw; [lia|].
  cbn [read_data].
  destruct (Z.eq_dec (m_cnt m) (len response)) as [E|E].
  - rewrite index_out by lia. reflexivity.
  - rewrite index_nth by lia. cbn [bind].
    apply IH; cbn [with_cnt with_adu m_cnt]; unfold u8;
      try rewrite Z.mod_small by lia; lia.
Qed.

(** [handlePDU] on an RTU read response: function code, byte count, then
    the data loop. *)
Lemma handlePDU_read (fuel : nat) (response : list byte) (m : machine)
  (fn nb : byte) :
  index response (m_cnt m) = Ok fn ->
  In fn [x01; x02; x03; x04] ->
  index response (u8 (m_cnt m + 1)) = Ok nb ->
  1 <= byte_to_Z nb ->
  handlePDU (S (S (S fuel))) response SRTU m =
  Some (m' <- read_data (Z.to_nat (byte_to_Z nb)) response
                (mkMachine
                   (set_Data [nb] (set_Length (byte_to_Z nb)
                                     (set_FnCode [fn] (m_adu m))))
                   (u8 (u8 (m_cnt m + 1) + 1)) (m_section m) EDATA) ;;
        Ok (with_section SDONE m')).
Proof.
  intros Hfn Hin Hnb Hn. unfold handlePDU.
  rewrite loop_S. unfold ret at 1. unfold handlePDU_body at 1.
  cbn [with_element m_element m_cnt]. rewrite Hfn.
  cbn [bind with_adu with_cnt m_adu m_cnt set_FnCode adu_FnCode index
       Z.leb Z.compare Z.to_nat nth_error].
  assert (Hlow : (byte_to_Z FERR <=? byte_to_Z fn) = false).
  { cbn [In] in Hin. destruct Hin as [<-|[<-|[<-|[<-|[]]]]]; reflexivity. }
  rewrite Hlow.
  assert (Hsw : forall (A : Type) (a b : A),
             match fn with
             | x01 | x02 | x03 | x04 => a
             | _ => b
             end = a).
  { intros A a b. cbn [In] in Hin.
    destruct Hin as [<-|[<-|[<-|[<-|[]]]]]; reflexivity. }
  rewrite Hsw.
  rewrite loop_S. unfold ret at 1. unfold handlePDU_body at 1.
  cbn [with_element with_cnt with_adu m_element m_cnt m_adu m_section].
  rewrite Hnb.
  cbn [bind make repeat set_Data adu_Data adu_Length set_Length
       set_index Z.leb Z.ltb Z.compare andb List.length Z.of_nat
       Pos.of_succ_nat Z.to_nat firstn skipn app with_adu with_cnt m_adu m_cnt].
  destruct (Z.leb_spec (byte_to_Z nb) 0); [lia|].
  rewrite loop_S. unfold ret at 1. unfold handlePDU_body at 1.
  cbn [with_element with_cnt with_adu m_element m_cnt m_adu m_section
       adu_Length set_Data set_Length].
  rewrite Z_to_byte_to_Z.
  unfold u8 at 1. rewrite (Z.mod_small (byte_to_Z nb))
    by (pose proof (byte_to_Z_range nb); lia).
  match goal with
  | |- _ = Some (bind (read_data ?n ?r ?x) _) =>
      match goal with
      | |- context [read_data ?n2 ?r2 ?x2] =>
          change (read_data n2 r2 x2) with (read_data n r x)
      end;
      destruct (read_data n r x)
  end; reflexivity.
Qed.

(** ** Decoding RTU read responses *)

(** [RTU.Decode] on a read response that carries its CRC comes down to the
    data loop started at offset 3. *)
Lemma RTU_Decode_read_steps (fuel : nat) (slave fn nb : byte)
  (rest : list byte) :
  In fn [x01; x02; x03; x04] ->
  1 <= byte_to_Z nb ->
  let body := slave :: fn :: nb :: rest in
  RTU_Decode (S (S (S (S (S (S fuel)))))) (append_CRC body) =
  Some (m <- read_data (Z.to_nat (byte_to_Z nb)) (append_CRC body)
               (mkMachine
                  (mkADU [] [slave] 0 0 (byte_to_Z nb) slave (CRC_bytes body)
                         (CRC_value (CRC_calculate CRC_reset body))
                         x00 EmptyString false [fn] [nb] [])
                  3 SPDU EDATA) ;;
        Ok (Some (m_adu m))).
Proof.
  intros Hin Hn body. unfold RTU_Decode. rewrite Recover_SRTU_pipeline.
  assert (Hlen : 2 <= len body).
  { unfold body, len. cbn [List.length]. lia. }
  rewrite (handleCRC_append_CRC body _ Hlen). cbn [cbind ret].
  rewrite (handleRTU_slave _ _ slave);
    [| unfold append_CRC, LSID, LFNC, LCRC; rewrite len_app;
       unfold len at 2; cbn [CRC_bytes List.length]; lia
     | reflexivity | reflexivity].
  cbn [cbind ret].
  rewrite (handlePDU_read (S fuel) _ _ fn nb);
    [| reflexivity | exact Hin | reflexivity | exact Hn].
  cbn [cbind m_adu m_cnt m_section].
  match goal with
  | |- _ = Some (bind (read_data ?n ?r ?x) _) =>
      match goal with
      | |- context [read_data ?n2 ?r2 ?x2] =>
          change (read_data n2 r2 x2) with (read_data n r x)
      end;
      destruct (read_data n r x)
  end; reflexivity.
Qed.

(** The decoder takes the byte count from the response and copies that many
    of the following bytes, wherever the frame ends: bytes between the data
    and the CRC are left out, and a count that exceeds the data by one or
    two takes CRC bytes as data. *)
Theorem RTU_Decode_read_data (slave fn nb : byte) (rest : list byte) :
  In fn [x01; x02; x03; x04] ->
  1 <= byte_to_Z nb <= 253 ->
  byte_to_Z nb <= len rest + 2 ->
  let body := slave :: fn :: nb :: rest in
  returns (fun fuel => RTU_Decode fuel (append_CRC body))
          (Ok (Some (mkADU [] [slave] 0 0 (byte_to_Z nb) slave (CRC_bytes body)
                           (CRC_value (CRC_calculate CRC_reset body))
                           x00 EmptyString false [fn]
                           (nb :: firstn (Z.to_nat (byte_to_Z nb))
                                         (rest ++ CRC_bytes body))
                           []))).
Proof.
  intros Hin Hn Hl body. exists 6%nat.
  intros fuel Hf. do 6 (destruct fuel as [|fuel]; [lia|]).
  unfold body. rewrite RTU_Decode_read_steps by (exact Hin || lia).
  rewrite read_data_nowrap; cbn [m_cnt]; try lia.
  - reflexivity.
  - unfold append_CRC. rewrite len_app. unfold len. cbn [List.length CRC_bytes].
    unfold len in Hl. lia.
Qed.

Lemma RTU_Decode_read_data_witness :
  returns (fun fuel => RTU_Decode fuel (append_CRC [x11; x01; x02; xcd; x6b]))
          (Ok (Some (mkADU [] [x11] 0 0 2 x11 [x40; x6d] 16493
                           x00 EmptyString false [x01] [x02; xcd; x6b] []))).
Proof.
  apply (RTU_Decode_read_data x11 x01 x02 [xcd; x6b]).
  - simpl. tauto.
  - vm_compute. split; discriminate.
  - vm_compute. discriminate.
Defined.

(** A byte count that reaches past the end of the response makes the decoder
    panic, although the CRC of the response is right. *)
Theorem RTU_Decode_read_overrun (slave fn nb : byte) (rest : list byte) :
  In fn [x01; x02; x03; x04] ->
  len rest + 2 < byte_to_Z nb ->
  len rest + 5 < 256 ->
  returns (fun fuel =>
             RTU_Decode fuel (append_CRC (slave :: fn :: nb :: rest)))
          (Panic IndexOutOfRange).
Proof.
  intros Hin Hn Hl. exists 6%nat.
  pose proof (len_nonneg rest) as Hr.
  assert (Hlen : len (append_CRC (slave :: fn :: nb :: rest)) = len rest + 5).
  { unfold append_CRC. rewrite len_app. unfold len.
    cbn [List.length CRC_bytes]. lia. }
  intros fuel Hf. do 6 (destruct fuel as [|fuel]; [lia|]).
  rewrite RTU_Decode_read_steps by (exact Hin || lia).
  rewrite read_data_overrun; cbn [m_cnt]; try lia. reflexivity.
Qed.

Lemma RTU_Decode_read_overrun_witness :
  returns (fun fuel =>
             RTU_Decode fuel (append_CRC [x11; x01; x05; xcd; x6b]))
          (Panic IndexOutOfRange).
Proof.
  apply (RTU_Decode_read_overrun x11 x01 x05 [xcd; x6b]).
  - simpl. tauto.
  - vm_compute. reflexivity.
  - vm_compute. reflexivity.
Defined.

(** The cursor of the decoder is one byte wide.  With a byte count of 254
    or 255 and a response of at least 256 bytes, the data bytes after the
    253rd are read from the start of the response: the slave id, then the
    function code. *)
Theorem RTU_Decode_read_wraps (slave fn nb : byte) (rest : list byte) :
  In fn [x01; x02; x03; x04] ->
  254 <= byte_to_Z nb ->
  251 <= len rest ->
  let body := slave :: fn :: nb :: rest in
  returns (fun fuel => RTU_Decode fuel (append_CRC body))
          (Ok (Some (mkADU [] [slave] 0 0 (byte_to_Z nb) slave (CRC_bytes body)
                           (CRC_value (CRC_calculate CRC_reset body))
                           x00 EmptyString false [fn]
                           (nb :: firstn 253 (rest ++ CRC_bytes body) ++
                                  firstn (Z.to_nat (byte_to_Z nb) - 253)
                                         [slave; fn])
                           []))).
Proof.
  intros Hin Hn Hl body. exists 6%nat.
  pose proof (byte_to_Z_range nb) as Hb.
  assert (Hlen : len (append_CRC body) = len rest + 5).
  { unfold append_CRC, body. rewrite len_app. unfold len.
    cbn [List.length CRC_bytes]. lia. }
  intros fuel Hf. do 6 (destruct fuel as [|fuel]; [lia|]).
  unfold body. rewrite RTU_Decode_read_steps by (exact Hin || lia).
  fold body.
  replace (Z.to_nat (byte_to_Z nb))
    with (253 + (Z.to_nat (byte_to_Z nb) - 253))%nat at 1 by lia.
  rewrite read_data_app.
  rewrite read_data_nowrap; cbn [m_cnt]; try lia.
  cbn [bind].
  rewrite read_data_nowrap;
    cbn [m_cnt m_adu m_section m_element adu_Data set_Data]; try lia.
  - cbn [bind m_adu]. unfold set_Data.
    cbn [adu_SOF adu_Hdr adu_TransactionId adu_ProtocolId adu_Length
         adu_SlaveId adu_Err adu_CRC adu_ExceptionCode adu_Exception
         adu_Timeout adu_FnCode adu_Data adu_EOF].
    change ((3 + Z.of_nat 253) mod 256) with 0.
    change (Z.to_nat 3) with 3%nat. change (Z.to_nat 0) with 0%nat.
    do 3 f_equal. f_equal.
    unfold append_CRC, body.
    change (skipn 3 ((slave :: fn :: nb :: rest) ++
                     CRC_bytes (slave :: fn :: nb :: rest)))
      with (rest ++ CRC_bytes (slave :: fn :: nb :: rest)).
    cbn [app skipn]. do 2 f_equal.
    destruct (Z.to_nat (byte_to_Z nb) - 253)%nat as [|[|[|k]]] eqn:E;
      try reflexivity; lia.
  - change ((3 + Z.of_nat 253) mod 256) with 0. lia.
  - change ((3 + Z.of_nat 253) mod 256) with 0. lia.
  - change ((3 + Z.of_nat 253) mod 256) with 0. lia.
Qed.

Lemma RTU_Decode_read_wraps_witness :
  let body := x11 :: x03 :: xfe :: repeat x07 254 in
  returns (fun fuel => RTU_Decode fuel (append_CRC body))
          (Ok (Some (mkADU [] [x11] 0 0 254 x11 (CRC_bytes body)
                           (CRC_value (CRC_calculate CRC_reset body))
                           x00 EmptyString false [x03]
                           (xfe :: firstn 253 (repeat x07 254 ++ CRC_bytes body)
                                ++ [x11])
                           []))).
Proof.
  apply (RTU_Decode_read_wraps x11 x03 xfe (repeat x07 254)).
  - simpl. tauto.
  - vm_compute. discriminate.
  - vm_compute. discriminate.
Defined.

(** ** Encoding for RTU, and the way back *)

Lemma RTU_Encode_eq (slave : byte) (pdu : PDU) :
  RTU_Encode slave pdu =
  Ok (mkADU [] [slave] 0 0 0 slave
            (CRC_bytes (slave :: pdu_FnCode pdu ++ pdu_Data pdu))
            (CRC_value (CRC_calculate CRC_reset
                          (slave :: pdu_FnCode pdu ++ pdu_Data pdu)))
            x00 EmptyString false (pdu_FnCode pdu) (pdu_Data pdu) []).
Proof.
  unfold RTU_Encode, ErrorCRC, Bytes, CRC_bytes.
  cbn [NewADU bind make repeat set_Hdr set_SlaveId set_Err set_CRC set_index
       adu_SOF adu_Hdr adu_TransactionId adu_ProtocolId adu_Length
       adu_SlaveId adu_Err adu_CRC adu_ExceptionCode adu_Exception
       adu_Timeout adu_FnCode adu_Data adu_EOF
       Z.leb Z.ltb Z.compare andb List.length Z.of_nat Pos.of_succ_nat
       Z.to_nat firstn skipn app].
  rewrite !app_nil_r. reflexivity.
Qed.

(** Every frame that [RTU.Encode] builds is the slave id, the function
    code and the data followed by the CRC, high byte first; the CRC field
    of the ADU is those two bytes read big-endian; and the CRC section of
    the decoder accepts the frame. *)
Theorem RTU_Encode_frame (slave fn : byte) (data : list byte) (m : machine) :
  exists adu,
    RTU_Encode slave (mkPDU [fn] data) = Ok adu /\
    Bytes adu = Ok (append_CRC (slave :: fn :: data)) /\
    Uint16 (adu_Err adu) = Ok (adu_CRC adu) /\
    exists m', handleCRC (append_CRC (slave :: fn :: data)) m = Ok m' /\
               m_section m' = SRTU.
Proof.
  eexists. split; [apply RTU_Encode_eq|].
  cbn [pdu_FnCode pdu_Data app]. split; [|split].
  - unfold Bytes, append_CRC.
    cbn [adu_SOF adu_Hdr adu_FnCode adu_Data adu_Err adu_EOF app].
    rewrite app_nil_r. reflexivity.
  - cbn [adu_Err adu_CRC]. apply Uint16_CRC_bytes.
  - rewrite handleCRC_append_CRC by (unfold len; cbn [List.length]; lia).
    eexists. split; reflexivity.
Qed.

(** A read response survives [RTU.Encode] followed by [RTU.Decode] when its
    byte count is at most 253: the decoded ADU is the encoded one, with the
    byte count in [Length]. *)
Theorem RTU_Encode_Decode_roundtrip (slave fn nb : byte) (payload : list byte) :
  In fn [x01; x02; x03; x04] ->
  1 <= byte_to_Z nb <= 253 ->
  len payload = byte_to_Z nb ->
  exists adu bytes,
    RTU_Encode slave (mkPDU [fn] (nb :: payload)) = Ok adu /\
    Bytes adu = Ok bytes /\
    returns (fun fuel => RTU_Decode fuel bytes)
            (Ok (Some (set_Length (byte_to_Z nb) adu))).
Proof.
  intros Hin Hn Hl.
  eexists. exists (append_CRC (slave :: fn :: nb :: payload)).
  split; [apply RTU_Encode_eq|].
  cbn [pdu_FnCode pdu_Data app]. split.
  - unfold Bytes, append_CRC.
    cbn [adu_SOF adu_Hdr adu_FnCode adu_Data adu_Err adu_EOF app].
    rewrite app_nil_r. reflexivity.
  - exists 6%nat. intros fuel Hf. do 6 (destruct fuel as [|fuel]; [lia|]).
    rewrite RTU_Decode_read_steps by (exact Hin || lia).
    rewrite read_data_nowrap; cbn [m_cnt]; try lia.
    + cbn [bind m_adu]. unfold set_Data, set_Length.
      cbn [adu_SOF adu_Hdr adu_TransactionId adu_ProtocolId adu_Length
           adu_SlaveId adu_Err adu_CRC adu_ExceptionCode adu_Exception
           adu_Timeout adu_FnCode adu_Data adu_EOF].
      do 3 f_equal. f_equal.
      change (Z.to_nat 3) with 3%nat. unfold append_CRC. cbn [app skipn].
      f_equal.
      replace (Z.to_nat (byte_to_Z nb)) with (List.length payload)
        by (unfold len in Hl; lia).
      rewrite firstn_app, Nat.sub_diag, firstn_all. cbn [firstn].
      apply app_nil_r.
    + unfold append_CRC. rewrite len_app. unfold len.
      cbn [List.length CRC_bytes]. unfold len in Hl. lia.
Qed.

Lemma RTU_Encode_Decode_roundtrip_witness :
  exists adu bytes,
    RTU_Encode x11 (mkPDU [x01] [x02; xcd; x6b]) = Ok adu /\
    Bytes adu = Ok bytes /\
    returns (fun fuel => RTU_Decode fuel bytes)
            (Ok (Some (set_Length 2 adu))).
Proof.
  apply (RTU_Encode_Decode_roundtrip x11 x01 x02 [xcd; x6b]).
  - simpl. tauto.
  - vm_compute. split; discriminate.
  - reflexivity.
Defined.

(** ** RTU responses that are refused, and exception responses *)

Lemma RTU_Decode_PDU (fuel : nat) (slave : byte) (rest : list byte) :
  1 <= len rest ->
  let body := slave :: rest in
  RTU_Decode (S (S (S (S (S (S fuel)))))) (append_CRC body) =
  (m <-- handlePDU (S (S (S (S fuel)))) (append_CRC body) SRTU
           (mkMachine
              (mkADU [] [slave] 0 0 0 slave (CRC_bytes body)
                     (CRC_value (CRC_calculate CRC_reset body))
                     x00 EmptyString false [FERR] [] [])
              1 SPDU ESLAVEID) ;;;
   ret (Ok (Some (m_adu m)))).
Proof.
  intros Hl body. unfold RTU_Decode. rewrite Recover_SRTU_pipeline.
  assert (Hlen : 2 <= len body).
  { unfold body, len in *. cbn [List.length]. lia. }
  rewrite (handleCRC_append_CRC body _ Hlen). cbn [cbind ret].
  rewrite (handleRTU_slave _ _ slave);
    [| unfold append_CRC, LSID, LFNC, LCRC; rewrite len_app;
       unfold len at 2; cbn [CRC_bytes List.length]; lia
     | reflexivity | reflexivity].
  reflexivity.
Qed.

(** An exception response (function code with bit 7 set) with a correct CRC:
    the codes 0, 1 to 6, 8, 10 and 11 give an ADU that carries the code, the
    text of the [Exception] table (none for 0) and the code as its only data
    byte; every other code gives the unsupported-exception error.  Bytes
    between the exception code and the CRC are not looked at. *)
Theorem RTU_Decode_exception (slave fn ex : byte) (rest : list byte) :
  byte_to_Z FERR <= byte_to_Z fn ->
  let body := slave :: fn :: ex :: rest in
  (In ex [x00; x01; x02; x03; x04; x05; x06; x08; x0a; x0b] ->
   returns (fun fuel => RTU_Decode fuel (append_CRC body))
           (Ok (Some (mkADU [] [slave] 0 0 0 slave (CRC_bytes body)
                            (CRC_value (CRC_calculate CRC_reset body)) ex
                            match Exception_lookup ex with
                            | Some text => text
                            | None => EmptyString
                            end
                            false [fn] [ex] [])))) /\
  (~ In ex [x00; x01; x02; x03; x04; x05; x06; x08; x0a; x0b] ->
   returns (fun fuel => RTU_Decode fuel (append_CRC body))
           (Err (ErrExceptionCode ex))).
Proof.
  intros Hfn body.
  assert (Hl : 1 <= len (fn :: ex :: rest)).
  { unfold len. cbn [List.length]. lia. }
  split; intros Hex; exists 6%nat; intros fuel Hf;
    do 6 (destruct fuel as [|fuel]; [lia|]);
    unfold body; rewrite (RTU_Decode_PDU fuel slave (fn :: ex :: rest) Hl).
  - match goal with
    | |- context [handlePDU (S (S ?f)) ?r ?s ?m] =>
        rewrite (proj1 (handlePDU_exception f r s m fn ex eq_refl Hfn eq_refl)
                   Hex)
    end.
    cbn [cbind ret m_adu]. destruct (Exception_lookup ex); reflexivity.
  - match goal with
    | |- context [handlePDU (S (S ?f)) ?r ?s ?m] =>
        rewrite (proj2 (handlePDU_exception f r s m fn ex eq_refl Hfn eq_refl)
                   Hex)
    end.
    reflexivity.
Qed.

Lemma RTU_Decode_exception_witness :
  returns (fun fuel => RTU_Decode fuel (append_CRC [x11; x83; x02]))
          (Ok (Some (mkADU [] [x11] 0 0 0 x11 [x34; xc1] 13505 x02
                           "Illegal data address" false [x83] [x02] []))) /\
  returns (fun fuel => RTU_Decode fuel (append_CRC [x11; x83; x07]))
          (Err (ErrExceptionCode x07)).
Proof.
  split.
  - apply (proj1 (RTU_Decode_exception x11 x83 x02 []
                    ltac:(vm_compute; discriminate))).
    simpl. tauto.
  - apply (proj2 (RTU_Decode_exception x11 x83 x07 []
                    ltac:(vm_compute; discriminate))).
    simpl. intuition discriminate.
Defined.

(** A response with a correct CRC whose function code is below 0x80 and is
    not one of 0x01 to 0x04 is refused with the unsupported-function error;
    a read response whose byte count is 0 is refused with the
    illegal-length error. *)
Theorem RTU_Decode_refused (slave fn : byte) (rest : list byte) :
  (byte_to_Z fn < byte_to_Z FERR ->
   ~ In fn [x01; x02; x03; x04] ->
   returns (fun fuel => RTU_Decode fuel (append_CRC (slave :: fn :: rest)))
           (Err (ErrFunctionCode fn))) /\
  (In fn [x01; x02; x03; x04] ->
   returns (fun fuel =>
              RTU_Decode fuel (append_CRC (slave :: fn :: x00 :: rest)))
           (Err (ErrIllegalLength 0))).
Proof.
  split.
  - intros Hlt Hnot. exists 6%nat. intros fuel Hf.
    do 6 (destruct fuel as [|fuel]; [lia|]).
    rewrite (RTU_Decode_PDU fuel slave (fn :: rest))
      by (unfold len; cbn [List.length]; lia).
    unfold handlePDU. rewrite loop_S. unfold ret at 1.
    unfold handlePDU_body at 1.
    cbn [with_element with_cnt with_adu m_element m_cnt m_adu m_section].
    change (index (append_CRC (slave :: fn :: rest)) 1) with (@Ok byte fn).
    cbn [bind set_FnCode adu_FnCode index Z.leb Z.compare Z.to_nat nth_error].
    destruct (Z.leb_spec (byte_to_Z FERR) (byte_to_Z fn)); [lia|].
    destruct fn; try reflexivity; exfalso; apply Hnot; cbn [In]; tauto.
  - intros Hin. exists 6%nat. intros fuel Hf.
    do 6 (destruct fuel as [|fuel]; [lia|]).
    rewrite (RTU_Decode_PDU fuel slave (fn :: x00 :: rest))
      by (unfold len; cbn [List.length]; lia).
    unfold handlePDU. rewrite loop_S. unfold ret at 1.
    unfold handlePDU_body at 1.
    cbn [with_element with_cnt with_adu m_element m_cnt m_adu m_section].
    change (index (append_CRC (slave :: fn :: x00 :: rest)) 1)
      with (@Ok byte fn).
    cbn [bind set_FnCode adu_FnCode index Z.leb Z.compare Z.to_nat nth_error].
    assert (Hlow : (byte_to_Z FERR <=? byte_to_Z fn) = false).
    { cbn [In] in Hin. destruct Hin as [<-|[<-|[<-|[<-|[]]]]]; reflexivity. }
    rewrite Hlow.
    cbn [In] in Hin. destruct Hin as [<-|[<-|[<-|[<-|[]]]]]; reflexivity.
Qed.

Lemma RTU_Decode_refused_witness :
  returns (fun fuel => RTU_Decode fuel (append_CRC [x11; x05; x00; x01]))
          (Err (ErrFunctionCode x05)) /\
  returns (fun fuel => RTU_Decode fuel (append_CRC [x11; x03; x00]))
          (Err (ErrIllegalLength 0)).
Proof.
  split.
  - apply (proj1 (RTU_Decode_refused x11 x05 [x00; x01])).
    + vm_compute. reflexivity.
    + simpl. intuition discriminate.
  - apply (proj2 (RTU_Decode_refused x11 x03 [])).
    simpl. tauto.
Defined.

(** ** What a decoded RTU response is made of *)

Lemma same_envelope_refl (d : ADU) : same_envelope d d.
Proof. unfold same_envelope. tauto. Qed.

Lemma same_envelope_trans (d1 d2 d3 : ADU) :
  same_envelope d1 d2 -> same_envelope d2 d3 -> same_envelope d1 d3.
Proof.
  unfold same_envelope. intros H1 H2.
  decompose [and] H1. decompose [and] H2. repeat split; congruence.
Qed.

Lemma read_data_keeps (n : nat) (response : list byte) (m m' : machine) :
  read_data n response m = Ok m' ->
  same_envelope (m_adu m) (m_adu m') /\
  adu_FnCode (m_adu m') = adu_FnCode (m_adu m).
Proof.
  revert m. induction n as [|n IH]; intros m H; cbn [read_data] in H.
  - injection H as <-. split; [apply same_envelope_refl|reflexivity].
  - inv_bind H. apply IH in H. destruct H as [He Hf].
    split; [|exact Hf].
    eapply same_envelope_trans; [|exact He].
    unfold same_envelope. cbn. tauto.
Qed.

(** After the function-code element, no pass of [handlePDU]'s loop touches
    the envelope or the function code, and none goes back to that element. *)
Lemma handlePDU_body_keeps (response : list byte) (start : Section)
  (m : machine) (f : flow machine) :
  m_element m <> EFNCODE ->
  handlePDU_body response start m = Ok f ->
  let m' := match f with Continue m' => m' | Break m' => m' end in
  same_envelope (m_adu m) (m_adu m') /\
  adu_FnCode (m_adu m') = adu_FnCode (m_adu m) /\
  match f with Continue m' => m_element m' <> EFNCODE | Break _ => True end.
Proof.
  unfold handlePDU_body. intros Hne H.
  destruct (m_element m) eqn:He; try discriminate; try congruence.
  - inv_bind H. inv_bind H.
    destruct (_ <=? 0); [discriminate|]. injection H as <-.
    cbn. unfold same_envelope. cbn. repeat split; discriminate.
  - inv_bind H. inv_bind H.
    destruct (adu_ExceptionCode _) eqn:Ex; try discriminate;
      injection H as <-; unfold same_envelope; cbn; repeat split;
      discriminate.
  - inv_bind H. injection H as <-. cbn [with_section m_adu].
    apply read_data_keeps in E. destruct E as [E1 E2]. tauto.
Qed.

Lemma handlePDU_loop_keeps (fuel : nat) (response : list byte)
  (start : Section) (m m' : machine) :
  m_element m <> EFNCODE ->
  loop fuel (fun m => ret (handlePDU_body response start m)) m = Some (Ok m') ->
  same_envelope (m_adu m) (m_adu m') /\
  adu_FnCode (m_adu m') = adu_FnCode (m_adu m).
Proof.
  revert m. induction fuel as [|fuel IH]; intros m Hne H; [discriminate|].
  rewrite loop_S in H. unfold ret at 1 in H.
  destruct (handlePDU_body response start m) as [[m1|m1]|e|p] eqn:E;
    try discriminate.
  - destruct (handlePDU_body_keeps _ _ _ _ Hne E) as [H1 [H2 H3]].
    destruct (IH m1 H3 H) as [H4 H5].
    split; [eapply same_envelope_trans; eauto|congruence].
  - injection H as <-.
    destruct (handlePDU_body_keeps _ _ _ _ Hne E) as [H1 [H2 _]]. tauto.
Qed.

Lemma handlePDU_body_first (response : list byte) (m : machine)
  (f : flow machine) :
  handlePDU_body response SRTU (with_element EFNCODE m) = Ok f ->
  exists fn m1,
    f = Continue m1 /\
    index response (m_cnt m) = Ok fn /\
    adu_FnCode (m_adu m1) = [fn] /\
    same_envelope (m_adu m) (m_adu m1) /\
    m_element m1 <> EFNCODE /\
    (byte_to_Z FERR <= byte_to_Z fn \/ In fn [x01; x02; x03; x04]).
Proof.
  unfold handlePDU_body. cbn [with_element m_element m_cnt m_adu]. intros H.
  inv_bind H. cbn [with_adu with_cnt m_adu adu_FnCode set_FnCode index
                   Z.leb Z.compare Z.to_nat nth_error bind] in H.
  exists a.
  destruct (Z.leb_spec (byte_to_Z FERR) (byte_to_Z a)).
  - injection H as <-. eexists. split; [reflexivity|].
    split; [reflexivity|]. cbn. unfold same_envelope. cbn.
    repeat split; try discriminate. now left.
  - destruct a; try discriminate; injection H as <-;
      (eexists; split; [reflexivity|]; split; [reflexivity|];
       cbn; unfold same_envelope; cbn;
       repeat split; try discriminate; right; tauto).
Qed.

Lemma last_two (s : list byte) :
  2 <= len s ->
  exists a b, skipn (Z.to_nat (len s - 2)) s = [a; b].
Proof.
  intros H.
  assert (Hl : List.length (skipn (Z.to_nat (len s - 2)) s) = 2%nat).
  { rewrite length_skipn. unfold len in *. lia. }
  destruct (skipn (Z.to_nat (len s - 2)) s) as [|a [|b [|c l]]];
    try discriminate. now exists a, b.
Qed.

Lemma PutUint16_Uint16 (a b : byte) (c : Z) :
  Uint16 [a; b] = Ok c ->
  [Z_to_byte (Z.shiftr c 8); Z_to_byte c] = [a; b].
Proof.
  intros H.
  assert (E : Z.lor (Z.shiftl (byte_to_Z a) 8) (byte_to_Z b) = c)
    by (cbn [Uint16] in H; congruence).
  rewrite <- E. clear H E.
  pose proof (byte_to_Z_range a). pose proof (byte_to_Z_range b).
  rewrite lor_shiftl_8 by lia.
  rewrite Z.shiftr_div_pow2 by lia. change (2 ^ 8) with 256.
  f_equal; [|f_equal]; apply byte_to_Z_inj; rewrite byte_to_Z_to_byte.
  - replace ((byte_to_Z a * 256 + byte_to_Z b) / 256) with (byte_to_Z a)
      by (Z.div_mod_to_equations; lia).
    apply Z.mod_small. lia.
  - Z.div_mod_to_equations. lia.
Qed.

(** Whenever [RTU.Decode] returns without error, it returns an ADU (never
    nil), the response has at least four bytes and a correct CRC, and the
    ADU holds the first byte as slave id and header, the second byte as
    function code (an exception code or one of 0x01 to 0x04), the last two
    bytes as [Err] and their big-endian value as [CRC]. *)
Theorem RTU_Decode_sound (response : list byte) (r : option ADU) :
  returns (fun fuel => RTU_Decode fuel response) (Ok r) ->
  exists adu slave fn,
    r = Some adu /\
    LSID + LFNC + LCRC <= len response /\
    nth_error response 0 = Some slave /\
    nth_error response 1 = Some fn /\
    Uint16 (adu_Err adu) =
      Ok (CRC_value (CRC_calculate CRC_reset
                       (firstn (Z.to_nat (len response - LCRC)) response))) /\
    adu_Err adu = skipn (Z.to_nat (len response - LCRC)) response /\
    adu_CRC adu =
      CRC_value (CRC_calculate CRC_reset
                   (firstn (Z.to_nat (len response - LCRC)) response)) /\
    adu_SlaveId adu = slave /\
    adu_Hdr adu = [slave] /\
    adu_FnCode adu = [fn] /\
    (byte_to_Z FERR <= byte_to_Z fn \/ In fn [x01; x02; x03; x04]).
Proof.
  intros [n Hn]. specialize (Hn (6 + n)%nat ltac:(lia)).
  cbn [Nat.add] in Hn. unfold RTU_Decode in Hn.
  rewrite Recover_SRTU_pipeline in Hn.
  destruct (Z.ltb_spec (len response) (LSID + LFNC + LCRC)) as [Hs|Hlen].
  { unfold handleCRC in Hn.
    replace (len response <? LCRC + (LSID + LFNC)) with true in Hn
      by (symmetry; apply Z.ltb_lt; unfold LSID, LFNC, LCRC in *; lia).
    discriminate. }
  destruct (last_two response) as [a [b Hab]];
    [unfold LSID, LFNC, LCRC in Hlen; lia|].
  change 2 with LCRC in Hab.
  destruct (Uint16 [a; b]) as [c| |] eqn:Hc; try discriminate.
  rewrite (handleCRC_checked _ _ c Hlen) in Hn by (rewrite Hab; exact Hc).
  destruct (Z.eqb_spec c (CRC_value (CRC_calculate CRC_reset
              (firstn (Z.to_nat (len response - LCRC)) response))))
    as [Hcrc|]; [|discriminate].
  cbn [cbind ret m_adu m_cnt m_element] in Hn.
  destruct (nth_error response 0) as [slave|] eqn:H0;
    [|apply nth_error_None in H0;
      unfold LSID, LFNC, LCRC, len in Hlen; lia].
  rewrite (handleRTU_slave _ _ slave Hlen H0) in Hn by reflexivity.
  cbn [cbind ret] in Hn.
  match type of Hn with
  | cbind (handlePDU ?f ?r ?s ?m2) _ = _ =>
      destruct (handlePDU f r s m2) as [[m3| |]|] eqn:HP; try discriminate;
      unfold handlePDU in HP; rewrite loop_S in HP; unfold ret at 1 in HP;
      destruct (handlePDU_body r s (with_element EFNCODE m2))
        as [f1| |] eqn:HB; try discriminate;
      destruct (handlePDU_body_first _ _ _ HB)
        as [fn [m1 [-> [Hfn [Hfc [Henv [Hel Hkind]]]]]]];
      destruct (handlePDU_loop_keeps _ _ _ _ _ Hel HP) as [Henv' Hfc']
  end.
  cbn [cbind ret] in Hn. injection Hn as <-.
  pose proof (same_envelope_trans _ _ _ Henv Henv') as He.
  unfold same_envelope in He.
  cbn [m_adu set_Hdr set_SlaveId set_Err set_CRC fresh_ADU
       adu_SOF adu_Hdr adu_TransactionId adu_ProtocolId adu_Length
       adu_SlaveId adu_Err adu_CRC adu_ExceptionCode adu_Exception
       adu_Timeout adu_FnCode adu_Data adu_EOF] in He.
  destruct He as (HSOF & HHdr & HTid & HPid & HSid & HErr & HCRC & HTo & HEOF).
  exists (m_adu m3), slave, fn.
  split; [reflexivity|]. split; [exact Hlen|].
  split; [reflexivity|].
  split.
  { change (index response 1 = Ok fn) in Hfn. unfold index in Hfn.
    change (Z.to_nat 1) with 1%nat in Hfn. cbn [Z.leb Z.compare] in Hfn.
    destruct (nth_error response 1); [congruence|discriminate]. }
  split.
  { rewrite HErr, <- Hcrc, (PutUint16_Uint16 a b c Hc). exact Hc. }
  split; [rewrite HErr, Hab; apply (PutUint16_Uint16 a b c Hc)|].
  split; [congruence|].
  split; [exact HSid|]. split; [exact HHdr|].
  split; [congruence|exact Hkind].
Qed.

Lemma RTU_Decode_sound_witness :
  exists adu slave fn,
    Some (mkADU [] [x11] 0 0 2 x11 [x40; x6d] 16493 x00 EmptyString
                false [x01] [x02; xcd; x6b] []) = Some adu /\
    LSID + LFNC + LCRC <= len [x11; x01; x02; xcd; x6b; x40; x6d] /\
    nth_error [x11; x01; x02; xcd; x6b; x40; x6d] 0 = Some slave /\
    nth_error [x11; x01; x02; xcd; x6b; x40; x6d] 1 = Some fn /\
    Uint16 (adu_Err adu) =
      Ok (CRC_value (CRC_calculate CRC_reset
            (firstn (Z.to_nat (len [x11; x01; x02; xcd; x6b; x40; x6d] - LCRC))
                    [x11; x01; x02; xcd; x6b; x40; x6d]))) /\
    adu_Err adu =
      skipn (Z.to_nat (len [x11; x01; x02; xcd; x6b; x40; x6d] - LCRC))
            [x11; x01; x02; xcd; x6b; x40; x6d] /\
    adu_CRC adu =
      CRC_value (CRC_calculate CRC_reset
            (firstn (Z.to_nat (len [x11; x01; x02; xcd; x6b; x40; x6d] - LCRC))
                    [x11; x01; x02; xcd; x6b; x40; x6d])) /\
    adu_SlaveId adu = slave /\
    adu_Hdr adu = [slave] /\
    adu_FnCode adu = [fn] /\
    (byte_to_Z FERR <= byte_to_Z fn \/ In fn [x01; x02; x03; x04]).
Proof.
  apply (RTU_Decode_sound [x11; x01; x02; xcd; x6b; x40; x6d]).
  exists 6%nat. intros fuel Hf. do 6 (destruct fuel as [|fuel]; [lia|]).
  unfold RTU_Decode. rewrite Recover_SRTU_pipeline. reflexivity.
Defined.

(** * The MBAP encoder *)

Lemma MBAP_length_u16 (data : list byte) :
  u16 (u16 (u16 LSID + u16 LFNC) + u16 (len data)) = u16 (2 + len data).
Proof.
  change (u16 (u16 LSID + u16 LFNC)) with 2. unfold u16.
  rewrite Zplus_mod_idemp_r. reflexivity.
Qed.

Lemma ModbusTCP_Encode_eq (m : ModbusTCP) (pdu : PDU) :
  ModbusTCP_Encode m pdu =
  (mkModbusTCP (u16 (mb_TransactionId m + 1)) (mb_ProtocolId m)
               (mb_Length m) (mb_SlaveId m),
   let L := u16 (2 + len (pdu_Data pdu)) in
   if L <=? 0 then XErr (ErrInvalidLength L)
   else XOk (mkADU []
                   [Z_to_byte (Z.shiftr (mb_TransactionId m) 8);
                    Z_to_byte (mb_TransactionId m); x00; x00;
                    Z_to_byte (Z.shiftr L 8); Z_to_byte L; mb_SlaveId m]
                   (mb_TransactionId m) 0 L (mb_SlaveId m) [] 0 x00
                   EmptyString false (pdu_FnCode pdu) (pdu_Data pdu) [])).
Proof.
  unfold ModbusTCP_Encode.
  cbn [NewADU bind]. change (Z.to_nat LMBAP) with 7%nat.
  cbn [make repeat set_Hdr set_TransactionId adu_Hdr adu_TransactionId
       PutUint16 bind].
  f_equal.
  cbn [set_ProtocolId adu_Hdr adu_ProtocolId adu_SOF adu_TransactionId
       adu_Length adu_SlaveId adu_Err adu_CRC adu_ExceptionCode adu_Exception
       adu_Timeout adu_FnCode adu_Data adu_EOF mb_SlaveId].
  change (PutUint16_at
            [Z_to_byte (Z.shiftr (mb_TransactionId m) 8);
             Z_to_byte (mb_TransactionId m); x00; x00; x00; x00; x00] LTID
            ModbusTCPProtocolId)
    with (Ok [Z_to_byte (Z.shiftr (mb_TransactionId m) 8);
              Z_to_byte (mb_TransactionId m); x00; x00; x00; x00; x00]).
  cbn [lift xbind set_Hdr set_Length adu_Length adu_Hdr].
  rewrite MBAP_length_u16.
  cbv zeta.
  destruct (u16 (2 + len (pdu_Data pdu)) <=? 0); [reflexivity|].
  reflexivity.
Qed.

(** When the data are shorter than 65534 bytes, [ModbusTCP.Encode] builds
    the seven header bytes (transaction id, protocol id 0, length, slave id)
    before the function code and the data; the length field counts the slave
    id, the function code and the data, that is, all bytes after itself;
    and the transaction id of the receiver goes up by one, modulo 65536. *)
Theorem ModbusTCP_Encode_frame (m : ModbusTCP) (fn : byte) (data : list byte) :
  len data + 2 < 65536 ->
  exists adu bytes,
    ModbusTCP_Encode m (mkPDU [fn] data) =
      (mkModbusTCP (u16 (mb_TransactionId m + 1)) (mb_ProtocolId m)
                   (mb_Length m) (mb_SlaveId m), XOk adu) /\
    Bytes adu = Ok bytes /\
    bytes = firstn 7 bytes ++ fn :: data /\
    Uint16 (firstn 2 bytes) = Ok (u16 (mb_TransactionId m)) /\
    Uint16 (firstn 2 (skipn 2 bytes)) = Ok 0 /\
    Uint16 (firstn 2 (skipn 4 bytes)) = Ok (len bytes - 6) /\
    nth_error bytes 6 = Some (mb_SlaveId m) /\
    adu_Length adu = 2 + len data /\
    adu_TransactionId adu = mb_TransactionId m.
Proof.
  intros Hl. pose proof (len_nonneg data) as Hd.
  rewrite ModbusTCP_Encode_eq. cbn [pdu_FnCode pdu_Data]. cbv zeta.
  assert (HL : u16 (2 + len data) = 2 + len data)
    by (unfold u16; apply Z.mod_small; lia).
  rewrite HL. destruct (Z.leb_spec (2 + len data) 0); [lia|].
  eexists. eexists. split; [reflexivity|].
  split; [unfold Bytes; cbn [adu_SOF adu_Hdr adu_FnCode adu_Data adu_Err
                             adu_EOF app]; rewrite app_nil_r; reflexivity|].
  split; [reflexivity|].
  split; [apply (Uint16_PutUint16 _ x00 x00 [])|].
  split; [reflexivity|].
  split.
  - cbn [skipn firstn].
    replace (len _ - 6) with (u16 (2 + len data)).
    + apply (Uint16_PutUint16 _ x00 x00 []).
    + rewrite HL. unfold len. cbn [List.length]. lia.
  - split; [reflexivity|]. split; reflexivity.
Qed.

Lemma ModbusTCP_Encode_frame_witness :
  exists adu bytes,
    ModbusTCP_Encode (NewModbusTCP x01) (mkPDU [x03] [x00; x00; x00; x02]) =
      (mkModbusTCP (u16 (0 + 1)) 0 0 x01, XOk adu) /\
    Bytes adu = Ok bytes /\
    bytes = firstn 7 bytes ++ x03 :: [x00; x00; x00; x02] /\
    Uint16 (firstn 2 bytes) = Ok (u16 0) /\
    Uint16 (firstn 2 (skipn 2 bytes)) = Ok 0 /\
    Uint16 (firstn 2 (skipn 4 bytes)) = Ok (len bytes - 6) /\
    nth_error bytes 6 = Some x01 /\
    adu_Length adu = 2 + len [x00; x00; x00; x02] /\
    adu_TransactionId adu = 0.
Proof.
  apply (ModbusTCP_Encode_frame (NewModbusTCP x01) x03 [x00; x00; x00; x02]).
  vm_compute. reflexivity.
Defined.

(** [ModbusTCP.Encode] always moves the transaction id of the receiver on by
    one (modulo 65536), also when it fails; and it fails exactly when the
    16-bit sum of 2 and the data length is 0, that is, for data of 65534
    bytes (modulo 65536): longer data are encoded, with a length field
    that has wrapped. *)
Theorem ModbusTCP_Encode_counter (m : ModbusTCP) (pdu : PDU) :
  fst (ModbusTCP_Encode m pdu) =
    mkModbusTCP (u16 (mb_TransactionId m + 1)) (mb_ProtocolId m)
                (mb_Length m) (mb_SlaveId m) /\
  (u16 (2 + len (pdu_Data pdu)) = 0 <->
   snd (ModbusTCP_Encode m pdu) = XErr (ErrInvalidLength 0)) /\
  (u16 (2 + len (pdu_Data pdu)) <> 0 <->
   exists adu, snd (ModbusTCP_Encode m pdu) = XOk adu /\
               adu_Length adu = u16 (2 + len (pdu_Data pdu))).
Proof.
  rewrite ModbusTCP_Encode_eq. cbn [fst snd]. cbv zeta.
  assert (Hr : 0 <= u16 (2 + len (pdu_Data pdu)))
    by (unfold u16; apply Z.mod_pos_bound; lia).
  split; [reflexivity|].
  destruct (Z.leb_spec (u16 (2 + len (pdu_Data pdu))) 0) as [H|H].
  - assert (E : u16 (2 + len (pdu_Data pdu)) = 0) by lia. rewrite E.
    split; split; try tauto; try congruence.
    intros [adu [Habs _]]. discriminate.
  - split; split; try lia; try discriminate.
    intros _. eexists. split; reflexivity.
Qed.

Lemma ModbusTCP_Encode_counter_witness :
  snd (ModbusTCP_Encode (NewModbusTCP x01) (mkPDU [x03] (repeat x00 (Z.to_nat 65534)))) =
    XErr (ErrInvalidLength 0) /\
  exists adu,
    snd (ModbusTCP_Encode (mkModbusTCP 65535 0 0 x01)
           (mkPDU [x03] (repeat x00 (Z.to_nat 65535)))) = XOk adu /\
    adu_Length adu = u16 (2 + len (repeat x00 (Z.to_nat 65535))).
Proof.
  split.
  - apply (proj1 (proj1 (proj2 (ModbusTCP_Encode_counter (NewModbusTCP x01)
                                  (mkPDU [x03] (repeat x00 (Z.to_nat 65534))))))).
    vm_compute. reflexivity.
  - apply (proj1 (proj2 (proj2 (ModbusTCP_Encode_counter
                                  (mkModbusTCP 65535 0 0 x01)
                                  (mkPDU [x03] (repeat x00 (Z.to_nat 65535))))))).
    vm_compute. discriminate.
Defined.

(** * The ASCII encoder *)

Lemma Sprintf_X_app (a b : list byte) :
  Sprintf_X (a ++ b) = Sprintf_X a ++ Sprintf_X b.
Proof. unfold Sprintf_X. apply flat_map_app. Qed.

Lemma hex_digits_of_byte (b : byte) :
  let hi := hex_upper (byte_to_Z b / 16) in
  let lo := hex_upper (byte_to_Z b mod 16) in
  string_of_byte hi = [hi] /\ string_of_byte lo = [lo] /\
  is_hex_upper hi = true /\ is_hex_upper lo = true /\
  fromHexChar hi = Some (byte_to_Z b / 16) /\
  fromHexChar lo = Some (byte_to_Z b mod 16) /\
  Z_to_byte (Z.lor (Z.shiftl (byte_to_Z b / 16) 4) (byte_to_Z b mod 16)) = b.
Proof. destruct b; vm_compute; repeat split; reflexivity. Qed.

Lemma string_of_Sprintf_X (bin : list byte) :
  flat_map string_of_byte (Sprintf_X bin) = Sprintf_X bin.
Proof.
  induction bin as [|b bin IH]; [reflexivity|].
  unfold Sprintf_X in *. cbn [flat_map app].
  destruct (hex_digits_of_byte b) as (H1 & H2 & _).
  rewrite H1, H2, IH. reflexivity.
Qed.

Lemma hex_DecodeString_Sprintf_X (bin : list byte) :
  hex_DecodeString (Sprintf_X bin) = Some bin.
Proof.
  induction bin as [|b bin IH]; [reflexivity|].
  unfold Sprintf_X in *. cbn [flat_map app hex_DecodeString].
  destruct (hex_digits_of_byte b) as (_ & _ & _ & _ & H5 & H6 & H7).
  rewrite H5, H6, IH, H7. reflexivity.
Qed.

(** [toHex] undoes [toASCII]: the text that [toASCII] makes of a byte slice
    decodes to that slice. *)
Theorem toHex_toASCII (bin : list byte) :
  (text <~ lift (toASCII bin) ;; toHex text) = XOk bin.
Proof.
  cbn [toASCII lift xbind]. unfold toHex.
  rewrite string_of_Sprintf_X, hex_DecodeString_Sprintf_X. reflexivity.
Qed.

Lemma Sprintf_X_hex (bin : list byte) :
  Forall (fun c => is_hex_upper c = true) (Sprintf_X bin).
Proof.
  induction bin as [|b bin IH]; [constructor|].
  unfold Sprintf_X in *. cbn [flat_map app].
  destruct (hex_digits_of_byte b) as (_ & _ & H3 & H4 & _).
  constructor; [exact H3|]. constructor; [exact H4|exact IH].
Qed.

Lemma ASCII_Encode_eq (slave : byte) (pdu : PDU) :
  ASCII_Encode slave pdu =
  XOk (mkADU (Sprintf_X [COLON]) (Sprintf_X [slave]) 0 0 0 slave [] 0 x00
             EmptyString false (Sprintf_X (pdu_FnCode pdu))
             (Sprintf_X (pdu_Data pdu)) (Sprintf_X [CR; LF])).
Proof. reflexivity. Qed.

(** The frame that [ASCII.Encode] builds is hexadecimal text throughout:
    the upper-case digits of 3A, the slave id, the function code, the data,
    0D and 0A.  The delimiters are hex-encoded like the rest, so the frame
    holds no colon, carriage return or line feed; [Err] is empty, so no LRC
    is sent; and [toHex] turns the frame back into those bytes. *)
Theorem ASCII_Encode_frame (slave : byte) (pdu : PDU) :
  let bin := [COLON; slave] ++ pdu_FnCode pdu ++ pdu_Data pdu ++ [CR; LF] in
  exists adu bytes,
    ASCII_Encode slave pdu = XOk adu /\
    adu_Err adu = [] /\
    Bytes adu = Ok bytes /\
    bytes = Sprintf_X bin /\
    len bytes = 2 * len bin /\
    Forall (fun c => is_hex_upper c = true) bytes /\
    ~ In COLON bytes /\ ~ In CR bytes /\ ~ In LF bytes /\
    toHex bytes = XOk bin.
Proof.
  intros bin. rewrite ASCII_Encode_eq.
  eexists. exists (Sprintf_X bin). split; [reflexivity|].
  split; [reflexivity|].
  assert (Hb : Bytes
                 (mkADU (Sprintf_X [COLON]) (Sprintf_X [slave]) 0 0 0 slave []
                        0 x00 EmptyString false (Sprintf_X (pdu_FnCode pdu))
                        (Sprintf_X (pdu_Data pdu)) (Sprintf_X [CR; LF])) =
               Ok (Sprintf_X bin)).
  { unfold Bytes, bin.
    cbn [adu_SOF adu_Hdr adu_FnCode adu_Data adu_Err adu_EOF].
    change [COLON; slave] with ([COLON] ++ [slave]).
    rewrite <- app_assoc, !Sprintf_X_app. reflexivity. }
  split; [exact Hb|]. split; [reflexivity|].
  pose proof (Sprintf_X_hex bin) as Hhex.
  split.
  { unfold len. clear. induction bin as [|b l IH]; [reflexivity|].
    unfold Sprintf_X in *. cbn [flat_map app List.length]. lia. }
  split; [exact Hhex|].
  assert (Hno : forall c, is_hex_upper c = false -> ~ In c (Sprintf_X bin)).
  { intros c Hc Hin. rewrite Forall_forall in Hhex.
    specialize (Hhex c Hin). congruence. }
  split; [apply Hno; reflexivity|].
  split; [apply Hno; reflexivity|].
  split; [apply Hno; reflexivity|].
  unfold toHex.
  rewrite string_of_Sprintf_X, hex_DecodeString_Sprintf_X. reflexivity.
Qed.

(** * Requests and the client *)

(** ** Decimal strings *)

Lemma uint_val_ge (d : Decimal.uint) (n : Z) : 0 <= n -> n <= uint_val n d.
Proof.
  revert n. induction d; intros n Hn; cbn [uint_val]; try lia;
    match goal with
    | |- _ <= uint_val ?m _ => specialize (IHd m ltac:(lia)); lia
    end.
Qed.

Lemma of_uint_acc_val (d : Decimal.uint) (acc : positive) :
  Z.pos (Pos.of_uint_acc d acc) = uint_val (Z.pos acc) d.
Proof.
  revert acc. induction d; intros acc; cbn [Pos.of_uint_acc uint_val];
    try reflexivity; rewrite IHd; f_equal; lia.
Qed.

Lemma of_uint_val (d : Decimal.uint) : Z.of_N (Pos.of_uint d) = uint_val 0 d.
Proof.
  induction d; cbn [Pos.of_uint uint_val]; try reflexivity;
    try exact IHd; cbn [Z.of_N]; rewrite of_uint_acc_val; reflexivity.
Qed.

(** The digit loop run over the digits of [d], when their value fits. *)
Lemma ParseUint_loop_digits (maxVal : Z) (d : Decimal.uint) (rest : string)
  (n : Z) :
  0 <= n -> uint_val n d <= maxVal -> maxVal < 2 ^ 64 ->
  ParseUint_loop maxVal
    (DecimalString.NilEmpty.string_of_uint d ++ rest)%string n =
  ParseUint_loop maxVal rest (uint_val n d).
Proof.
  revert n.
  induction d; intros n Hn Hv Hm;
    cbn [DecimalString.NilEmpty.string_of_uint String.append uint_val];
    try reflexivity;
    cbn [uint_val] in Hv;
    match type of Hv with
    | uint_val ?m _ <= _ =>
        pose proof (uint_val_ge d m ltac:(lia)) as Hge;
        cbn [ParseUint_loop];
        match goal with
        | |- context [N_of_ascii ?c] =>
            let v := eval vm_compute in (Z.of_N (N_of_ascii c)) in
            change (Z.of_N (N_of_ascii c)) with v
        end;
        cbn [Z.leb Z.compare Pos.compare Pos.compare_cont andb Z.sub Z.add
             Z.opp Z.pos_sub Pos.pred_double Z.succ_double Z.pred_double
             Z.double];
        cbv zeta;
        destruct (Z.leb_spec 1844674407370955162 n); [lia|];
        unfold u64; rewrite (Z.mod_small (n * 10)) by lia;
        match goal with
        | |- context [(n * 10 + ?k) mod _] =>
            rewrite (Z.mod_small (n * 10 + k)) by lia;
            destruct (Z.ltb_spec (n * 10 + k) (n * 10)); [lia|];
            destruct (Z.ltb_spec maxVal (n * 10 + k)); [lia|];
            cbn [orb]; replace (n * 10 + k) with m by lia;
            apply IHd; lia
        end
    end.
Qed.

Lemma append_empty (s : string) : (s ++ "")%string = s.
Proof. induction s as [|c s IH]; cbn [String.append]; congruence. Qed.

Lemma to_uint_nonnil (n : N) : N.to_uint n <> Decimal.Nil.
Proof.
  destruct n as [|p]; [discriminate|].
  apply DecimalPos.Unsigned.to_uint_nonnil.
Qed.

Lemma string_of_uint_nonnil (d : Decimal.uint) :
  d <> Decimal.Nil ->
  DecimalString.NilZero.string_of_uint d =
    DecimalString.NilEmpty.string_of_uint d /\
  exists c s, DecimalString.NilEmpty.string_of_uint d = String c s.
Proof.
  destruct d; intros H; try congruence; split; try reflexivity;
    cbn [DecimalString.NilEmpty.string_of_uint]; eauto.
Qed.

(** Parsing a formatted number followed by [rest] comes down to parsing
    [rest] with the number as the value so far. *)
Lemma ParseUint_FormatUint_append (a : Z) (rest : string) :
  0 <= a < 2 ^ 64 ->
  ParseUint (FormatUint a ++ rest) 64 =
  ParseUint_loop 18446744073709551615 rest a.
Proof.
  intros Ha. unfold FormatUint, ParseUint.
  destruct (string_of_uint_nonnil _ (to_uint_nonnil (Z.to_N a)))
    as [-> [c [s Hs]]].
  rewrite Hs at 1. cbn [String.append].
  change (u64 (u64 (Z.shiftl 1 64) - 1)) with 18446744073709551615.
  assert (Hv : uint_val 0 (N.to_uint (Z.to_N a)) = a).
  { rewrite <- of_uint_val.
    change (Pos.of_uint (N.to_uint (Z.to_N a)))
      with (N.of_uint (N.to_uint (Z.to_N a))).
    rewrite DecimalN.Unsigned.of_to. lia. }
  rewrite ParseUint_loop_digits; rewrite ?Hv; try lia. reflexivity.
Qed.

Lemma ParseUint_FormatUint (a : Z) :
  0 <= a < 2 ^ 64 -> ParseUint (FormatUint a) 64 = (a, None).
Proof.
  intros Ha. rewrite <- (append_empty (FormatUint a)).
  rewrite ParseUint_FormatUint_append by exact Ha. reflexivity.
Qed.

Lemma NewRequest_address_strings_aux (fncode : FnCode) (a qty : Z) :
  0 <= a < 2 ^ 64 ->
  (legal_absolute a ->
   NewRequest fncode (FormatUint a) qty =
   let '(fn, relative, _) := Relative a in XOk (mkRequest fn relative qty)) /\
  (~ legal_absolute a ->
   NewRequest fncode (FormatUint a) qty =
   XErr (ErrMapAddress (ErrRelative a))).
Proof.
  intros Ha. split.
  - intros Hl. unfold NewRequest. rewrite ParseUint_FormatUint by exact Ha.
    unfold legal_absolute in Hl. unfold Relative. leb_cases;
      try rewrite Relative_offset by lia; unfold u16;
      rewrite Z.mod_small by lia; reflexivity.
  - intros Hl. unfold NewRequest. rewrite ParseUint_FormatUint by exact Ha.
    unfold legal_absolute in Hl. unfold Relative. leb_cases; reflexivity.
Qed.

(** [NewRequest] on address strings.  For the decimal string of a number it
    follows [Relative], whatever function code was passed in.  For a string
    in which a number is followed by a byte that is no digit, and for the
    empty string, it reports nothing: the result is a request for coil 0
    (function code 0x01, address 0). *)
Theorem NewRequest_address_strings (fncode : FnCode) (a qty : Z)
  (c : ascii) (rest : string) :
  0 <= a < 2 ^ 64 ->
  (legal_absolute a ->
   NewRequest fncode (FormatUint a) qty =
   let '(fn, relative, _) := Relative a in XOk (mkRequest fn relative qty)) /\
  (~ legal_absolute a ->
   NewRequest fncode (FormatUint a) qty =
   XErr (ErrMapAddress (ErrRelative a))) /\
  (~ (48 <= Z.of_N (N_of_ascii c) <= 57) ->
   NewRequest fncode (FormatUint a ++ String c rest) qty =
   XOk (mkRequest RDCO 0 qty)) /\
  NewRequest fncode "" qty = XOk (mkRequest RDCO 0 qty).
Proof.
  intros Ha. split; [|split; [|split]].
  - apply (NewRequest_address_strings_aux fncode a qty Ha).
  - apply (NewRequest_address_strings_aux fncode a qty Ha).
  - intros Hc. unfold NewRequest.
    rewrite ParseUint_FormatUint_append by exact Ha.
    cbn [ParseUint_loop].
    destruct (Z.leb_spec 48 (Z.of_N (N_of_ascii c)));
      destruct (Z.leb_spec (Z.of_N (N_of_ascii c)) 57);
      try lia; reflexivity.
  - reflexivity.
Qed.

Lemma NewRequest_address_strings_witness :
  NewRequest FERR (FormatUint 400010) 2 = XOk (mkRequest x03 10 2) /\
  NewRequest FERR (FormatUint 70000) 2 = XErr (ErrMapAddress (ErrRelative 70000)) /\
  NewRequest FERR (FormatUint 400010 ++ "x") 2 = XOk (mkRequest x01 0 2).
Proof.
  refine (conj _ (conj _ _)).
  - apply (proj1 (NewRequest_address_strings FERR 400010 2 "x" ""
                    ltac:(lia))).
    unfold legal_absolute. lia.
  - apply (proj1 (proj2 (NewRequest_address_strings FERR 70000 2 "x" ""
                           ltac:(lia)))).
    unfold legal_absolute. lia.
  - apply (proj1 (proj2 (proj2 (NewRequest_address_strings FERR 400010 2
                                  "x" "" ltac:(lia))))).
    change (Z.of_N (N_of_ascii "x")) with 120. lia.
Defined.

(** ** The client: what it asks of the protocol and the transport *)

Lemma read_PDU_request (fncode : FnCode) (a qty : Z) :
  0 <= a < 2 ^ 64 -> legal_absolute a ->
  exists request,
    NewRequest fncode (FormatUint a) qty = XOk request /\
    Request_Encode request = Ok (read_PDU a qty).
Proof.
  intros Ha Hl. unfold NewRequest, read_PDU.
  rewrite ParseUint_FormatUint by exact Ha.
  unfold legal_absolute in Hl. unfold Relative. leb_cases;
    try rewrite Relative_offset by lia; unfold u16;
    rewrite Z.mod_small by lia; eexists; split; reflexivity.
Qed.

(** An absolute address outside the four ranges stops [Client.Read] before
    anything is encoded or sent: protocol and transport come back untouched
    with the address error.  [Client.Request] has opened the connection by
    then and returns without closing it. *)
Theorem Client_Read_address_out_of_range {T P : Type}
  `{Transport T} `{Protocol P} (fuel : nat) (url : URL) (p : P) (t : T) :
  0 <= url_Address url < 2 ^ 64 ->
  ~ legal_absolute (url_Address url) ->
  let e := ErrCreateRequest (ErrMapAddress (ErrRelative (url_Address url))) in
  Client_Read fuel url p t = Some (p, t, XErr e) /\
  (snd (Connect t) = None ->
   Client_Request fuel url p t = Some (p, fst (Connect t), XErr e)).
Proof.
  intros Ha Hl e.
  assert (HR : forall t0 : T, Client_Read fuel url p t0 = Some (p, t0, XErr e)).
  { intros t0. unfold Client_Read.
    rewrite (proj2 (NewRequest_address_strings_aux FERR _ _ Ha) Hl).
    reflexivity. }
  split; [apply HR|].
  intros Hc. unfold Client_Request.
  destruct (Connect t) as [t1 e1]. cbn [fst snd] in *. subst e1.
  rewrite HR. reflexivity.
Qed.

Lemma Client_Read_address_out_of_range_witness :
  Client_Read 0 (mkURL "" "" 502 x11 1 "ROTP" 70000 2) x11
    (mkScripted None None []) =
  Some (x11, mkScripted None None [],
        XErr (ErrCreateRequest (ErrMapAddress (ErrRelative 70000)))) /\
  Client_Request 0 (mkURL "" "" 502 x11 1 "ROTP" 70000 2) x11
    (mkScripted None None []) =
  Some (x11, mkScripted None None [],
        XErr (ErrCreateRequest (ErrMapAddress (ErrRelative 70000)))).
Proof.
  pose proof (@Client_Read_address_out_of_range Scripted byte
                Scripted_Transport RTU_Protocol 0
                (mkURL "" "" 502 x11 1 "ROTP" 70000 2) x11
                (mkScripted None None [])
                ltac:(cbn [url_Address]; lia)
                ltac:(unfold legal_absolute; cbn [url_Address]; lia)) as [H1 H2].
  split; [exact H1|exact (H2 eq_refl)].
Defined.

(** [Client.Read] for a legal address, once the protocol has encoded the
    request: the outcome of [do] decides. *)
Lemma Client_Read_do {T P : Type} `{Transport T} `{Protocol P}
  (fuel : nat) (url : URL) (p p' : P) (t : T) (adu : ADU) :
  0 <= url_Address url < 2 ^ 64 ->
  legal_absolute (url_Address url) ->
  Encode (read_PDU (url_Address url) (url_Quantity url)) p = (p', Ok adu) ->
  Client_Read fuel url p t =
  match do fuel adu p' t with
  | None => None
  | Some (t, Ok response) => Some (p', t, XOk response)
  | Some (t, Err e) => Some (p', Unlock (Flush (Lock t)), XErr (ErrOf e))
  | Some (t, Panic q) => Some (p', t, XPanic q)
  end.
Proof.
  intros Ha Hl He. unfold Client_Read.
  destruct (read_PDU_request FERR _ (url_Quantity url) Ha Hl)
    as [request [-> ->]].
  rewrite He. reflexivity.
Qed.

(** A listen timeout seen from [Client.Request]: the caller gets the ADU
    with [Timeout] set and function code 0x80 and no error; the transport
    has been connected, used for one send and one listen, and closed,
    without lock or flush. *)
Theorem Client_Request_timeout {T P : Type} `{Transport T} `{Protocol P}
  (fuel : nat) (url : URL) (p p' : P) (t t1 t2 t3 : T) (adu : ADU)
  (msg : string) :
  0 <= url_Address url < 2 ^ 64 ->
  legal_absolute (url_Address url) ->
  Connect t = (t1, None) ->
  Encode (read_PDU (url_Address url) (url_Quantity url)) p = (p', Ok adu) ->
  Send adu t1 = (t2, None) ->
  Listen t2 = (t3, Some msg) ->
  Contains msg "timeout" = true ->
  Client_Request fuel url p t =
  Some (p', fst (Close t3), XOk (Some (set_Timeout true fresh_ADU))).
Proof.
  intros Ha Hl Hc He Hs Hli Hm. unfold Client_Request. rewrite Hc.
  rewrite (Client_Read_do fuel url p p' t1 adu Ha Hl He).
  unfold do. rewrite Hs, Hli, Hm. cbn [NewPDU NewADU bind].
  destruct (Close t3). reflexivity.
Qed.

Lemma Client_Request_timeout_witness :
  Client_Request 0 (mkURL "" "" 502 x11 1 "ROTP" 400010 2) x11
    (mkScripted None (Some "read tcp: i/o timeout"%string) []) =
  Some (x11, mkScripted None (Some "read tcp: i/o timeout"%string) [],
        XOk (Some (set_Timeout true fresh_ADU))).
Proof.
  apply (@Client_Request_timeout Scripted byte Scripted_Transport RTU_Protocol
           0 (mkURL "" "" 502 x11 1 "ROTP" 400010 2) x11 x11
           (mkScripted None (Some "read tcp: i/o timeout"%string) [])
           (mkScripted None (Some "read tcp: i/o timeout"%string) [])
           (mkScripted None (Some "read tcp: i/o timeout"%string) [])
           (mkScripted None (Some "read tcp: i/o timeout"%string) [])
           (mkADU [] [x11] 0 0 0 x11 [x99; xe6] 39398 x00 EmptyString false
                  [x03] [x00; x0a; x00; x02] [])
           "read tcp: i/o timeout").
  - cbn [url_Address]. lia.
  - unfold legal_absolute. cbn [url_Address]. lia.
  - reflexivity.
  - vm_compute. reflexivity.
  - reflexivity.
  - reflexivity.
  - reflexivity.
Defined.

(** When the transport fails to send, or fails to listen with an error that
    is not a timeout, [Client.Request] returns that error; [Listen] is not
    called after a failed send, the receive buffer is locked, flushed and
    unlocked once, and the connection is not closed. *)
Theorem Client_Request_transport_failure {T P : Type}
  `{Transport T} `{Protocol P}
  (fuel : nat) (url : URL) (p p' : P) (t t1 t2 : T) (adu : ADU)
  (err : option string) :
  0 <= url_Address url < 2 ^ 64 ->
  legal_absolute (url_Address url) ->
  Connect t = (t1, None) ->
  Encode (read_PDU (url_Address url) (url_Quantity url)) p = (p', Ok adu) ->
  Send adu t1 = (t2, err) ->
  (forall msg, err = Some msg ->
     Client_Request fuel url p t =
     Some (p', Unlock (Flush (Lock t2)),
           XErr (ErrOf (ErrRequestFailed (ErrTransport msg))))) /\
  (forall t3 msg, err = None -> Listen t2 = (t3, Some msg) ->
     Contains msg "timeout" = false ->
     Client_Request fuel url p t =
     Some (p', Unlock (Flush (Lock t3)),
           XErr (ErrOf (ErrListen (ErrTransport msg))))).
Proof.
  intros Ha Hl Hc He Hs. split.
  - intros msg ->. unfold Client_Request. rewrite Hc.
    rewrite (Client_Read_do fuel url p p' t1 adu Ha Hl He).
    unfold do. rewrite Hs. reflexivity.
  - intros t3 msg -> Hli Hm. unfold Client_Request. rewrite Hc.
    rewrite (Client_Read_do fuel url p p' t1 adu Ha Hl He).
    unfold do. rewrite Hs, Hli, Hm. reflexivity.
Qed.

Lemma Client_Request_transport_failure_witness :
  Client_Request 0 (mkURL "" "" 502 x11 1 "ROTP" 400010 2) x11
    (mkScripted (Some "broken pipe"%string) None [x01]) =
  Some (x11, mkScripted (Some "broken pipe"%string) None [],
        XErr (ErrOf (ErrRequestFailed (ErrTransport "broken pipe")))) /\
  Client_Request 0 (mkURL "" "" 502 x11 1 "ROTP" 400010 2) x11
    (mkScripted None (Some "connection reset"%string) [x01]) =
  Some (x11, mkScripted None (Some "connection reset"%string) [],
        XErr (ErrOf (ErrListen (ErrTransport "connection reset")))).
Proof.
  refine (conj _ _).
  - apply (proj1 (@Client_Request_transport_failure Scripted byte
             Scripted_Transport RTU_Protocol
             0 (mkURL "" "" 502 x11 1 "ROTP" 400010 2) x11 x11
             (mkScripted (Some "broken pipe"%string) None [x01])
             (mkScripted (Some "broken pipe"%string) None [x01])
             (mkScripted (Some "broken pipe"%string) None [x01])
             (mkADU [] [x11] 0 0 0 x11 [x99; xe6] 39398 x00 EmptyString false
                    [x03] [x00; x0a; x00; x02] [])
             (Some "broken pipe"%string)
             ltac:(cbn [url_Address]; lia)
             ltac:(unfold legal_absolute; cbn [url_Address]; lia)
             eq_refl ltac:(vm_compute; reflexivity) eq_refl)
           "broken pipe"%string eq_refl).
  - apply (proj2 (@Client_Request_transport_failure Scripted byte
             Scripted_Transport RTU_Protocol
             0 (mkURL "" "" 502 x11 1 "ROTP" 400010 2) x11 x11
             (mkScripted None (Some "connection reset"%string) [x01])
             (mkScripted None (Some "connection reset"%string) [x01])
             (mkScripted None (Some "connection reset"%string) [x01])
             (mkADU [] [x11] 0 0 0 x11 [x99; xe6] 39398 x00 EmptyString false
                    [x03] [x00; x0a; x00; x02] [])
             None
             ltac:(cbn [url_Address]; lia)
             ltac:(unfold legal_absolute; cbn [url_Address]; lia)
             eq_refl ltac:(vm_compute; reflexivity) eq_refl)
           (mkScripted None (Some "connection reset"%string) [x01])
           "connection reset"%string eq_refl eq_refl eq_refl).
Defined.

(** A response was received.  If the protocol decodes it, [Client.Request]
    hands it on after flushing and unlocking the buffer and closing the
    connection.  If the protocol refuses it, [do] leaves with the lock
    held and [Read] calls [Lock] a second time: the transport sees
    [Lock], [Lock], [Flush], [Unlock], and [Close] is not called.  If the
    protocol panics, the panic passes through [do], [Read] and [Request]
    with the transport locked once and not closed. *)
Theorem Client_Request_response {T P : Type} `{Transport T} `{Protocol P}
  (fuel : nat) (url : URL) (p p' : P) (t t1 t2 t3 : T) (adu : ADU) :
  0 <= url_Address url < 2 ^ 64 ->
  legal_absolute (url_Address url) ->
  Connect t = (t1, None) ->
  Encode (read_PDU (url_Address url) (url_Quantity url)) p = (p', Ok adu) ->
  Send adu t1 = (t2, None) ->
  Listen t2 = (t3, None) ->
  (forall response,
     Decode fuel (Buffer (Lock t3)) p' = Some (Ok response) ->
     Client_Request fuel url p t =
     Some (p', fst (Close (Unlock (Flush (Lock t3)))), XOk response)) /\
  (forall e,
     Decode fuel (Buffer (Lock t3)) p' = Some (Err e) ->
     Client_Request fuel url p t =
     Some (p', Unlock (Flush (Lock (Lock t3))), XErr (ErrOf (ErrDecode e)))) /\
  (forall q,
     Decode fuel (Buffer (Lock t3)) p' = Some (Panic q) ->
     Client_Request fuel url p t = Some (p', Lock t3, XPanic q)).
Proof.
  intros Ha Hl Hc He Hs Hli. refine (conj _ (conj _ _)).
  - intros response Hd. unfold Client_Request. rewrite Hc.
    rewrite (Client_Read_do fuel url p p' t1 adu Ha Hl He).
    unfold do. rewrite Hs, Hli, Hd.
    destruct (Close _). reflexivity.
  - intros e Hd. unfold Client_Request. rewrite Hc.
    rewrite (Client_Read_do fuel url p p' t1 adu Ha Hl He).
    unfold do. rewrite Hs, Hli, Hd. reflexivity.
  - intros q Hd. unfold Client_Request. rewrite Hc.
    rewrite (Client_Read_do fuel url p p' t1 adu Ha Hl He).
    unfold do. rewrite Hs, Hli, Hd. reflexivity.
Qed.

Lemma Client_Request_response_witness :
  Client_Request 20 (mkURL "" "" 502 x11 1 "ROTP" 400010 2) x11
    (mkScripted None None [x11; x03; x02; x00; x01; x47; xb8]) =
  Some (x11, mkScripted None None [],
        XOk (Some (mkADU [] [x11] 0 0 2 x11 [x47; xb8] 18360 x00 EmptyString
                         false [x03] [x02; x00; x01] []))) /\
  Client_Request 6 (mkURL "" "" 502 x11 1 "ROTP" 400010 2) x11
    (mkScripted None None [x11; x03]) =
  Some (x11, mkScripted None None [],
        XErr (ErrOf (ErrDecode (ErrResponseTooShort 2)))) /\
  Client_Request 20 (mkURL "" "" 502 x11 1 "ROTP" 400010 2) x11
    (mkScripted None None [x11; x03; x09; x00; x01; x85; xc9]) =
  Some (x11, mkScripted None None [x11; x03; x09; x00; x01; x85; xc9],
        XPanic IndexOutOfRange).
Proof.
  refine (conj _ (conj _ _)).
  - apply (proj1 (@Client_Request_response Scripted byte
             Scripted_Transport RTU_Protocol
             20 (mkURL "" "" 502 x11 1 "ROTP" 400010 2) x11 x11
             (mkScripted None None [x11; x03; x02; x00; x01; x47; xb8])
             (mkScripted None None [x11; x03; x02; x00; x01; x47; xb8])
             (mkScripted None None [x11; x03; x02; x00; x01; x47; xb8])
             (mkScripted None None [x11; x03; x02; x00; x01; x47; xb8])
             (mkADU [] [x11] 0 0 0 x11 [x99; xe6] 39398 x00 EmptyString false
                    [x03] [x00; x0a; x00; x02] [])
             ltac:(cbn [url_Address]; lia)
             ltac:(unfold legal_absolute; cbn [url_Address]; lia)
             eq_refl ltac:(vm_compute; reflexivity) eq_refl eq_refl)
           (Some (mkADU [] [x11] 0 0 2 x11 [x47; xb8] 18360 x00 EmptyString
                        false [x03] [x02; x00; x01] []))
           ltac:(vm_compute; reflexivity)).
  - apply (proj1 (proj2 (@Client_Request_response Scripted byte
             Scripted_Transport RTU_Protocol
             6 (mkURL "" "" 502 x11 1 "ROTP" 400010 2) x11 x11
             (mkScripted None None [x11; x03])
             (mkScripted None None [x11; x03])
             (mkScripted None None [x11; x03])
             (mkScripted None None [x11; x03])
             (mkADU [] [x11] 0 0 0 x11 [x99; xe6] 39398 x00 EmptyString false
                    [x03] [x00; x0a; x00; x02] [])
             ltac:(cbn [url_Address]; lia)
             ltac:(unfold legal_absolute; cbn [url_Address]; lia)
             eq_refl ltac:(vm_compute; reflexivity) eq_refl eq_refl))
           (ErrResponseTooShort 2) ltac:(vm_compute; reflexivity)).
  - apply (proj2 (proj2 (@Client_Request_response Scripted byte
             Scripted_Transport RTU_Protocol
             20 (mkURL "" "" 502 x11 1 "ROTP" 400010 2) x11 x11
             (mkScripted None None [x11; x03; x09; x00; x01; x85; xc9])
             (mkScripted None None [x11; x03; x09; x00; x01; x85; xc9])
             (mkScripted None None [x11; x03; x09; x00; x01; x85; xc9])
             (mkScripted None None [x11; x03; x09; x00; x01; x85; xc9])
             (mkADU [] [x11] 0 0 0 x11 [x99; xe6] 39398 x00 EmptyString false
                    [x03] [x00; x0a; x00; x02] [])
             ltac:(cbn [url_Address]; lia)
             ltac:(unfold legal_absolute; cbn [url_Address]; lia)
             eq_refl ltac:(vm_compute; reflexivity) eq_refl eq_refl))
           IndexOutOfRange ltac:(vm_compute; reflexivity)).
Defined.

(** ** The retry loop of the TCP transport *)

Lemma Connect_loop_success (dial : string -> Z -> nat -> option string)
  (n : nat) : forall (retry k : nat) (t : TCP),
  (n < retry)%nat ->
  dial (tcp_URL t) (tcp_Timeout t) (k + n)%nat = None ->
  (forall j, (j < n)%nat ->
     dial (tcp_URL t) (tcp_Timeout t) (k + j)%nat <> None) ->
  Connect_loop dial retry k t =
  (mkTCP (tcp_URL t) (tcp_Timeout t) (Some (k + n)%nat), S (k + n), None).
Proof.
  induction n as [|n IH]; intros retry k t Hr Hn Hj.
  - destruct retry as [|retry]; [lia|]. cbn [Connect_loop].
    rewrite Nat.add_0_r in *. rewrite Hn. reflexivity.
  - destruct retry as [|retry]; [lia|]. cbn [Connect_loop].
    pose proof (Hj 0%nat ltac:(lia)) as H0. rewrite Nat.add_0_r in H0.
    destruct (dial (tcp_URL t) (tcp_Timeout t) k) as [err|]; [|congruence].
    destruct retry as [|retry]; [lia|].
    rewrite (IH (S retry) (S k)); cbn [tcp_URL tcp_Timeout].
    + replace (S k + n)%nat with (k + S n)%nat by lia. reflexivity.
    + lia.
    + replace (S k + n)%nat with (k + S n)%nat by lia. exact Hn.
    + intros j Hlt. replace (S k + j)%nat with (k + S j)%nat by lia.
      apply Hj. lia.
Qed.

Lemma Connect_loop_failure (dial : string -> Z -> nat -> option string)
  (retry : nat) : forall (k : nat) (t : TCP) (err : string),
  dial (tcp_URL t) (tcp_Timeout t) (k + retry)%nat = Some err ->
  (forall j, (j < retry)%nat ->
     dial (tcp_URL t) (tcp_Timeout t) (k + j)%nat <> None) ->
  Connect_loop dial (S retry) k t =
  (mkTCP (tcp_URL t) (tcp_Timeout t) None, S (k + retry),
   Some (ErrDial (tcp_URL t) err)).
Proof.
  induction retry as [|retry IH]; intros k t err He Hj.
  - cbn [Connect_loop]. rewrite Nat.add_0_r in *. rewrite He. reflexivity.
  - cbn [Connect_loop].
    pose proof (Hj 0%nat ltac:(lia)) as H0. rewrite Nat.add_0_r in H0.
    destruct (dial (tcp_URL t) (tcp_Timeout t) k) as [e0|]; [|congruence].
    change (Connect_loop dial (S retry) (S k)
              (mkTCP (tcp_URL t) (tcp_Timeout t) None) =
            (mkTCP (tcp_URL t) (tcp_Timeout t) None, S (k + S retry),
             Some (ErrDial (tcp_URL t) err))).
    rewrite (IH (S k) _ err); cbn [tcp_URL tcp_Timeout].
    + replace (S k + retry)%nat with (k + S retry)%nat by lia. reflexivity.
    + replace (S k + retry)%nat with (k + S retry)%nat by lia. exact He.
    + intros j Hlt. replace (S k + j)%nat with (k + S j)%nat by lia.
      apply Hj. lia.
Qed.

(** [TCP.Connect] dials with the transport's timeout, or with ten seconds
    when that is not positive, and stores the timeout it used.  It stops at
    the first dial that succeeds among five and keeps that connection; the
    errors of the dials before are dropped.  When all five fail, the error
    returned is that of the fifth dial and no connection is kept.  The
    connection held before the call does not matter. *)
Theorem TCP_Connect_retries (dial : string -> Z -> nat -> option string)
  (k : nat) (t : TCP) (n : nat) :
  let to := if tcp_Timeout t <=? 0 then timeout else tcp_Timeout t in
  (forall j, (j < n)%nat -> dial (tcp_URL t) to (k + j)%nat <> None) ->
  0 < to /\
  ((n < RETRIES)%nat -> dial (tcp_URL t) to (k + n)%nat = None ->
   TCP_Connect dial k t =
   (mkTCP (tcp_URL t) to (Some (k + n)%nat), S (k + n), None)) /\
  (forall err, n = 4%nat -> dial (tcp_URL t) to (k + n)%nat = Some err ->
   TCP_Connect dial k t =
   (mkTCP (tcp_URL t) to None, (k + RETRIES)%nat,
    Some (ErrDial (tcp_URL t) err))).
Proof.
  intros to Hj. subst to. unfold TCP_Connect, RETRIES.
  destruct (Z.leb_spec (tcp_Timeout t) 0) as [Hto|Hto].
  - split; [unfold timeout; lia|]. split.
    + intros Hn Hd.
      rewrite (Connect_loop_success dial n 5 k
                 (mkTCP (tcp_URL t) timeout (tcp_Conn t)) Hn Hd Hj).
      reflexivity.
    + intros err -> Hd.
      rewrite (Connect_loop_failure dial 4 k
                 (mkTCP (tcp_URL t) timeout (tcp_Conn t)) err Hd Hj).
      cbn [tcp_URL tcp_Timeout]. do 2 f_equal. f_equal. lia.
  - split; [lia|]. split.
    + intros Hn Hd.
      rewrite (Connect_loop_success dial n 5 k t Hn Hd Hj). reflexivity.
    + intros err -> Hd.
      rewrite (Connect_loop_failure dial 4 k t err Hd Hj).
      do 2 f_equal. f_equal. lia.
Qed.

Lemma TCP_Connect_retries_witness :
  TCP_Connect (fun _ to k => if (0 <? to) && (2 <=? k)%nat then None
                             else Some "refused"%string)
      0 (mkTCP "10.0.0.1:502" 0 (Some 7%nat)) =
  (mkTCP "10.0.0.1:502" timeout (Some 2%nat), 3%nat, None) /\
  TCP_Connect (fun _ _ k => if (k =? 4)%nat then Some "no route"%string
                            else Some "refused"%string)
      0 (mkTCP "10.0.0.1:502" 1000 None) =
  (mkTCP "10.0.0.1:502" 1000 None, 5%nat,
   Some (ErrDial "10.0.0.1:502" "no route")).
Proof.
  refine (conj _ _).
  - refine (proj1 (proj2 (TCP_Connect_retries
              (fun _ to k => if (0 <? to) && (2 <=? k)%nat then None
                             else Some "refused"%string)
              0 (mkTCP "10.0.0.1:502" 0 (Some 7%nat)) 2 _)) _ eq_refl).
    + intros j Hlt.
      destruct j as [|[|j]]; [discriminate|discriminate|lia].
    + unfold RETRIES. lia.
  - refine (proj2 (proj2 (TCP_Connect_retries
              (fun _ _ k => if (k =? 4)%nat then Some "no route"%string
                            else Some "refused"%string)
              0 (mkTCP "10.0.0.1:502" 1000 None) 4 _))
              "no route"%string eq_refl eq_refl).
    intros j Hlt. cbn beta.
    destruct (0 + j =? 4)%nat; discriminate.
Defined.

(** ** The client on the mutex of the transport base *)

(** On a transport that uses the mutex of [TransportBase], with the mutex
    free before the call: when the protocol decodes the response,
    [Client.Request] returns it and leaves the mutex free and the response
    buffer empty; when the protocol refuses the response, the second
    [Lock] of [Read] waits on the mutex that [do] still holds, so the call
    does not return, and the refused bytes stay in the buffer. *)
Theorem Client_Request_decode_error_blocks {P : Type} `{Protocol P}
  (fuel : nat) (url : URL) (p p' : P) (t : Wire) (adu : ADU) :
  0 <= url_Address url < 2 ^ 64 ->
  legal_absolute (url_Address url) ->
  Encode (read_PDU (url_Address url) (url_Quantity url)) p = (p', Ok adu) ->
  tb_M (wi_base t) = Unlocked ->
  wi_send t = None ->
  wi_listen t = None ->
  let buffer := tb_Response (wi_base t) ++ firstn 256 (wi_incoming t) in
  let after (b : TransportBase) :=
    mkWire None None (skipn 256 (wi_incoming t)) b in
  (forall response,
     Decode fuel buffer p' = Some (Ok response) ->
     Client_Request fuel url p t =
     Some (p', after (mkTransportBase Unlocked []), XOk response)) /\
  (forall e,
     Decode fuel buffer p' = Some (Err e) ->
     exists r,
       Client_Request fuel url p t =
       Some (p', after (mkTransportBase Blocked buffer), r)).
Proof.
  intros Ha Hl He Hm Hs Hli buffer after.
  destruct t as [snd_ lis inc [mu resp]].
  cbn [wi_base wi_send wi_listen wi_incoming tb_M tb_Response] in *.
  subst mu snd_ lis.
  assert (Hb : Listen (mkWire None None inc (mkTransportBase Unlocked resp)) =
               (after (mkTransportBase Unlocked buffer), None)).
  { cbn [Listen Wire_Transport wi_listen wi_incoming wi_base wi_send].
    cbv zeta. cbn [wi_listen wi_incoming wi_base wi_send].
    destruct (Z.ltb_spec 0 (len (firstn 256 inc))) as [Hpos|Hpos].
    - reflexivity.
    - assert (firstn 256 inc = []) as E.
      { destruct (firstn 256 inc); [reflexivity|]. unfold len in Hpos.
        cbn [List.length] in Hpos. lia. }
      subst buffer after. cbv beta. rewrite E, app_nil_r. reflexivity. }
  split.
  - intros response Hd. unfold Client_Request.
    cbn [Connect Wire_Transport].
    rewrite (Client_Read_do fuel url p p' _ adu Ha Hl He).
    unfold do. cbn [Send Wire_Transport wi_send]. rewrite Hb.
    subst after. cbv beta.
    cbn [Lock Buffer Flush Unlock Close Wire_Transport wi_base with_base
         TransportBase_Lock TransportBase_Buffer tb_M tb_Response
         wi_send wi_listen wi_incoming].
    rewrite Hd. reflexivity.
  - intros e Hd. eexists. unfold Client_Request.
    cbn [Connect Wire_Transport].
    rewrite (Client_Read_do fuel url p p' _ adu Ha Hl He).
    unfold do. cbn [Send Wire_Transport wi_send]. rewrite Hb.
    subst after. cbv beta.
    cbn [Lock Buffer Flush Unlock Close Wire_Transport wi_base with_base
         TransportBase_Lock TransportBase_Buffer tb_M tb_Response
         wi_send wi_listen wi_incoming].
    rewrite Hd. reflexivity.
Qed.

Lemma Client_Request_decode_error_blocks_witness :
  (exists r,
     Client_Request 20 (mkURL "" "" 502 x11 1 "ROTP" 400010 2) x11
       (mkWire None None [x11; x03; x02; x00; x01; x47; xb9]
               (mkTransportBase Unlocked [])) =
     Some (x11,
           mkWire None None []
             (mkTransportBase Blocked [x11; x03; x02; x00; x01; x47; xb9]),
           r)) /\
  Client_Request 20 (mkURL "" "" 502 x11 1 "ROTP" 400010 2) x11
    (mkWire None None [x11; x03; x02; x00; x01; x47; xb8]
            (mkTransportBase Unlocked [])) =
  Some (x11,
        mkWire None None [] (mkTransportBase Unlocked []),
        XOk (Some (mkADU [] [x11] 0 0 2 x11 [x47; xb8] 18360 x00 EmptyString
                         false [x03] [x02; x00; x01] []))).
Proof.
  refine (conj _ _).
  - apply (proj2 (@Client_Request_decode_error_blocks byte RTU_Protocol
             20 (mkURL "" "" 502 x11 1 "ROTP" 400010 2) x11 x11
             (mkWire None None [x11; x03; x02; x00; x01; x47; xb9]
                     (mkTransportBase Unlocked []))
             (mkADU [] [x11] 0 0 0 x11 [x99; xe6] 39398 x00 EmptyString false
                    [x03] [x00; x0a; x00; x02] [])
             ltac:(cbn [url_Address]; lia)
             ltac:(unfold legal_absolute; cbn [url_Address]; lia)
             ltac:(vm_compute; reflexivity) eq_refl eq_refl eq_refl)
           (ErrCRCMismatch 18361 18361) ltac:(vm_compute; reflexivity)).
  - apply (proj1 (@Client_Request_decode_error_blocks byte RTU_Protocol
             20 (mkURL "" "" 502 x11 1 "ROTP" 400010 2) x11 x11
             (mkWire None None [x11; x03; x02; x00; x01; x47; xb8]
                     (mkTransportBase Unlocked []))
             (mkADU [] [x11] 0 0 0 x11 [x99; xe6] 39398 x00 EmptyString false
                    [x03] [x00; x0a; x00; x02] [])
             ltac:(cbn [url_Address]; lia)
             ltac:(unfold legal_absolute; cbn [url_Address]; lia)
             ltac:(vm_compute; reflexivity) eq_refl eq_refl eq_refl)
           (Some (mkADU [] [x11] 0 0 2 x11 [x47; xb8] 18360 x00 EmptyString
                        false [x03] [x02; x00; x01] []))
           ltac:(vm_compute; reflexivity)).
Defined.

(** ** The ASCII decoder *)

(** [ASCII.Decode] returns for no response: its first store goes through
    the nil pointer [tmp], whether the text was valid hexadecimal or not.
    It panics on the slice expression before that when the capacity of
    the response is below 2. *)
Theorem ASCII_Decode_panics (fuel : nat) (response spare : list byte) :
  ASCII_Decode fuel response spare =
  Some (XPanic (if len (response ++ spare) <? 2
                then SliceBoundsOutOfRange else NilDereference)).
Proof.
  unfold ASCII_Decode. cbv zeta.
  pose proof (len_nonneg (response ++ spare)) as Hn.
  unfold decoded at 1. unfold slice_cap at 1.
  destruct (Z.ltb_spec (len (response ++ spare)) 2) as [Hc|Hc].
  - replace ((0 <=? 0) && (0 <=? 2) && (2 <=? len (response ++ spare)))
      with false; [reflexivity|].
    symmetry. apply andb_false_iff. right. apply Z.leb_gt. lia.
  - replace ((0 <=? 0) && (0 <=? 2) && (2 <=? len (response ++ spare)))
      with true.
    + cbn [lift xbind]. unfold toHex.
      destruct (hex_DecodeString _); reflexivity.
    + symmetry. apply andb_true_iff. split; [reflexivity|].
      apply Z.leb_le. lia.
Qed.

(** * URLs *)

(** ** Strings: index, count and split *)

Lemma string_length_append (a b : string) :
  String.length (a ++ b) = (String.length a + String.length b)%nat.
Proof.
  induction a as [|x a IH]; cbn [String.append String.length Nat.add];
    congruence.
Qed.

Lemma has_append (c : ascii) (a b : string) :
  has c (a ++ b) = has c a || has c b.
Proof.
  induction a as [|x a IH]; cbn [String.append has]; [reflexivity|].
  rewrite IH. apply orb_assoc.
Qed.

Lemma prefix_append (s b : string) : prefix s (s ++ b) = true.
Proof.
  induction s as [|x s IH]; cbn [String.append prefix].
  - destruct b; reflexivity.
  - destruct (ascii_dec x x); [exact IH|congruence].
Qed.

Lemma prefix_head (c x : ascii) (sep' r : string) :
  Ascii.eqb x c = false -> prefix (String c sep') (String x r) = false.
Proof.
  intros H. cbn [prefix]. destruct (ascii_dec c x) as [->|]; [|reflexivity].
  rewrite Ascii.eqb_refl in H. discriminate.
Qed.

Lemma prefix_has (c : ascii) (sep' r : string) :
  has c r = false -> prefix (String c sep') r = false.
Proof.
  destruct r as [|x r]; [reflexivity|]. cbn [has]. intros H.
  apply orb_false_iff in H. apply prefix_head, H.
Qed.

Lemma prefix_has_append (c : ascii) (sep' a r : string) :
  has c a = false -> a <> EmptyString ->
  prefix (String c sep') (a ++ r) = false.
Proof.
  destruct a as [|x a]; [congruence|]. cbn [has String.append]. intros H _.
  apply orb_false_iff in H. apply prefix_head, H.
Qed.

Lemma Index_eq (s substr : string) :
  Index s substr =
  if prefix substr s then Some 0%nat
  else match s with
       | EmptyString => None
       | String _ s' => option_map S (Index s' substr)
       end.
Proof. destruct s; reflexivity. Qed.

(** A prefix without the first byte of the separator is skipped. *)
Lemma Index_skip (c : ascii) (sep' a r : string) :
  has c a = false ->
  Index (a ++ r) (String c sep') =
  option_map (Nat.add (String.length a)) (Index r (String c sep')).
Proof.
  induction a as [|x a IH]; cbn [String.append has String.length]; intros H.
  - destruct (Index r _); reflexivity.
  - apply orb_false_iff in H. destruct H as [Hx Ha].
    rewrite Index_eq, (prefix_head c x sep' _ Hx), (IH Ha).
    destruct (Index r _); reflexivity.
Qed.

Lemma Index_none (c : ascii) (sep' a : string) :
  has c a = false -> Index a (String c sep') = None.
Proof.
  intros H. rewrite <- (append_empty a), (Index_skip c sep' a _ H).
  reflexivity.
Qed.

Lemma Index_cut (c : ascii) (sep' a b : string) :
  has c a = false ->
  Index (a ++ String c sep' ++ b) (String c sep') = Some (String.length a).
Proof.
  intros H. rewrite (Index_skip c sep' a _ H), Index_eq, prefix_append.
  cbn [option_map]. f_equal. lia.
Qed.

(** A single separator byte followed by another byte is no occurrence of
    the doubled separator. *)
Lemma Index_single (c : ascii) (a r : string) :
  has c a = false ->
  prefix (String c EmptyString) r = false ->
  Index (a ++ String c EmptyString ++ r) (String c (String c EmptyString)) =
  option_map (Nat.add (S (String.length a)))
             (Index r (String c (String c EmptyString))).
Proof.
  intros H Hr. rewrite (Index_skip c _ a _ H).
  cbn [String.append]. rewrite Index_eq.
  assert (Hp : prefix (String c (String c EmptyString)) (String c r) = false).
  { cbn [prefix]. destruct (ascii_dec c c); [|reflexivity]. exact Hr. }
  rewrite Hp. destruct (Index r _); cbn [option_map]; [f_equal; lia|reflexivity].
Qed.

Lemma substring_0_all (b : string) : substring 0 (String.length b) b = b.
Proof. induction b as [|x b IH]; cbn [substring String.length]; congruence. Qed.

Lemma substring_0_append (a b : string) :
  substring 0 (String.length a) (a ++ b) = a.
Proof.
  induction a as [|x a IH]; cbn [substring String.length String.append].
  - destruct b; reflexivity.
  - congruence.
Qed.

Lemma string_from_append (a b : string) (k : nat) :
  string_from (a ++ b) (String.length a + k) = string_from b k.
Proof.
  unfold string_from.
  induction a as [|x a IH]; cbn [String.append String.length Nat.add];
    [reflexivity|].
  cbn [substring Nat.sub]. exact IH.
Qed.

Lemma string_from_cut (a sep b : string) :
  string_from (a ++ sep ++ b) (String.length a + String.length sep) = b.
Proof.
  rewrite string_from_append.
  replace (String.length sep) with (String.length sep + 0)%nat by lia.
  rewrite string_from_append. unfold string_from.
  rewrite Nat.sub_0_r. apply substring_0_all.
Qed.

Lemma Count_loop_cut (c : ascii) (sep' a b : string) (fuel : nat) :
  has c a = false ->
  Count_loop (S fuel) (a ++ String c sep' ++ b) (String c sep') =
  S (Count_loop fuel b (String c sep')).
Proof.
  intros H. cbn [Count_loop]. rewrite (Index_cut c sep' a b H).
  rewrite string_from_cut. reflexivity.
Qed.

Lemma Count_loop_none (s sep : string) (fuel : nat) :
  Index s sep = None -> Count_loop fuel s sep = O.
Proof. intros H. destruct fuel; cbn [Count_loop]; [|rewrite H]; reflexivity. Qed.

Lemma genSplit_loop_cut (c : ascii) (sep' a b : string) (n : nat) :
  has c a = false ->
  genSplit_loop (S n) (a ++ String c sep' ++ b) (String c sep') =
  a :: genSplit_loop n b (String c sep').
Proof.
  intros H. cbn [genSplit_loop]. rewrite (Index_cut c sep' a b H).
  rewrite string_from_cut, substring_0_append. reflexivity.
Qed.

Lemma genSplit_loop_none (s sep : string) (n : nat) :
  Index s sep = None -> genSplit_loop n s sep = [s].
Proof. intros H. destruct n; cbn [genSplit_loop]; [|rewrite H]; reflexivity. Qed.

(** [Split] on a string without the separator, with one and with two. *)
Lemma Split_1 (s sep : string) : Index s sep = None -> Split s sep = [s].
Proof. intros H. unfold Split. apply genSplit_loop_none, H. Qed.

Lemma Split_2 (c : ascii) (sep' a b : string) :
  has c a = false -> Index b (String c sep') = None ->
  Split (a ++ String c sep' ++ b) (String c sep') = [a; b].
Proof.
  intros Ha Hb. unfold Split, Count.
  rewrite !string_length_append. cbn [String.length].
  repeat (rewrite Nat.add_succ_l || rewrite Nat.add_succ_r).
  rewrite (Count_loop_cut c sep' a b _ Ha), (Count_loop_none _ _ _ Hb).
  rewrite (genSplit_loop_cut c sep' a b _ Ha).
  rewrite (genSplit_loop_none _ _ _ Hb). reflexivity.
Qed.

Lemma Split_3 (c : ascii) (sep' a b1 b2 : string) :
  has c a = false -> has c b1 = false -> Index b2 (String c sep') = None ->
  Split (a ++ String c sep' ++ b1 ++ String c sep' ++ b2) (String c sep') =
  [a; b1; b2].
Proof.
  intros Ha Hb1 Hb2. unfold Split, Count.
  rewrite !string_length_append. cbn [String.length].
  repeat (rewrite Nat.add_succ_l || rewrite Nat.add_succ_r).
  rewrite (Count_loop_cut c sep' a _ _ Ha).
  rewrite (Count_loop_cut c sep' b1 b2 _ Hb1), (Count_loop_none _ _ _ Hb2).
  rewrite (genSplit_loop_cut c sep' a _ _ Ha).
  rewrite (genSplit_loop_cut c sep' b1 b2 _ Hb1).
  rewrite (genSplit_loop_none _ _ _ Hb2). reflexivity.
Qed.

(** ** Decimal strings as parts of a URL *)

Lemma digits_has (c : ascii) (d : Decimal.uint) :
  is_digit c = false ->
  has c (DecimalString.NilEmpty.string_of_uint d) = false.
Proof.
  intros Hc.
  induction d; cbn [DecimalString.NilEmpty.string_of_uint has];
    try reflexivity;
    match goal with
    | |- Ascii.eqb ?k c || _ = false =>
        destruct (Ascii.eqb_spec k c) as [<-|_];
        [vm_compute in Hc; discriminate|exact IHd]
    end.
Qed.

Lemma FormatUint_has (c : ascii) (a : Z) :
  is_digit c = false -> has c (FormatUint a) = false.
Proof.
  intros Hc. unfold FormatUint.
  destruct (string_of_uint_nonnil _ (to_uint_nonnil (Z.to_N a))) as [-> _].
  apply digits_has, Hc.
Qed.

Lemma FormatUint_nonempty (a : Z) : FormatUint a <> EmptyString.
Proof.
  unfold FormatUint.
  destruct (string_of_uint_nonnil _ (to_uint_nonnil (Z.to_N a)))
    as [-> [c [s ->]]].
  discriminate.
Qed.

(** [ParseUint] reads back what [FormatUint] wrote, for every bit size
    that holds the number. *)
Lemma ParseUint_FormatUint_bits (a bitSize : Z) :
  In bitSize [8; 16; 32; 64] -> 0 <= a < 2 ^ bitSize ->
  ParseUint (FormatUint a) bitSize = (a, None).
Proof.
  intros Hb Ha.
  assert (Hm : u64 (u64 (Z.shiftl 1 bitSize) - 1) = 2 ^ bitSize - 1 /\
               2 ^ bitSize <= 2 ^ 64).
  { cbn [In] in Hb.
    destruct Hb as [<-|[<-|[<-|[<-|[]]]]]; split; vm_compute; congruence. }
  destruct Hm as [Hm Hle].
  rewrite <- (append_empty (FormatUint a)).
  unfold FormatUint, ParseUint.
  destruct (string_of_uint_nonnil _ (to_uint_nonnil (Z.to_N a)))
    as [-> [c [s Hs]]].
  rewrite Hs at 1. cbn [String.append]. rewrite Hm.
  assert (Hv : uint_val 0 (N.to_uint (Z.to_N a)) = a).
  { rewrite <- of_uint_val.
    change (Pos.of_uint (N.to_uint (Z.to_N a)))
      with (N.of_uint (N.to_uint (Z.to_N a))).
    rewrite DecimalN.Unsigned.of_to. lia. }
  rewrite ParseUint_loop_digits; rewrite ?Hv; try lia. reflexivity.
Qed.

Lemma parsed_FormatUint (what : string) (a bitSize : Z) :
  In bitSize [8; 16; 32; 64] -> 0 <= a < 2 ^ bitSize ->
  parsed what (FormatUint a) bitSize = XOk a.
Proof.
  intros Hb Ha. unfold parsed.
  rewrite (ParseUint_FormatUint_bits a bitSize Hb Ha). reflexivity.
Qed.

(** ** The components of a URL *)

Lemma string_append_assoc (a b c : string) :
  ((a ++ b) ++ c)%string = (a ++ b ++ c)%string.
Proof. induction a as [|x a IH]; cbn [String.append]; congruence. Qed.

(** The first split of [NewURL], at the double slash. *)
Lemma Split_surl (proto host mid last : string) :
  has "/" proto = false -> has "/" host = false ->
  has "/" mid = false -> mid <> EmptyString -> has "/" last = false ->
  Split (proto ++ "://" ++ host ++ "/" ++ mid ++ "/" ++ last) "//" =
  [(proto ++ ":")%string; (host ++ "/" ++ mid ++ "/" ++ last)%string].
Proof.
  intros Hp Hh Hm Hne Hl.
  change (proto ++ "://" ++ host ++ "/" ++ mid ++ "/" ++ last)%string
    with (proto ++ ":" ++ "//" ++ host ++ "/" ++ mid ++ "/" ++ last)%string.
  rewrite <- string_append_assoc.
  apply (Split_2 "/" "/").
  - rewrite has_append, Hp. reflexivity.
  - rewrite (Index_single "/" host _ Hh
               (prefix_has_append "/" "" mid _ Hm Hne)).
    rewrite (Index_single "/" mid _ Hm (prefix_has "/" "" last Hl)).
    rewrite (Index_none "/" "/" last Hl). reflexivity.
Qed.

(** The second split, at the single slashes. *)
Lemma Split_rest (host mid last : string) :
  has "/" host = false -> has "/" mid = false -> has "/" last = false ->
  Split (host ++ "/" ++ mid ++ "/" ++ last) "/" = [host; mid; last].
Proof.
  intros Hh Hm Hl.
  apply (Split_3 "/" "" host mid last Hh Hm (Index_none "/" "" last Hl)).
Qed.

Lemma Split_pair (c : ascii) (a b : string) :
  has c a = false -> has c b = false ->
  Split (a ++ String c EmptyString ++ b) (String c EmptyString) = [a; b].
Proof.
  intros Ha Hb. apply (Split_2 c "" a b Ha (Index_none c "" b Hb)).
Qed.

Lemma Split_proto (proto : string) :
  has ":" proto = false -> Split (proto ++ ":") ":" = [proto; EmptyString].
Proof. intros H. apply (Split_pair ":" proto "" H eq_refl). Qed.

Lemma Split_whole (c : ascii) (a : string) :
  has c a = false -> Split a (String c EmptyString) = [a].
Proof. intros H. apply Split_1, Index_none, H. Qed.

(** [NewURL] up to the split of the host part: what is left is the
    parsing of the five numbers. *)
Lemma NewURL_components (proto host mid last : string) :
  has "/" proto = false -> has ":" proto = false ->
  has "/" host = false ->
  has "/" mid = false -> mid <> EmptyString -> has "/" last = false ->
  let surl := (proto ++ "://" ++ host ++ "/" ++ mid ++ "/" ++ last)%string in
  NewURL surl =
  (IP <~ string_at (Split host ":") 0 ;;
   s <~ string_at (Split host ":") 1 ;;
   u64 <~ parsed "Port number" s 16 ;;
   let PortNo := u16 u64 in
   s <~ string_at (Split mid "-") 0 ;;
   u64 <~ parsed "Slave Id" s 8 ;;
   let SlaveId := Z_to_byte u64 in
   s <~ string_at (Split mid "-") 1 ;;
   u64 <~ parsed "Timeout" s 32 ;;
   let Timeout := u64 in
   s <~ string_at (Split last "-") 0 ;;
   u64 <~ parsed "Address" s 64 ;;
   let Address := u64 in
   s <~ string_at (Split last "-") 1 ;;
   u64 <~ parsed "Quantity" s 16 ;;
   let Quantity := u16 u64 in
   XOk (mkURL surl IP PortNo SlaveId Timeout proto Address Quantity)).
Proof.
  intros Hp Hpc Hh Hm Hne Hl surl. subst surl. unfold NewURL. cbv zeta.
  rewrite (Split_surl proto host mid last Hp Hh Hm Hne Hl).
  cbn [List.length Nat.eqb negb string_at nth_error xbind].
  rewrite (Split_proto proto Hpc), (Split_rest host mid last Hh Hm Hl).
  cbn [List.length Nat.eqb negb string_at nth_error xbind].
  reflexivity.
Qed.

(** A URL of the form [protocol://ip:port/slave-timeout/address-quantity],
    with decimal numbers that fit their fields (16, 8, 32, 64 and 16 bits)
    and a protocol and an address without slash or colon, is parsed into
    exactly those parts; the protocol is kept as it is written. *)
Theorem NewURL_parses (proto ip : string) (port slave to addr qty : Z) :
  has "/" proto = false -> has ":" proto = false ->
  has "/" ip = false -> has ":" ip = false ->
  0 <= port < 2 ^ 16 -> 0 <= slave < 2 ^ 8 -> 0 <= to < 2 ^ 32 ->
  0 <= addr < 2 ^ 64 -> 0 <= qty < 2 ^ 16 ->
  let surl := (proto ++ "://" ++ ip ++ ":" ++ FormatUint port ++ "/" ++
               FormatUint slave ++ "-" ++ FormatUint to ++ "/" ++
               FormatUint addr ++ "-" ++ FormatUint qty)%string in
  NewURL surl = XOk (mkURL surl ip port (Z_to_byte slave) to proto addr qty).
Proof.
  intros Hp Hpc Hi Hic Hport Hslave Hto Haddr Hqty surl.
  pose proof (FormatUint_has "/" port eq_refl) as Hs1.
  pose proof (FormatUint_has "/" slave eq_refl) as Hs2.
  pose proof (FormatUint_has "/" to eq_refl) as Hs3.
  pose proof (FormatUint_has "/" addr eq_refl) as Hs4.
  pose proof (FormatUint_has "/" qty eq_refl) as Hs5.
  assert (E : surl =
    (proto ++ "://" ++ (ip ++ ":" ++ FormatUint port) ++ "/" ++
     (FormatUint slave ++ "-" ++ FormatUint to) ++ "/" ++
     (FormatUint addr ++ "-" ++ FormatUint qty))%string).
  { unfold surl. rewrite !string_append_assoc. reflexivity. }
  rewrite E at 1.
  rewrite NewURL_components;
    rewrite ?has_append, ?Hi, ?Hs1, ?Hs2, ?Hs3, ?Hs4, ?Hs5;
    try reflexivity; try assumption.
  - rewrite <- E.
    rewrite (Split_pair ":" ip _ Hic (FormatUint_has ":" port eq_refl)).
    rewrite (Split_pair "-" _ _ (FormatUint_has "-" slave eq_refl)
               (FormatUint_has "-" to eq_refl)).
    rewrite (Split_pair "-" _ _ (FormatUint_has "-" addr eq_refl)
               (FormatUint_has "-" qty eq_refl)).
    cbn [string_at nth_error xbind].
    rewrite !parsed_FormatUint by (cbn [In]; auto || lia).
    cbn [xbind]. unfold u16.
    rewrite (Z.mod_small port), (Z.mod_small qty) by lia. reflexivity.
  - pose proof (FormatUint_nonempty slave) as Hne.
    destruct (FormatUint slave); [congruence|discriminate].
Qed.

Lemma NewURL_parses_witness :
  NewURL "rotp://10.0.0.1:502/17-5/400010-2" =
  XOk (mkURL "rotp://10.0.0.1:502/17-5/400010-2" "10.0.0.1" 502 x11 5
             "rotp" 400010 2).
Proof.
  apply (NewURL_parses "rotp" "10.0.0.1" 502 17 5 400010 2
           eq_refl eq_refl eq_refl eq_refl); lia.
Defined.

(** A URL that lacks the port, the timeout or the quantity (a part without
    its colon or dash) makes [NewURL] panic with an index out of range; no
    error is returned. *)
Theorem NewURL_missing_part_panics (proto host mid last ip : string)
  (port slave to addr : Z) :
  has "/" proto = false -> has ":" proto = false ->
  has "/" host = false -> has "/" mid = false -> has "/" last = false ->
  let NewURL_of host mid last :=
    NewURL (proto ++ "://" ++ host ++ "/" ++ mid ++ "/" ++ last) in
  let host_ok := (ip ++ ":" ++ FormatUint port)%string in
  let mid_ok := (FormatUint slave ++ "-" ++ FormatUint to)%string in
  (has ":" host = false -> mid <> EmptyString ->
   NewURL_of host mid last = XPanic IndexOutOfRange) /\
  (has "/" ip = false -> has ":" ip = false ->
   0 <= port < 2 ^ 16 -> 0 <= slave < 2 ^ 8 ->
   NewURL_of host_ok (FormatUint slave) last = XPanic IndexOutOfRange) /\
  (has "/" ip = false -> has ":" ip = false ->
   0 <= port < 2 ^ 16 -> 0 <= slave < 2 ^ 8 -> 0 <= to < 2 ^ 32 ->
   0 <= addr < 2 ^ 64 ->
   NewURL_of host_ok mid_ok (FormatUint addr) = XPanic IndexOutOfRange).
Proof.
  intros Hp Hpc Hh Hm Hl NewURL_of host_ok mid_ok.
  pose proof (FormatUint_has "/" port eq_refl) as Hs1.
  pose proof (FormatUint_has "/" slave eq_refl) as Hs2.
  pose proof (FormatUint_has "/" to eq_refl) as Hs3.
  pose proof (FormatUint_has "/" addr eq_refl) as Hs4.
  assert (Hne : forall a, FormatUint a <> EmptyString)
    by exact FormatUint_nonempty.
  assert (Hne2 : forall a r, (FormatUint a ++ r)%string <> EmptyString).
  { intros a r. specialize (Hne a).
    destruct (FormatUint a); [congruence|discriminate]. }
  refine (conj _ (conj _ _)).
  - intros Hhc Hmne. unfold NewURL_of.
    rewrite NewURL_components by assumption.
    rewrite (Split_whole ":" host Hhc). reflexivity.
  - intros Hi Hic Hport Hslave. unfold NewURL_of, host_ok.
    rewrite NewURL_components;
      rewrite ?has_append, ?Hi, ?Hs1, ?Hs2; try reflexivity;
      try assumption; try apply Hne.
    rewrite (Split_pair ":" ip _ Hic (FormatUint_has ":" port eq_refl)).
    rewrite (Split_whole "-" _ (FormatUint_has "-" slave eq_refl)).
    cbn [string_at nth_error xbind].
    rewrite !parsed_FormatUint by (cbn [In]; auto || lia).
    reflexivity.
  - intros Hi Hic Hport Hslave Hto Haddr. unfold NewURL_of, host_ok, mid_ok.
    rewrite NewURL_components;
      rewrite ?has_append, ?Hi, ?Hs1, ?Hs2, ?Hs3, ?Hs4; try reflexivity;
      try assumption; try apply Hne2.
    rewrite (Split_pair ":" ip _ Hic (FormatUint_has ":" port eq_refl)).
    rewrite (Split_pair "-" _ _ (FormatUint_has "-" slave eq_refl)
               (FormatUint_has "-" to eq_refl)).
    rewrite (Split_whole "-" _ (FormatUint_has "-" addr eq_refl)).
    cbn [string_at nth_error xbind].
    rewrite !parsed_FormatUint by (cbn [In]; auto || lia).
    reflexivity.
Qed.

Lemma NewURL_missing_part_panics_witness :
  NewURL "rotp://10.0.0.1/17-5/400010-2" = XPanic IndexOutOfRange /\
  NewURL "rotp://10.0.0.1:502/17/400010-2" = XPanic IndexOutOfRange /\
  NewURL "rotp://10.0.0.1:502/17-5/400010" = XPanic IndexOutOfRange.
Proof.
  refine (conj _ (conj _ _)).
  - apply (proj1 (NewURL_missing_part_panics "rotp" "10.0.0.1" "17-5"
                    "400010-2" "10.0.0.1" 502 17 5 400010
                    eq_refl eq_refl eq_refl eq_refl eq_refl));
      [reflexivity|discriminate].
  - apply (proj1 (proj2 (NewURL_missing_part_panics "rotp" "10.0.0.1" "17-5"
                    "400010-2" "10.0.0.1" 502 17 5 400010
                    eq_refl eq_refl eq_refl eq_refl eq_refl)));
      [reflexivity|reflexivity|lia|lia].
  - apply (proj2 (proj2 (NewURL_missing_part_panics "rotp" "10.0.0.1" "17-5"
                    "400010" "10.0.0.1" 502 17 5 400010
                    eq_refl eq_refl eq_refl eq_refl eq_refl)));
      [reflexivity|reflexivity|lia|lia|lia|lia].
Defined.

(** * Requests on the wire *)

Lemma Relative_legal (a : Z) (fn : FnCode) (rel : Z) :
  Relative a = (fn, rel, None) -> legal_absolute a.
Proof.
  unfold Relative, legal_absolute. intros H.
  destruct (Z.leb_spec 0 a), (Z.leb_spec a 65535); cbn [andb] in H;
    try (left; lia);
    destruct (Z.leb_spec 100000 a), (Z.leb_spec a 165535); cbn [andb] in H;
    try (right; left; lia);
    destruct (Z.leb_spec 300000 a), (Z.leb_spec a 365535); cbn [andb] in H;
    try (right; right; left; lia);
    destruct (Z.leb_spec 400000 a), (Z.leb_spec a 465535); cbn [andb] in H;
    try (right; right; right; lia); discriminate.
Qed.

(** The read request that [Client.Read] builds for an absolute address and
    a quantity, as bytes on the wire.  With the RTU protocol: slave id,
    function code of the address range, relative address and quantity (high
    bytes first), CRC.  With the MBAP protocol: transaction id, protocol id
    0, length 6, slave id, then the same function code, address and
    quantity. *)
Theorem read_request_frames (slave : byte) (m : ModbusTCP) (a qty : Z)
  (fn : FnCode) (rel : Z) :
  0 <= a < 2 ^ 64 ->
  Relative a = (fn, rel, None) ->
  let body := [fn; Z_to_byte (Z.shiftr rel 8); Z_to_byte rel;
               Z_to_byte (Z.shiftr qty 8); Z_to_byte qty] in
  exists request pdu,
    NewRequest FERR (FormatUint a) qty = XOk request /\
    Request_Encode request = Ok pdu /\
    (exists adu, RTU_Encode slave pdu = Ok adu /\
                 Bytes adu = Ok (append_CRC (slave :: body))) /\
    (exists adu, snd (ModbusTCP_Encode m pdu) = XOk adu /\
                 Bytes adu =
                 Ok ([Z_to_byte (Z.shiftr (mb_TransactionId m) 8);
                      Z_to_byte (mb_TransactionId m);
                      x00; x00; x00; x06; mb_SlaveId m] ++ body)).
Proof.
  intros Ha Hr body.
  destruct (read_PDU_request FERR a qty Ha (Relative_legal a fn rel Hr))
    as [request [Hn He]].
  exists request, (read_PDU a qty). split; [exact Hn|]. split; [exact He|].
  unfold read_PDU. rewrite Hr. split.
  - eexists. split; [apply RTU_Encode_eq|].
    unfold Bytes, append_CRC, body.
    cbn [adu_SOF adu_Hdr adu_FnCode adu_Data adu_Err adu_EOF pdu_FnCode
         pdu_Data app].
    rewrite app_nil_r. reflexivity.
  - rewrite ModbusTCP_Encode_eq. cbn [snd]. cbv zeta.
    change (u16 (2 + len (pdu_Data (mkPDU [fn]
              [Z_to_byte (Z.shiftr rel 8); Z_to_byte rel;
               Z_to_byte (Z.shiftr qty 8); Z_to_byte qty])))) with 6.
    cbn [Z.leb Z.compare]. eexists. split; [reflexivity|].
    reflexivity.
Qed.

Lemma read_request_frames_witness :
  exists request pdu,
    NewRequest FERR (FormatUint 400010) 2 = XOk request /\
    Request_Encode request = Ok pdu /\
    (exists adu, RTU_Encode x11 pdu = Ok adu /\
                 Bytes adu =
                 Ok (append_CRC [x11; x03; x00; x0a; x00; x02])) /\
    (exists adu, snd (ModbusTCP_Encode (NewModbusTCP x11) pdu) = XOk adu /\
                 Bytes adu =
                 Ok [x00; x00; x00; x00; x00; x06; x11;
                     x03; x00; x0a; x00; x02]).
Proof.
  apply (read_request_frames x11 (NewModbusTCP x11) 400010 2 x03 10
           ltac:(lia) eq_refl).
Defined.

(** ** Numbers that do not fit their field *)

(** The digit loop on digits whose value exceeds [maxVal]: a range error,
    whatever follows the digits. *)
Lemma ParseUint_loop_range (maxVal : Z) (d : Decimal.uint) (rest : string)
  (n : Z) :
  0 <= n <= maxVal -> maxVal < uint_val n d -> maxVal < 2 ^ 64 ->
  ParseUint_loop maxVal
    (DecimalString.NilEmpty.string_of_uint d ++ rest)%string n =
  (maxVal, Some ErrRange).
Proof.
  revert n.
  induction d; intros n Hn Hv Hm;
    cbn [DecimalString.NilEmpty.string_of_uint String.append uint_val];
    cbn [uint_val] in Hv; [lia|..];
    match type of Hv with
    | _ < uint_val ?m _ =>
        cbn [ParseUint_loop];
        match goal with
        | |- context [N_of_ascii ?c] =>
            let v := eval vm_compute in (Z.of_N (N_of_ascii c)) in
            change (Z.of_N (N_of_ascii c)) with v
        end;
        cbn [Z.leb Z.compare Pos.compare Pos.compare_cont andb Z.sub Z.add
             Z.opp Z.pos_sub Pos.pred_double Z.succ_double Z.pred_double
             Z.double];
        cbv zeta;
        destruct (Z.leb_spec 1844674407370955162 n); [reflexivity|];
        unfold u64; rewrite (Z.mod_small (n * 10)) by lia;
        match goal with
        | |- context [(n * 10 + ?k) mod _] =>
            destruct (Z.lt_ge_cases (n * 10 + k) (2 ^ 64)) as [Hs|Hb];
            [ rewrite (Z.mod_small (n * 10 + k)) by lia;
              destruct (Z.ltb_spec (n * 10 + k) (n * 10)); [lia|];
              destruct (Z.ltb_spec maxVal (n * 10 + k)); [reflexivity|];
              cbn [orb]; replace (n * 10 + k) with m by lia;
              apply IHd; lia
            | replace ((n * 10 + k) mod 18446744073709551616)
                with (n * 10 + k - 18446744073709551616)
                by (apply (Z.mod_unique _ _ 1); lia);
              destruct (Z.ltb_spec (n * 10 + k - 18446744073709551616)
                                   (n * 10));
              [reflexivity|lia] ]
        end
    end.
Qed.

Lemma ParseUint_FormatUint_range (a bitSize : Z) :
  In bitSize [8; 16; 32; 64] -> 2 ^ bitSize <= a ->
  ParseUint (FormatUint a) bitSize = (2 ^ bitSize - 1, Some ErrRange).
Proof.
  intros Hb Ha.
  assert (Hm : u64 (u64 (Z.shiftl 1 bitSize) - 1) = 2 ^ bitSize - 1 /\
               2 ^ bitSize <= 2 ^ 64 /\ 0 < 2 ^ bitSize).
  { cbn [In] in Hb.
    destruct Hb as [<-|[<-|[<-|[<-|[]]]]]; repeat split; vm_compute;
      congruence. }
  destruct Hm as [Hm [Hle Hpos]].
  rewrite <- (append_empty (FormatUint a)).
  unfold FormatUint, ParseUint.
  destruct (string_of_uint_nonnil _ (to_uint_nonnil (Z.to_N a)))
    as [-> [c [s Hs]]].
  rewrite Hs at 1. cbn [String.append]. rewrite Hm.
  assert (Hv : uint_val 0 (N.to_uint (Z.to_N a)) = a).
  { rewrite <- of_uint_val.
    change (Pos.of_uint (N.to_uint (Z.to_N a)))
      with (N.of_uint (N.to_uint (Z.to_N a))).
    rewrite DecimalN.Unsigned.of_to. lia. }
  apply ParseUint_loop_range; rewrite ?Hv; lia.
Qed.

Lemma parsed_FormatUint_range (what : string) (a bitSize : Z) :
  In bitSize [8; 16; 32; 64] -> 2 ^ bitSize <= a ->
  parsed what (FormatUint a) bitSize = XErr (ErrParse what ErrRange).
Proof.
  intros Hb Ha. unfold parsed.
  rewrite (ParseUint_FormatUint_range a bitSize Hb Ha). reflexivity.
Qed.

(** In a URL of the right form, a decimal number that does not fit its
    field (port 16 bits, slave id 8, timeout 32, address 64, quantity 16)
    is refused with a range error that names the field; the fields are
    checked in that order and the first one that fails is reported. *)
Theorem NewURL_number_out_of_range (proto ip : string)
  (port slave to addr qty : Z) :
  has "/" proto = false -> has ":" proto = false ->
  has "/" ip = false -> has ":" ip = false ->
  0 <= port -> 0 <= slave -> 0 <= to -> 0 <= addr -> 0 <= qty ->
  2 ^ 16 <= port \/ 2 ^ 8 <= slave \/ 2 ^ 32 <= to \/ 2 ^ 64 <= addr \/
  2 ^ 16 <= qty ->
  NewURL (proto ++ "://" ++ ip ++ ":" ++ FormatUint port ++ "/" ++
          FormatUint slave ++ "-" ++ FormatUint to ++ "/" ++
          FormatUint addr ++ "-" ++ FormatUint qty) =
  XErr (ErrParse (if 2 ^ 16 <=? port then "Port number"
                  else if 2 ^ 8 <=? slave then "Slave Id"
                  else if 2 ^ 32 <=? to then "Timeout"
                  else if 2 ^ 64 <=? addr then "Address"
                  else "Quantity") ErrRange).
Proof.
  intros Hp Hpc Hi Hic Hport Hslave Hto Haddr Hqty Hbad.
  pose proof (FormatUint_has "/" port eq_refl) as Hs1.
  pose proof (FormatUint_has "/" slave eq_refl) as Hs2.
  pose proof (FormatUint_has "/" to eq_refl) as Hs3.
  pose proof (FormatUint_has "/" addr eq_refl) as Hs4.
  pose proof (FormatUint_has "/" qty eq_refl) as Hs5.
  match goal with
  | |- NewURL ?s = _ =>
      assert (E : s =
        (proto ++ "://" ++ (ip ++ ":" ++ FormatUint port) ++ "/" ++
         (FormatUint slave ++ "-" ++ FormatUint to) ++ "/" ++
         (FormatUint addr ++ "-" ++ FormatUint qty))%string)
        by (rewrite !string_append_assoc; reflexivity);
      rewrite E
  end.
  rewrite NewURL_components;
    rewrite ?has_append, ?Hi, ?Hs1, ?Hs2, ?Hs3, ?Hs4, ?Hs5;
    try reflexivity; try assumption.
  - rewrite (Split_pair ":" ip _ Hic (FormatUint_has ":" port eq_refl)).
    rewrite (Split_pair "-" _ _ (FormatUint_has "-" slave eq_refl)
               (FormatUint_has "-" to eq_refl)).
    rewrite (Split_pair "-" _ _ (FormatUint_has "-" addr eq_refl)
               (FormatUint_has "-" qty eq_refl)).
    cbn [string_at nth_error xbind].
    destruct (Z.leb_spec (2 ^ 16) port) as [H1|H1].
    { rewrite parsed_FormatUint_range by (cbn [In]; auto || lia).
      reflexivity. }
    rewrite (parsed_FormatUint _ port) by (cbn [In]; auto || lia).
    cbn [xbind].
    destruct (Z.leb_spec (2 ^ 8) slave) as [H2|H2].
    { rewrite parsed_FormatUint_range by (cbn [In]; auto || lia).
      reflexivity. }
    rewrite (parsed_FormatUint _ slave) by (cbn [In]; auto || lia).
    cbn [xbind].
    destruct (Z.leb_spec (2 ^ 32) to) as [H3|H3].
    { rewrite parsed_FormatUint_range by (cbn [In]; auto || lia).
      reflexivity. }
    rewrite (parsed_FormatUint _ to) by (cbn [In]; auto || lia).
    cbn [xbind].
    destruct (Z.leb_spec (2 ^ 64) addr) as [H4|H4].
    { rewrite parsed_FormatUint_range by (cbn [In]; auto || lia).
      reflexivity. }
    rewrite (parsed_FormatUint _ addr) by (cbn [In]; auto || lia).
    cbn [xbind].
    rewrite parsed_FormatUint_range by (cbn [In]; auto || lia).
    reflexivity.
  - pose proof (FormatUint_nonempty slave) as Hne.
    destruct (FormatUint slave); [congruence|discriminate].
Qed.

Lemma NewURL_number_out_of_range_witness :
  NewURL "rotp://10.0.0.1:70000/17-5/400010-2" =
    XErr (ErrParse "Port number" ErrRange) /\
  NewURL "rotp://10.0.0.1:502/256-5/400010-65536" =
    XErr (ErrParse "Slave Id" ErrRange).
Proof.
  refine (conj _ _).
  - apply (NewURL_number_out_of_range "rotp" "10.0.0.1" 70000 17 5 400010 2
             eq_refl eq_refl eq_refl eq_refl); lia.
  - apply (NewURL_number_out_of_range "rotp" "10.0.0.1" 502 256 5 400010
             65536 eq_refl eq_refl eq_refl eq_refl); lia.
Defined.
